(** * KPI entry service: scoring, period windows, entry lifecycle and reports

    A shallow embedding of [src/modules/kpi_entry/kpi_entry.services.ts]
    (class [KpiEntryService]) and of the part of
    [src/modules/members/members.service.ts] it calls, with the properties
    of the scoring and reporting engine stated against it.

    Modelling conventions.
    - A JavaScript number that comes from a JSON document is a finite
      double; such numbers are embedded as rationals ([Q]).  Comparison,
      [===] and the sign of a difference are exact on finite doubles, so
      the scoring and ranking code is modelled without loss.  Where the
      code divides or reads a text as a number, the result type is
      [number], which adds [NaN] and the infinities.  Sums, products and
      quotients are taken exactly: their rounding error is not modelled.
    - A string is the UTF-8 encoding of the JavaScript string; a text
      read as a number gives the double nearest to its value.
    - An instant ([Date]) is its time value in milliseconds, read on the
      local clock; the zone offset is constant (no daylight saving).
    - A Mongo collection is the list of its documents in natural order.
    - [Map] objects that are only read with [get] are [gmap]s; the one
      that is iterated ([membersByRole]) is an insertion-ordered
      association list. *)

From Stdlib Require Import ZArith QArith Qround Lia Lqa Bool Ascii.
From Stdlib Require Import Sorting.Sorted.
From stdpp Require Import base gmap strings pretty list.

Local Open Scope string_scope.
Local Open Scope list_scope.
Local Open Scope Z_scope.

(** ** Values and scoring rules *)

(** [number | string | boolean] *)
Inductive JsValue :=
| VNum (n : Q)
| VStr (s : string)
| VBool (b : bool).

(** [value?: number | string] of a scoring rule *)
Inductive RuleValue :=
| RNum (n : Q)
| RStr (s : string).

(** [interface ScoringRule] *)
Record ScoringRule := {
  r_min : option Q;
  r_max : option Q;
  r_value : option RuleValue;
  r_score : Q
}.

Inductive KpiType := quantitative | percentage | binary | qualitative | score.

(** [interface TemplateItem] *)
Record TemplateItem := {
  ti_name : string;
  ti_maxMarks : Q;
  ti_kpiType : KpiType;
  ti_isDynamic : bool;
  ti_scoringRules : list ScoringRule
}.

(** ** Numbers and strings *)

(** A JavaScript number that may be the result of a division or of the
    coercion of a text. *)
Inductive number :=
| Finite (q : Q)
| PosInfinity
| NegInfinity
| NaN.

(** [- x] *)
Definition negate (x : number) : number :=
  match x with
  | Finite q => Finite (- q)
  | PosInfinity => NegInfinity
  | NegInfinity => PosInfinity
  | NaN => NaN
  end.

(** [a - b] *)
Definition minus (a b : number) : number :=
  match a, b with
  | NaN, _ | _, NaN => NaN
  | Finite x, Finite y => Finite (x - y)
  | PosInfinity, PosInfinity | NegInfinity, NegInfinity => NaN
  | PosInfinity, _ | _, NegInfinity => PosInfinity
  | NegInfinity, _ | _, PosInfinity => NegInfinity
  end.

(** [n >= x] for a finite [n] *)
Definition atLeast (n : Q) (x : number) : bool :=
  match x with
  | Finite q => Qle_bool q n
  | NegInfinity => true
  | PosInfinity | NaN => false
  end.

(** *** White space

    The white space of [String.prototype.trim] and of [StringToNumber]
    is [WhiteSpace] and [LineTerminator] of ECMA-262: U+0009 to U+000D,
    U+0020, U+00A0, U+1680, U+2000 to U+200A, U+2028, U+2029, U+202F,
    U+205F, U+3000 and U+FEFF, in one, two or three bytes. *)
Definition byteOf (a : ascii) : Z := Z.of_N (Ascii.N_of_ascii a).

Definition isWhiteSpace1 (a : ascii) : bool :=
  (0x09 <=? byteOf a) && (byteOf a <=? 0x0D) || (byteOf a =? 0x20).

Definition isWhiteSpace2 (a b : ascii) : bool :=
  (byteOf a =? 0xC2) && (byteOf b =? 0xA0).

Definition isWhiteSpace3 (a b c : ascii) : bool :=
  (byteOf a =? 0xE1) && (byteOf b =? 0x9A) && (byteOf c =? 0x80)
  || (byteOf a =? 0xE2) && (byteOf b =? 0x80)
     && ((0x80 <=? byteOf c) && (byteOf c <=? 0x8A)
         || (byteOf c =? 0xA8) || (byteOf c =? 0xA9) || (byteOf c =? 0xAF))
  || (byteOf a =? 0xE2) && (byteOf b =? 0x81) && (byteOf c =? 0x9F)
  || (byteOf a =? 0xE3) && (byteOf b =? 0x80) && (byteOf c =? 0x80)
  || (byteOf a =? 0xEF) && (byteOf b =? 0xBB) && (byteOf c =? 0xBF).

(** [String.prototype.trimStart], [trimEnd] and [trim] *)
Fixpoint trimStart (s : string) : string :=
  match s with
  | String a s1 =>
      if isWhiteSpace1 a then trimStart s1
      else
        match s1 with
        | String b s2 =>
            if isWhiteSpace2 a b then trimStart s2
            else
              match s2 with
              | String c s3 => if isWhiteSpace3 a b c then trimStart s3 else s
              | EmptyString => s
              end
        | EmptyString => s
        end
  | EmptyString => s
  end.

Fixpoint trimEnd (s : string) : string :=
  match s with
  | String a s1 =>
      if String.eqb (trimStart s) "" then "" else String a (trimEnd s1)
  | EmptyString => s
  end.

Definition trim (s : string) : string := trimEnd (trimStart s).

(** *** The double nearest to a rational

    Round to nearest, ties to even, in IEEE 754 binary64: a significand
    of 53 bits, exponents from -1022 (with the subnormal numbers below)
    to 1023, and the infinities beyond. *)

(** [a / b] rounded to the nearest integer, ties to even, for [0 < b]. *)
Definition roundHalfEven (a b : Z) : Z :=
  let q := a / b in
  match 2 * (a mod b) ?= b with
  | Lt => q
  | Gt => q + 1
  | Eq => if Z.even q then q else q + 1
  end.

Definition roundPositive (n d : positive) : number :=
  let n := Z.pos n in
  let d := Z.pos d in
  let e0 := Z.log2 n - Z.log2 d in
  let reaches2 := if 0 <=? e0 then d * 2 ^ e0 <=? n else d <=? n * 2 ^ (- e0) in
  let e := if reaches2 then e0 else e0 - 1 in
  let p := Z.max e (-1022) - 52 in
  if 0 <=? p then
    let m := roundHalfEven n (d * 2 ^ p) in
    if 2 ^ 1024 <=? m * 2 ^ p then PosInfinity else Finite (inject_Z (m * 2 ^ p))
  else
    let m := roundHalfEven (n * 2 ^ (- p)) d in
    Finite (Qred (m # Z.to_pos (2 ^ (- p)))).

Definition roundToDouble (q : Q) : number :=
  match Qnum q with
  | Z0 => Finite 0
  | Zpos n => roundPositive n (Qden q)
  | Zneg n => negate (roundPositive n (Qden q))
  end.

(** *** [StringToNumber]

    The numeric value of a text (ECMA-262, [StringNumericLiteral]):
    white space around it is skipped, an empty text is 0, [0x], [0o] and
    [0b] start an integer in another radix, and anything that is not a
    numeric literal is [NaN]. *)
Definition digitValue (a : ascii) : option Z :=
  let c := byteOf a in
  if (48 <=? c) && (c <=? 57) then Some (c - 48)
  else if (97 <=? c) && (c <=? 102) then Some (c - 87)
  else if (65 <=? c) && (c <=? 70) then Some (c - 55)
  else None.

(** The digits at the start of [s]: the value they add to [value], their
    number added to [count], and the rest of the text. *)
Fixpoint digits (radix : Z) (s : string) (value count : Z) : Z * Z * string :=
  match s with
  | String a s1 =>
      match digitValue a with
      | Some d =>
          if d <? radix then digits radix s1 (value * radix + d) (count + 1)
          else (value, count, s)
      | None => (value, count, s)
      end
  | EmptyString => (value, count, s)
  end.

(** [m * 10 ^ k] *)
Definition timesPowerOfTen (m k : Z) : Q :=
  if 0 <=? k then inject_Z (m * 10 ^ k) else m # Z.to_pos (10 ^ (- k)).

(** [ExponentPart], if any, up to the end of the text. *)
Definition exponentPart (s : string) : option Z :=
  match s with
  | EmptyString => Some 0
  | String a r =>
      if (byteOf a =? 101) || (byteOf a =? 69) then
        let signed :=
          match r with
          | String b r' =>
              if byteOf b =? 43 then (1, r')
              else if byteOf b =? 45 then (-1, r')
              else (1, r)
          | EmptyString => (1, r)
          end in
        let '(x, n, rest) := digits 10 signed.2 0 0 in
        if (0 <? n) && String.eqb rest "" then Some (signed.1 * x) else None
      else None
  end.

(** [StrUnsignedDecimalLiteral] *)
Definition unsignedDecimal (s : string) : number :=
  if String.eqb s "Infinity" then PosInfinity
  else
    let '(i, ni, s1) := digits 10 s 0 0 in
    let '(m, nf, s2) :=
      match s1 with
      | String a r => if byteOf a =? 46 then digits 10 r i 0 else (i, 0, s1)
      | EmptyString => (i, 0, s1)
      end in
    match exponentPart s2 with
    | Some x =>
        if 0 <? ni + nf then roundToDouble (timesPowerOfTen m (x - nf)) else NaN
    | None => NaN
    end.

(** [StrDecimalLiteral] *)
Definition decimal (s : string) : number :=
  match s with
  | String a r =>
      if byteOf a =? 43 then unsignedDecimal r
      else if byteOf a =? 45 then negate (unsignedDecimal r)
      else unsignedDecimal s
  | EmptyString => NaN
  end.

(** The radix of a [NonDecimalIntegerLiteral] that starts with [0] and
    the byte [c]. *)
Definition radixOf (c : Z) : option Z :=
  if (c =? 120) || (c =? 88) then Some 16
  else if (c =? 111) || (c =? 79) then Some 8
  else if (c =? 98) || (c =? 66) then Some 2
  else None.

Definition StringToNumber (s : string) : number :=
  let text := trim s in
  match text with
  | EmptyString => Finite 0
  | String a r =>
      match (if byteOf a =? 48 then
               match r with
               | String b digitsText =>
                   (fun radix => (radix, digitsText)) <$> radixOf (byteOf b)
               | EmptyString => None
               end
             else None) with
      | Some (radix, digitsText) =>
          let '(v, n, rest) := digits radix digitsText 0 0 in
          if (0 <? n) && String.eqb rest "" then roundToDouble (inject_Z v)
          else NaN
      | None => decimal text
      end
  end.

(** ** [Array.prototype.sort]

    The sort is stable and, for a consistent comparator, returns the one
    stable ordering; it is modelled by insertion from the right.  A
    comparator result of [NaN] is treated as [+0]. *)
Section JsSort.
Context {A : Type} (comparefn : A -> A -> number).

(** [comparefn(x, y) <= 0]: [x] may stay in front of [y]. *)
Definition keepsBefore (x y : A) : bool :=
  match comparefn x y with
  | Finite v => Qle_bool v 0
  | NegInfinity | NaN => true
  | PosInfinity => false
  end.

Fixpoint sortInsert (x : A) (l : list A) : list A :=
  match l with
  | [] => [x]
  | y :: l' => if keepsBefore x y then x :: y :: l' else y :: sortInsert x l'
  end.

Definition sort (l : list A) : list A := foldr sortInsert [] l.
End JsSort.

(** ** [calculateScore] *)

(** [ToNumber] of a rule value: a number is itself, a text is read by
    [StringToNumber]. *)
Definition toNumber (v : RuleValue) : number :=
  match v with
  | RNum x => Finite x
  | RStr s => StringToNumber s
  end.

(** [rule.value as number] in arithmetic; [undefined] gives [NaN]. *)
Definition ruleNumber (r : ScoringRule) : number :=
  match r_value r with
  | Some v => toNumber v
  | None => NaN
  end.

(** [(a, b) => (b.value as number) - (a.value as number)] *)
Definition byValueDesc (a b : ScoringRule) : number :=
  minus (ruleNumber b) (ruleNumber a).

(** [rule.value !== undefined] *)
Definition hasValue (rule : ScoringRule) : bool :=
  bool_decide (is_Some (r_value rule)).

(** [value >= (rule.value as number)] *)
Definition reaches (n : Q) (r : ScoringRule) : bool := atLeast n (ruleNumber r).

(** [value === rule.value] *)
Definition strictEq (v : JsValue) (rv : RuleValue) : bool :=
  match v, rv with
  | VNum a, RNum b => Qeq_bool a b
  | VStr s, RStr t => String.eqb s t
  | _, _ => false
  end.

(** The loop over the rules in declared order (range and exact rules). *)
Fixpoint firstMatchingRule (v : JsValue) (rules : list ScoringRule) : Q :=
  match rules with
  | [] => 0%Q
  | rule :: rest =>
      match r_min rule, r_max rule with
      | Some lo, Some hi =>
          match v with
          | VNum n =>
              if Qle_bool lo n && Qle_bool n hi then r_score rule
              else firstMatchingRule v rest
          | _ => firstMatchingRule v rest
          end
      | _, _ =>
          match r_value rule with
          | Some rv =>
              if strictEq v rv then r_score rule else firstMatchingRule v rest
          | None => firstMatchingRule v rest
          end
      end
  end.

Definition calculateScore (v : JsValue) (scoringRules : list ScoringRule)
    (kpiType : option KpiType) (kpiName : option string) : Q :=
  match kpiType, v with
  | Some score, VNum n => n
  | Some percentage, VNum n =>
      let sortedRules :=
        sort byValueDesc (List.filter hasValue scoringRules) in
      match List.find (reaches n) sortedRules with
      | Some rule => r_score rule
      | None => 0%Q
      end
  | _, _ => firstMatchingRule v scoringRules
  end.

(** The rules of the worked example: [{value:90,score:5},{value:75,score:3}]. *)
Definition exactRule (v s : Q) : ScoringRule :=
  {| r_min := None; r_max := None; r_value := Some (RNum v); r_score := s |}.

Definition percentageExample : list ScoringRule :=
  [exactRule 90 5; exactRule 75 3].

(** ** Dates

    [Day], [TimeWithinDay] and [WeekDay] are those of ECMA-262; the
    year, month and day of the month are those of the proleptic Gregorian
    calendar, computed by the era-based (400-year cycle) conversion. *)

Definition msPerDay : Z := 86400000.

Definition Day (t : Z) : Z := t / msPerDay.
Definition TimeWithinDay (t : Z) : Z := t mod msPerDay.

(** Days since the epoch to (year, month in 1..12, day in 1..31). *)
Definition civilFromDays (z : Z) : Z * Z * Z :=
  let z := z + 719468 in
  let era := z / 146097 in
  let doe := z mod 146097 in
  let yoe := (doe - doe / 1460 + doe / 36524 - doe / 146096) / 365 in
  let y := yoe + era * 400 in
  let doy := doe - (365 * yoe + yoe / 4 - yoe / 100) in
  let mp := (5 * doy + 2) / 153 in
  let d := doy - (153 * mp + 2) / 5 + 1 in
  let m := if mp <? 10 then mp + 3 else mp - 9 in
  (if m <=? 2 then y + 1 else y, m, d).

(** (year, month in 1..12, day) to days since the epoch. *)
Definition daysFromCivil (y m d : Z) : Z :=
  let y := if m <=? 2 then y - 1 else y in
  let era := y / 400 in
  let yoe := y mod 400 in
  let doy := (153 * (if 2 <? m then m - 3 else m + 9) + 2) / 5 + d - 1 in
  let doe := yoe * 365 + yoe / 4 - yoe / 100 + doy in
  era * 146097 + doe - 719468.

(** [date.getFullYear()], [date.getMonth()] (0-based), [date.getDate()],
    [date.getDay()] (0 = Sunday; the epoch was a Thursday). *)
Definition getFullYear (t : Z) : Z := (civilFromDays (Day t)).1.1.
Definition getMonth (t : Z) : Z := (civilFromDays (Day t)).1.2 - 1.
Definition getDate (t : Z) : Z := (civilFromDays (Day t)).2.
Definition getDay (t : Z) : Z := (Day t + 4) mod 7.

(** [MakeDay]: a month outside 0..11 carries into the year, a day outside
    the month carries into the neighbouring months. *)
Definition MakeDay (year month date : Z) : Z :=
  daysFromCivil (year + month / 12) (month mod 12 + 1) 1 + date - 1.

(** [new Date(year, month, date)]: local midnight of that day.  A year
    in 0..99 means 1900 + year. *)
Definition newDate (year month date : Z) : Z :=
  let year := if (0 <=? year) && (year <=? 99) then 1900 + year else year in
  MakeDay year month date * msPerDay.

(** [date.setHours(h, m, s, ms)] *)
Definition setHours (t h m s ms : Z) : Z :=
  Day t * msPerDay + ((h * 60 + m) * 60 + s) * 1000 + ms.

(** [date.toDateString()], as the components it prints
    (weekday, month, day of the month, year). *)
Definition toDateString (t : Z) : Z * Z * Z * Z :=
  (getDay t, getMonth t, getDate t, getFullYear t).

(** ** The period window of [checkFrequencyValidation]

    The [switch (frequency)] that computes [startDate] and [endDate];
    [None] is the [default] branch, which throws. *)
Definition periodWindow (frequency : string) (currentDate : Z) : option (Z * Z) :=
  if String.eqb frequency "daily" then
    let startDate :=
      newDate (getFullYear currentDate) (getMonth currentDate) (getDate currentDate) in
    let endDate := startDate + 24 * 60 * 60 * 1000 in
    Some (startDate, endDate)
  else if String.eqb frequency "weekly" then
    let dayOfWeek := getDay currentDate in
    let daysToSubtract := if dayOfWeek =? 0 then 6 else dayOfWeek - 1 in
    let startDate := currentDate - daysToSubtract * 24 * 60 * 60 * 1000 in
    let startDate := setHours startDate 0 0 0 0 in
    let endDate := startDate + 7 * 24 * 60 * 60 * 1000 in
    Some (startDate, endDate)
  else if String.eqb frequency "monthly" then
    let startDate := newDate (getFullYear currentDate) (getMonth currentDate) 1 in
    let endDate := newDate (getFullYear currentDate) (getMonth currentDate + 1) 0 in
    let endDate := setHours endDate 23 59 59 999 in
    Some (startDate, endDate)
  else if String.eqb frequency "quarterly" then
    let quarter := getMonth currentDate / 3 in
    let startDate := newDate (getFullYear currentDate) (quarter * 3) 1 in
    let endDate := newDate (getFullYear currentDate) ((quarter + 1) * 3) 0 in
    let endDate := setHours endDate 23 59 59 999 in
    Some (startDate, endDate)
  else if String.eqb frequency "yearly" then
    let startDate := newDate (getFullYear currentDate) 0 1 in
    let endDate := newDate (getFullYear currentDate) 11 31 in
    let endDate := setHours endDate 23 59 59 999 in
    Some (startDate, endDate)
  else None.

(** [getWeekNumber]: the quotient by 86400000 keeps the time of day as a
    fraction, and [Math.ceil] rounds the week up. *)
Definition getWeekNumber (date : Z) : Z :=
  let firstDayOfYear := newDate (getFullYear date) 0 1 in
  let pastDaysOfYear := (inject_Z (date - firstDayOfYear) / 86400000)%Q in
  Qceiling ((pastDaysOfYear + inject_Z (getDay firstDayOfYear) + 1) / 7)%Q.

(** An instant written as a local calendar date and time of day. *)
Definition at_ (year month1 day hh mm : Z) : Z :=
  daysFromCivil year month1 day * msPerDay + (hh * 60 + mm) * 60 * 1000.

(** ** Errors

    What the service throws: an [APIError] with its [STATUS], [TITLE] and
    [MESSAGE], or a plain [Error]. *)
Inductive Thrown :=
| APIError (STATUS : Z) (TITLE MESSAGE : string)
| Error (message : string).

Definition Result (A : Type) : Type := Thrown + A.

Definition ok {A} (a : A) : Result A := inr a.
Definition throw {A} (e : Thrown) : Result A := inl e.

Definition bind {A B} (m : Result A) (k : A -> Result B) : Result B :=
  match m with
  | inl e => inl e
  | inr a => k a
  end.

Notation "x <- m ;; k" := (bind m (fun x => k))
  (at level 100, m at next level, right associativity).
Notation "'check' m ;; k" := (bind m (fun _ => k))
  (at level 100, m at next level, right associativity).

Definition succeeded {A} (r : Result A) : bool :=
  match r with inr _ => true | inl _ => false end.

(** The error kinds of the specification, as the objects the code throws. *)
Definition PeriodConflict (frequency : string) : Thrown :=
  APIError 409 "KPI entry already exists for this period"
    ("A KPI entry already exists for " ++ frequency
     ++ " period. Only one entry is allowed per " ++ frequency ++ " period.").

Definition ReportAlreadyGenerated : Thrown :=
  APIError 409 "Generated KPI entry exists"
    "A generated KPI entry already exists for this period. No new entries can be created after report generation.".

Definition EntryLocked : Thrown :=
  APIError 400 "Update not allowed"
    "Cannot update KPI entries that have been generated. The entry has been finalized and locked.".

Definition UpdateWindowClosed (frequency : string) : Thrown :=
  APIError 400 "Update not allowed"
    ("Updates are not allowed after the " ++ frequency ++ " period has ended.").

Definition MissingRequiredValues (missing : list string) : Thrown :=
  APIError 400 "Missing required values"
    ("Missing required values for non-dynamic KPIs: "
     ++ String.concat ", " missing
     ++ ". All KPI items with isDynamic: false must be provided in the entry.").

Definition MissingBypassScore (name : string) : Thrown :=
  APIError 400 "Missing score field"
    ("Bypassed KPI " ++ name ++ " must have a score field").

Definition typeof (v : JsValue) : string :=
  match v with
  | VNum _ => "number"
  | VStr _ => "string"
  | VBool _ => "boolean"
  end.

Definition InvalidValueType (name expected : string) (v : JsValue) : Thrown :=
  APIError 400 "Invalid value type"
    ("KPI " ++ name ++ " expects " ++ expected ++ " value, got " ++ typeof v).

Definition EntryNotFound : Thrown :=
  APIError 404 "KPI entry not found" "KPI entry not found".

Definition TemplateNotFound : Thrown :=
  APIError 404 "KPI template not found" "KPI template not found".

Definition TemplateOrMemberNotFound (kpiTemplateId createdFor : string) : Thrown :=
  APIError 404 "KPI template or member not found"
    ("KPI template or member not found: " ++ kpiTemplateId ++ " or " ++ createdFor).

(** [`Template is not for ${member.role}`] *)
Definition RoleMismatch (memberRole : option string) : Thrown :=
  APIError 400 "Template is not for this role"
    ("Template is not for " ++ default "undefined" memberRole).

(** ** Entries, templates, members *)

Inductive Status := initiated | generated.

Definition Status_eqb (a b : Status) : bool :=
  match a, b with
  | initiated, initiated | generated, generated => true
  | _, _ => false
  end.

(** A submitted value: [score] and [isByPassed] may be absent. *)
Record ValueInput := {
  vi_name : string;
  vi_value : JsValue;
  vi_score : option Q;
  vi_comments : option string;
  vi_isByPassed : option bool
}.

(** A validated value ([zValue]): [score] is set. *)
Record EntryValue := {
  ev_name : string;
  ev_value : JsValue;
  ev_score : Q;
  ev_comments : option string;
  ev_isByPassed : option bool
}.

(** The body of a create request ([KpiEntryCreate] before validation). *)
Record KpiEntryCreate := {
  c_kpiTemplateId : string;
  c_values : list ValueInput;
  c_status : option Status;
  c_createdFor : string
}.

(** [Partial<KpiEntryCreate>] *)
Record KpiEntryPatch := {
  p_kpiTemplateId : option string;
  p_values : option (list ValueInput);
  p_status : option Status;
  p_createdFor : option string
}.

(** [KpiEntryCreate] as its type reads: scored values and a status. *)
Record KpiEntryFields := {
  f_kpiTemplateId : string;
  f_values : list EntryValue;
  f_status : Status;
  f_createdFor : string
}.

(** A document of [tbl_kpi_entries]. *)
Record KpiEntry := {
  e_id : nat;
  e_kpiTemplateId : string;
  e_values : list EntryValue;
  e_totalScore : Q;
  e_status : Status;
  e_createdBy : string;
  e_createdFor : string;
  e_createdAt : Z;
  e_updatedAt : Z
}.

Record KpiTemplate := {
  t_id : string;
  t_name : string;
  t_role : string;
  t_frequency : string;
  t_template : list TemplateItem
}.

Record User := {
  usr_name : string;
  usr_email : string
}.

(** A member document with its joined [user]. *)
Record Member := {
  m_userId : string;
  m_role : string;
  m_departmentSlug : string;
  m_user : option User
}.

(** The collections.  [nextId] is the identifier the next inserted entry
    receives.  The audit log is write-only and is left out. *)
Record Db := {
  tbl_kpi_entries : list KpiEntry;
  kpiTemplates : list KpiTemplate;
  memberDocs : list Member;
  nextId : nat
}.

Definition withEntries (db : Db) (es : list KpiEntry) : Db :=
  {| tbl_kpi_entries := es; kpiTemplates := kpiTemplates db;
     memberDocs := memberDocs db; nextId := nextId db |}.

(** [KpiTemplateService.getKpiTemplate] *)
Definition getKpiTemplate (db : Db) (id : string) : option KpiTemplate :=
  List.find (fun t => String.eqb (t_id t) id) (kpiTemplates db).

(** [MemberService.getMember]: the result is the object
    [{...member, user}], which exists even when no member document does;
    [None] here stands for that object without member fields.  User
    ids are kept abstract: they stand for well-formed [ObjectId] texts. *)
Definition getMember (db : Db) (id : string) : option Member :=
  List.find (fun m => String.eqb (m_userId m) id) (memberDocs db).

(** [KpiEntryModel.findById] *)
Definition findById (db : Db) (id : nat) : option KpiEntry :=
  List.find (fun e => Nat.eqb (e_id e) id) (tbl_kpi_entries db).

(** ** [validateRequiredValues] and [validateAndCalculateScores] *)

(** [names.includes(name)] *)
Definition includes (names : list string) (name : string) : bool :=
  existsb (String.eqb name) names.

Definition findItem (templateItems : list TemplateItem) (name : string)
    : option TemplateItem :=
  List.find (fun item => String.eqb (ti_name item) name) templateItems.

Definition validateRequiredValues (values : list ValueInput)
    (templateItems : list TemplateItem) : Result unit :=
  let providedKpiNames := map vi_name values in
  let missingNonDynamicKpis :=
    map ti_name
      (List.filter
         (fun item => negb (ti_isDynamic item)
                      && negb (includes providedKpiNames (ti_name item)))
         templateItems) in
  if (0 <? length missingNonDynamicKpis)%nat
  then throw (MissingRequiredValues missingNonDynamicKpis)
  else ok tt.

(** The type check on a value that is not bypassed. *)
Definition checkValueType (templateItem : TemplateItem) (value : ValueInput)
    : Result unit :=
  match ti_kpiType templateItem with
  | quantitative | percentage | score =>
      match vi_value value with
      | VNum _ => ok tt
      | v => throw (InvalidValueType (vi_name value) "numeric" v)
      end
  | binary =>
      match vi_value value with
      | VBool _ => ok tt
      | v => throw (InvalidValueType (vi_name value) "boolean" v)
      end
  | qualitative => ok tt
  end.

Definition withScore (value : ValueInput) (s : Q) : EntryValue :=
  {| ev_name := vi_name value; ev_value := vi_value value; ev_score := s;
     ev_comments := vi_comments value; ev_isByPassed := vi_isByPassed value |}.

(** One turn of the loop: [None] is the [continue] for an unknown name. *)
Definition validateValue (templateItems : list TemplateItem) (value : ValueInput)
    : Result (option EntryValue) :=
  match findItem templateItems (vi_name value) with
  | None => ok None
  | Some templateItem =>
      s <- (if default false (vi_isByPassed value) then
              match vi_score value with
              | None => throw (MissingBypassScore (vi_name value))
              | Some s => ok s
              end
            else
              check checkValueType templateItem value ;;
              ok (calculateScore (vi_value value) (ti_scoringRules templateItem)
                    (Some (ti_kpiType templateItem)) (Some (vi_name value)))) ;;
      ok (Some (withScore value s))
  end.

Fixpoint validateLoop (templateItems : list TemplateItem) (values : list ValueInput)
    : Result (list EntryValue) :=
  match values with
  | [] => ok []
  | value :: rest =>
      v <- validateValue templateItems value ;;
      validatedValues <- validateLoop templateItems rest ;;
      ok (match v with
          | Some v => v :: validatedValues
          | None => validatedValues
          end)
  end.

Definition validateAndCalculateScores (values : list ValueInput)
    (templateItems : list TemplateItem) : Result (list EntryValue) :=
  check validateRequiredValues values templateItems ;;
  validateLoop templateItems values.

(** [validatedValues.reduce((sum, value) => sum + value.score, 0)] *)
Definition sumScores (values : list EntryValue) : Q :=
  foldl (fun sum value => (sum + ev_score value)%Q) 0%Q values.

(** ** [checkFrequencyValidation] *)

Definition inWindow (kpiTemplateId createdFor : string) (startDate endDate : Z)
    (e : KpiEntry) : bool :=
  String.eqb (e_kpiTemplateId e) kpiTemplateId
  && String.eqb (e_createdFor e) createdFor
  && (startDate <=? e_createdAt e) && (e_createdAt e <=? endDate).

Definition checkFrequencyValidation (db : Db) (kpiTemplateId createdFor : string)
    (frequency : string) (currentDate : Z) : Result bool :=
  match periodWindow frequency currentDate with
  | None => throw (Error ("Invalid frequency: " ++ frequency))
  | Some (startDate, endDate) =>
      let existingEntry :=
        List.find (inWindow kpiTemplateId createdFor startDate endDate)
          (tbl_kpi_entries db) in
      ok (bool_decide (is_Some existingEntry))
  end.

(** ** [KpiEntryModel.create]

    The schema requires [kpiTemplateId], [createdBy] and [createdFor]
    (a required string must not be empty) and defaults [status] to
    [initiated]; the timestamps are set to the time of the call.  The
    validation of the value sub-documents is left out. *)
Definition required (field : option string) : bool :=
  match field with
  | Some s => negb (String.eqb s "")
  | None => false
  end.

Definition ValidationError : Thrown := Error "tbl_kpi_entries validation failed".

Definition KpiEntryModel_create (db : Db) (kpiTemplateId : option string)
    (values : list EntryValue) (totalScore : Q) (status : option Status)
    (createdBy createdFor : option string) (now : Z) : Result (KpiEntry * Db) :=
  if required kpiTemplateId && required createdBy && required createdFor then
    let doc :=
      {| e_id := nextId db;
         e_kpiTemplateId := default "" kpiTemplateId;
         e_values := values;
         e_totalScore := totalScore;
         e_status := default initiated status;
         e_createdBy := default "" createdBy;
         e_createdFor := default "" createdFor;
         e_createdAt := now;
         e_updatedAt := now |} in
    ok (doc, {| tbl_kpi_entries := tbl_kpi_entries db ++ [doc];
                kpiTemplates := kpiTemplates db;
                memberDocs := memberDocs db;
                nextId := S (nextId db) |})
  else throw ValidationError.

(** ** [createKpiEntry] *)

Definition isGeneratedFor (kpiTemplateId createdFor : string) (e : KpiEntry) : bool :=
  String.eqb (e_kpiTemplateId e) kpiTemplateId
  && String.eqb (e_createdFor e) createdFor
  && Status_eqb (e_status e) generated.

Definition option_string_eqb (a b : option string) : bool :=
  match a, b with
  | Some x, Some y => String.eqb x y
  | None, None => true
  | _, _ => false
  end.

Definition createKpiEntry (db : Db) (kpiEntry : KpiEntryCreate) (userId : string)
    (now : Z) : Result (KpiEntry * Db) :=
  let template := getKpiTemplate db (c_kpiTemplateId kpiEntry) in
  let member := getMember db (c_createdFor kpiEntry) in
  match template with
  | None =>
      throw (TemplateOrMemberNotFound (c_kpiTemplateId kpiEntry)
               (c_createdFor kpiEntry))
  | Some template =>
      let memberRole := m_role <$> member in
      if negb (option_string_eqb (Some (t_role template)) memberRole)
      then throw (RoleMismatch memberRole)
      else
        hasExistingEntry <-
          checkFrequencyValidation db (c_kpiTemplateId kpiEntry)
            (c_createdFor kpiEntry) (t_frequency template) now ;;
        if (hasExistingEntry : bool)
        then throw (PeriodConflict (t_frequency template))
        else
          let existingGeneratedEntry :=
            List.find
              (isGeneratedFor (c_kpiTemplateId kpiEntry) (c_createdFor kpiEntry))
              (tbl_kpi_entries db) in
          match existingGeneratedEntry with
          | Some _ => throw ReportAlreadyGenerated
          | None =>
              validatedValues <-
                validateAndCalculateScores (c_values kpiEntry)
                  (t_template template) ;;
              let totalScore := sumScores validatedValues in
              KpiEntryModel_create db (Some (c_kpiTemplateId kpiEntry))
                validatedValues totalScore (c_status kpiEntry)
                (Some userId) (Some (c_createdFor kpiEntry)) now
          end
  end.

(** ** [updateKpiEntry] (static) *)

(** The [switch (template.frequency)] that sets [isWithinUpdatePeriod];
    it has no [default], so another frequency leaves it [false]. *)
Definition isWithinUpdatePeriod (frequency : string) (entryDate currentDate : Z)
    : bool :=
  if String.eqb frequency "daily" then
    bool_decide (toDateString entryDate = toDateString currentDate)
  else if String.eqb frequency "weekly" then
    let entryWeek := getWeekNumber entryDate in
    let currentWeek := getWeekNumber currentDate in
    (entryWeek =? currentWeek)
    && (getFullYear entryDate =? getFullYear currentDate)
  else if String.eqb frequency "monthly" then
    (getMonth entryDate =? getMonth currentDate)
    && (getFullYear entryDate =? getFullYear currentDate)
  else if String.eqb frequency "quarterly" then
    let entryQuarter := getMonth entryDate / 3 in
    let currentQuarter := getMonth currentDate / 3 in
    (entryQuarter =? currentQuarter)
    && (getFullYear entryDate =? getFullYear currentDate)
  else if String.eqb frequency "yearly" then
    getFullYear entryDate =? getFullYear currentDate
  else false.

(** [KpiEntryModel.findByIdAndUpdate(id, update)]: the fields present in
    the update are set, and [updatedAt] with them. *)
Definition setFields (kpiTemplateId : option string)
    (values : option (list EntryValue)) (totalScore : option Q)
    (status : option Status) (createdFor : option string) (now : Z)
    (e : KpiEntry) : KpiEntry :=
  {| e_id := e_id e;
     e_kpiTemplateId := default (e_kpiTemplateId e) kpiTemplateId;
     e_values := default (e_values e) values;
     e_totalScore := default (e_totalScore e) totalScore;
     e_status := default (e_status e) status;
     e_createdBy := e_createdBy e;
     e_createdFor := default (e_createdFor e) createdFor;
     e_createdAt := e_createdAt e;
     e_updatedAt := now |}.

Fixpoint updateFirst (p : KpiEntry -> bool) (f : KpiEntry -> KpiEntry)
    (es : list KpiEntry) : list KpiEntry :=
  match es with
  | [] => []
  | e :: es' => if p e then f e :: es' else e :: updateFirst p f es'
  end.

Definition findByIdAndUpdate (db : Db) (id : nat) (f : KpiEntry -> KpiEntry)
    : option KpiEntry * Db :=
  let db' := withEntries db
               (updateFirst (fun e => Nat.eqb (e_id e) id) f (tbl_kpi_entries db)) in
  (findById db' id, db').

Definition updateKpiEntry (db : Db) (entryId : nat) (updateData : KpiEntryPatch)
    (userId : string) (now : Z) : Result (option KpiEntry * Db) :=
  match findById db entryId with
  | None => throw EntryNotFound
  | Some existingEntry =>
      if Status_eqb (e_status existingEntry) generated then throw EntryLocked
      else
        match getKpiTemplate db (e_kpiTemplateId existingEntry) with
        | None => throw TemplateNotFound
        | Some template =>
            let entryDate := e_createdAt existingEntry in
            let currentDate := now in
            if negb (isWithinUpdatePeriod (t_frequency template) entryDate
                       currentDate)
            then throw (UpdateWindowClosed (t_frequency template))
            else
              validatedValues <-
                match p_values updateData with
                | Some values =>
                    validateAndCalculateScores values (t_template template)
                | None => ok (e_values existingEntry)
                end ;;
              let totalScore := sumScores validatedValues in
              ok (findByIdAndUpdate db entryId
                    (setFields (p_kpiTemplateId updateData)
                       (Some validatedValues) (Some totalScore)
                       (p_status updateData) (p_createdFor updateData) now))
        end
  end.

Fixpoint removeFirst (p : KpiEntry -> bool) (es : list KpiEntry) : list KpiEntry :=
  match es with
  | [] => []
  | e :: es' => if p e then es' else e :: removeFirst p es'
  end.

(** An element of [systemValues]. *)
Record SystemValue := {
  sv_name : string;
  sv_value : JsValue;
  sv_source : string
}.

(** ** The instance methods of [KpiEntryService] *)
Module Prototype.

(** [async createSystemGeneratedEntry(kpiTemplateId, userId, systemValues)].
    The document handed to [KpiEntryModel.create] has a [userId], which
    the schema does not know, and no [createdFor]. *)
Definition createSystemGeneratedEntry (db : Db) (kpiTemplateId userId : string)
    (systemValues : list SystemValue) (now : Z) : Result (KpiEntry * Db) :=
  match getKpiTemplate db kpiTemplateId with
  | None => throw (Error ("KPI template not found: " ++ kpiTemplateId))
  | Some template =>
      let values :=
        map (fun sv =>
               {| vi_name := sv_name sv;
                  vi_value := sv_value sv;
                  vi_score := None;
                  vi_comments := Some ("System generated from " ++ sv_source sv)%string;
                  vi_isByPassed := Some true |})
          systemValues in
      validatedValues <-
        validateAndCalculateScores values (t_template template) ;;
      let totalScore := sumScores validatedValues in
      KpiEntryModel_create db (Some kpiTemplateId) validatedValues totalScore
        None (Some "system") None now
  end.

(** [async updateKpiEntry(id, kpiEntry)] *)
Definition updateKpiEntry (db : Db) (id : nat) (kpiEntry : KpiEntryFields)
    (now : Z) : option KpiEntry * Db :=
  findByIdAndUpdate db id
    (setFields (Some (f_kpiTemplateId kpiEntry)) (Some (f_values kpiEntry))
       None (Some (f_status kpiEntry)) (Some (f_createdFor kpiEntry)) now).

(** [async deleteKpiEntry(id)] *)
Definition deleteKpiEntry (db : Db) (id : nat) : option KpiEntry * Db :=
  (findById db id,
   withEntries db (removeFirst (fun e => Nat.eqb (e_id e) id) (tbl_kpi_entries db))).

End Prototype.

(** ** [MemberService.getMembers]

    Only what the callers below use: the [department] and [role] filters,
    page and limit, and the [docs] of the result. *)

(** [if (field && field.trim()) conditions.push({ key: field.trim() })] *)
Definition matchesFilter (field : option string) (actual : string) : bool :=
  match field with
  | Some f => if String.eqb (trim f) "" then true else String.eqb actual (trim f)
  | None => true
  end.

Definition memberQuery (department role : option string) (m : Member) : bool :=
  matchesFilter department (m_departmentSlug m) && matchesFilter role (m_role m).

(** [.skip(skip).limit(limitNum)]: the server rejects a negative skip,
    and a limit of 0 is no limit. *)
Definition skipLimit {A} (skip limitNum : Z) (docs : list A) : Result (list A) :=
  if skip <? 0 then throw (Error "skip value must be non-negative")
  else
    let rest := drop (Z.to_nat skip) docs in
    ok (if limitNum =? 0 then rest else take (Z.to_nat (Z.abs limitNum)) rest).

Definition getMembers (db : Db) (department role : option string)
    (page limit : Z) : Result (list Member) :=
  let pageNum := page in
  let limitNum := limit in
  let skip := (pageNum - 1) * limitNum in
  skipLimit skip limitNum (List.filter (memberQuery department role) (memberDocs db)).

(** ** Rankings and statistics *)

(** [a / b] *)
Definition divide (a b : Q) : number :=
  if Qeq_bool b 0 then
    if Qeq_bool a 0 then NaN
    else if Qle_bool 0 a then PosInfinity else NegInfinity
  else Finite (a / b).

(** [x * k] for a finite [k] *)
Definition times (x : number) (k : Q) : number :=
  match x with
  | Finite q => Finite (q * k)
  | NaN => NaN
  | PosInfinity =>
      if Qeq_bool k 0 then NaN else if Qle_bool 0 k then PosInfinity else NegInfinity
  | NegInfinity =>
      if Qeq_bool k 0 then NaN else if Qle_bool 0 k then NegInfinity else PosInfinity
  end.

(** [Math.round] on a finite number: half-way cases go up. *)
Definition roundQ (q : Q) : Q := inject_Z (Qfloor (q + (1 # 2))%Q).

(** [Math.round(x)] *)
Definition MathRound (x : number) : number :=
  match x with
  | Finite q => Finite (roundQ q)
  | other => other
  end.

Record Ranking := {
  memberId : string;
  memberName : string;
  memberEmail : string;
  memberDepartment : string;
  memberRole : string;
  ranking : nat;
  totalScore : Q;
  hasEntry : bool;
  entryId : option nat;
  (** [None] is ['no-entry'] *)
  status : option Status
}.

Record Statistics := {
  totalMembers : nat;
  membersWithEntries : nat;
  membersWithoutEntries : nat;
  averageScore : Q;
  highestScore : Q;
  lowestScore : Q;
  completionRate : number
}.

(** [text || 'Unknown'] *)
Definition orUnknown (text : option string) : string :=
  match text with
  | Some s => if String.eqb s "" then "Unknown" else s
  | None => "Unknown"
  end.

(** The object pushed to [rankings] for one member. *)
Definition rankingOf (member : Member) (entry : option KpiEntry) : Ranking :=
  {| memberId := m_userId member;
     memberName := orUnknown (usr_name <$> m_user member);
     memberEmail := orUnknown (usr_email <$> m_user member);
     memberDepartment := m_departmentSlug member;
     memberRole := m_role member;
     ranking := 0%nat;
     totalScore := match entry with Some e => e_totalScore e | None => 0%Q end;
     hasEntry := bool_decide (is_Some entry);
     entryId := e_id <$> entry;
     status := e_status <$> entry |}.

Definition setRanking (r : Ranking) (rank : nat) : Ranking :=
  {| memberId := memberId r; memberName := memberName r;
     memberEmail := memberEmail r; memberDepartment := memberDepartment r;
     memberRole := memberRole r; ranking := rank; totalScore := totalScore r;
     hasEntry := hasEntry r; entryId := entryId r; status := status r |}.

(** [(a, b) => b.totalScore - a.totalScore] *)
Definition byTotalScoreDesc (a b : Ranking) : number :=
  Finite (totalScore b - totalScore a).

(** [ranking.totalScore !== currentScore]; [currentScore] is [undefined]
    ([None]) when the list is empty. *)
Definition differs (s : Q) (currentScore : option Q) : bool :=
  match currentScore with
  | Some c => negb (Qeq_bool s c)
  | None => true
  end.

(** The [forEach] that assigns the ranks, from position [index] on. *)
Fixpoint assignFrom (index currentRank : nat) (currentScore : option Q)
    (rankings : list Ranking) : list Ranking :=
  match rankings with
  | [] => []
  | r :: rest =>
      let change := differs (totalScore r) currentScore in
      let currentRank := if change then (index + 1)%nat else currentRank in
      let currentScore := if change then Some (totalScore r) else currentScore in
      setRanking r currentRank :: assignFrom (S index) currentRank currentScore rest
  end.

Definition assignRankings (rankings : list Ranking) : list Ranking :=
  assignFrom 0 1 (totalScore <$> head rankings) rankings.

(** Sort, then rank. *)
Definition rankAll (rankings : list Ranking) : list Ranking :=
  assignRankings (sort byTotalScoreDesc rankings).

(** [x || 0] *)
Definition orZero (x : Q) : Q := if Qeq_bool x 0 then 0%Q else x.

(** [sum / count], guarded by [count > 0] *)
Definition averageOf (rankings : list Ranking) : Q :=
  let withEntry := List.filter hasEntry rankings in
  if (0 <? length withEntry)%nat
  then (foldl (fun sum r => sum + totalScore r) 0 withEntry
        / inject_Z (Z.of_nat (length withEntry)))%Q
  else 0%Q.

(** [Math.round((membersWithEntries / totalMembers) * 100)], with the
    quotient and the product taken exactly.  The double quotient of the
    code can fall just below a half that the exact product reaches: for
    23 of 40 the code computes 57.49999999999999 and returns 57, where
    the exact 57.5 rounds to 58.  The results [NaN] for 0 of 0, and the
    range from 0 to 100 otherwise, are those of the code. *)
Definition completionRateOf (membersWithEntries totalMembers : nat) : number :=
  MathRound
    (times (divide (inject_Z (Z.of_nat membersWithEntries))
              (inject_Z (Z.of_nat totalMembers)))
       100).

(** The statistics block, over sorted and ranked [rankings]. *)
Definition statisticsOf (rankings : list Ranking) : Statistics :=
  let totalMembers := length rankings in
  let membersWithEntries := length (List.filter hasEntry rankings) in
  let membersWithoutEntries := (totalMembers - membersWithEntries)%nat in
  let averageScore := averageOf rankings in
  let highestScore :=
    match rankings with
    | r :: _ => totalScore r
    | [] => 0%Q
    end in
  let lowestScore :=
    if (0 <? membersWithEntries)%nat then
      match last (List.filter hasEntry rankings) with
      | Some r => orZero (totalScore r)
      | None => 0%Q
      end
    else 0%Q in
  {| totalMembers := totalMembers;
     membersWithEntries := membersWithEntries;
     membersWithoutEntries := membersWithoutEntries;
     averageScore := (roundQ (averageScore * 100) / 100)%Q;
     highestScore := highestScore;
     lowestScore := lowestScore;
     completionRate := completionRateOf membersWithEntries totalMembers |}.

(** ** [generateReportByDepartment] *)

Record RoleReport := {
  rr_role : string;
  rr_rankings : list Ranking;
  rr_statistics : Statistics
}.

Record DepartmentStatistics := {
  ds_totalMembers : nat;
  ds_membersWithEntries : nat;
  ds_membersWithoutEntries : nat;
  ds_averageScore : Q;
  ds_completionRate : number;
  ds_totalRoles : nat
}.

Record DepartmentReport := {
  dr_department : string;
  dr_templateId : string;
  dr_templateName : string;
  dr_generatedAt : Z;
  dr_generatedBy : string;
  dr_roleReports : list RoleReport;
  dr_departmentStatistics : DepartmentStatistics;
  dr_entriesUpdated : nat
}.

(** [membersByRole]: a [Map] from role to the members of that role, in
    the order in which the roles were first met.  One step of the
    [forEach]: create the group if the role is new, then push. *)
Fixpoint pushMember (member : Member) (membersByRole : list (string * list Member))
    : list (string * list Member) :=
  match membersByRole with
  | [] => [(m_role member, [member])]
  | (role, members) :: rest =>
      if String.eqb role (m_role member)
      then (role, members ++ [member]) :: rest
      else (role, members) :: pushMember member rest
  end.

Definition groupByRole (docs : list Member) : list (string * list Member) :=
  foldl (fun membersByRole member => pushMember member membersByRole) [] docs.

(** [entriesMap]: the last entry found for a member wins. *)
Definition entriesByMember (entries : list KpiEntry) : gmap string KpiEntry :=
  foldl (fun entriesMap entry => <[e_createdFor entry := entry]> entriesMap)
    ∅ entries.

(** The entries the report reads: of the template, of a roster member,
    and not yet generated. *)
Definition reportQuery (templateId : string) (docs : list Member) (e : KpiEntry)
    : bool :=
  String.eqb (e_kpiTemplateId e) templateId
  && includes (map m_userId docs) (e_createdFor e)
  && negb (Status_eqb (e_status e) generated).

(** The ids one role adds to [entriesToUpdate]. *)
Definition idsToUpdate (entriesMap : gmap string KpiEntry) (members : list Member)
    : list nat :=
  omap (fun member =>
          match entriesMap !! m_userId member with
          | Some entry =>
              if negb (Status_eqb (e_status entry) generated)
              then Some (e_id entry) else None
          | None => None
          end)
    members.

(** The body of the loop over [membersByRole]. *)
Definition roleReportOf (entriesMap : gmap string KpiEntry)
    (group : string * list Member) : RoleReport :=
  let rankings :=
    map (fun member => rankingOf member (entriesMap !! m_userId member))
      group.2 in
  let rankings := rankAll rankings in
  {| rr_role := group.1;
     rr_rankings := rankings;
     rr_statistics := statisticsOf rankings |}.

(** [KpiEntryModel.updateMany({ _id: { $in: ids } },
    { status: 'generated', updatedAt: new Date() })] *)
Definition markGenerated (ids : list nat) (now : Z) (e : KpiEntry) : KpiEntry :=
  if existsb (Nat.eqb (e_id e)) ids
  then setFields None None None (Some generated) None now e
  else e.

Definition generateReportByDepartment (db : Db) (department templateId : string)
    (generatedBy : string) (now : Z) : Result (DepartmentReport * Db) :=
  match getKpiTemplate db templateId with
  | None => throw TemplateNotFound
  | Some template =>
      allMembers <- getMembers db (Some department) None 1 1000 ;;
      let kpiEntries :=
        List.filter (reportQuery templateId allMembers) (tbl_kpi_entries db) in
      let membersByRole := groupByRole allMembers in
      let entriesMap := entriesByMember kpiEntries in
      let roleReports := map (roleReportOf entriesMap) membersByRole in
      let entriesToUpdate :=
        concat (map (fun group => idsToUpdate entriesMap group.2) membersByRole) in
      let db' :=
        if (0 <? length entriesToUpdate)%nat
        then withEntries db (map (markGenerated entriesToUpdate now) (tbl_kpi_entries db))
        else db in
      let allRankings := concat (map rr_rankings roleReports) in
      let departmentTotalMembers := length allRankings in
      let departmentMembersWithEntries :=
        length (List.filter hasEntry allRankings) in
      let departmentAverageScore := averageOf allRankings in
      ok ({| dr_department := department;
             dr_templateId := templateId;
             dr_templateName := t_name template;
             dr_generatedAt := now;
             dr_generatedBy := generatedBy;
             dr_roleReports := roleReports;
             dr_departmentStatistics :=
               {| ds_totalMembers := departmentTotalMembers;
                  ds_membersWithEntries := departmentMembersWithEntries;
                  ds_membersWithoutEntries :=
                    (departmentTotalMembers - departmentMembersWithEntries)%nat;
                  ds_averageScore :=
                    (roundQ (departmentAverageScore * 100) / 100)%Q;
                  ds_completionRate :=
                    completionRateOf departmentMembersWithEntries
                      departmentTotalMembers;
                  ds_totalRoles := length roleReports |};
             dr_entriesUpdated := length entriesToUpdate |},
          db')
  end.

(** ** [getKpiEntriesStatisticsByDepartmentAndRole] *)

Record Pagination := {
  pg_page : Z;
  pg_limit : Z;
  pg_total : nat;
  pg_totalPages : Z;
  pg_hasNextPage : bool;
  pg_hasPreviousPage : bool
}.

Record RoleStatistics := {
  rs_rankings : list Ranking;
  rs_statistics : Statistics;
  rs_pagination : Pagination
}.

(** [Number(text) || fallback]; [None] is a text that is not a number. *)
Definition numberOr (n : option Z) (fallback : Z) : Z :=
  match n with
  | Some 0 | None => fallback
  | Some n => n
  end.

Definition getKpiEntriesStatisticsByDepartmentAndRole (db : Db)
    (page limit : option Z) (templateId department role : string)
    : Result RoleStatistics :=
  let pageNum := numberOr page 1 in
  let limitNum := numberOr limit 10 in
  members <- getMembers db (Some department) (Some role) pageNum limitNum ;;
  let kpiEntries :=
    List.filter
      (fun e => String.eqb (e_kpiTemplateId e) templateId
                && includes (map m_userId members) (e_createdFor e))
      (tbl_kpi_entries db) in
  let entriesMap := entriesByMember kpiEntries in
  let rankings :=
    map (fun member => rankingOf member (entriesMap !! m_userId member)) members in
  let rankings := rankAll rankings in
  let totalMembers := length rankings in
  let totalPages :=
    Qceiling (inject_Z (Z.of_nat totalMembers) / inject_Z limitNum)%Q in
  ok {| rs_rankings := rankings;
        rs_statistics := statisticsOf rankings;
        rs_pagination :=
          {| pg_page := pageNum;
             pg_limit := limitNum;
             pg_total := totalMembers;
             pg_totalPages := totalPages;
             pg_hasNextPage := pageNum <? totalPages;
             pg_hasPreviousPage := 1 <? pageNum |} |}.

(* ================================================================== *)
(** * Notions used to state the properties, and worked examples *)
(* ================================================================== *)

(** Descending order of a key, and the elements of one key. *)
Definition descending {A} (key : A -> Q) (a b : A) : Prop := (key b <= key a)%Q.

Definition hasKey {A} (key : A -> Q) (c : Q) (a : A) : bool := Qeq_bool (key a) c.

(** A rule whose [value], when present, is a number or a text that reads
    as a finite number. *)
Definition numericRule (r : ScoringRule) : Prop :=
  match r_value r with
  | Some v => exists x, toNumber v = Finite x
  | None => True
  end.

(** [rule.value] is, or reads as, the number [x]. *)
Definition hasThreshold (x : Q) (r : ScoringRule) : bool :=
  match ruleNumber r with
  | Finite y => Qeq_bool y x
  | _ => false
  end.

Definition ruleKey (r : ScoringRule) : Q :=
  match ruleNumber r with
  | Finite y => y
  | _ => 0%Q
  end.

(** Rules with a text among the values: [{value:75,score:3}],
    [{value:'n/a',score:0}], [{value:90,score:5}]; and the rules of the
    worked example with the thresholds written as text. *)
Definition textRule (v : string) (s : Q) : ScoringRule :=
  {| r_min := None; r_max := None; r_value := Some (RStr v); r_score := s |}.

Definition mixedRules : list ScoringRule :=
  [exactRule 75 3; textRule "n/a" 0; exactRule 90 5].

Definition textExample : list ScoringRule :=
  [textRule "90" 5; textRule " 75.0 " 3].

(** Everything of a ranking but the rank. *)
Definition unranked (r : Ranking)
    : string * string * string * string * string * Q * bool * option nat
      * option Status :=
  (memberId r, memberName r, memberEmail r, memberDepartment r, memberRole r,
   totalScore r, hasEntry r, entryId r, status r).

(** Position (from 0) of the first element whose score is [s]. *)
Fixpoint firstWithScore (s : Q) (rs : list Ranking) : nat :=
  match rs with
  | [] => 0
  | r :: rest =>
      if Qeq_bool (totalScore r) s then 0 else S (firstWithScore s rest)
  end.

(** The scores of the worked example, already in descending order. *)
Definition scored (id : string) (s : Q) : Ranking :=
  {| memberId := id; memberName := "Unknown"; memberEmail := "Unknown";
     memberDepartment := "sales"; memberRole := "agent"; ranking := 0%nat;
     totalScore := s; hasEntry := true; entryId := None;
     status := Some initiated |}.

Definition rankingExample : list Ranking :=
  [scored "a" 90; scored "b" 90; scored "c" 80; scored "d" 70].

(** Midnight of the Monday of the week of [t]. *)
Definition mondayOf (t : Z) : Z := (Day t - (getDay t + 6) mod 7) * msPerDay.

(** Monday 15 January 2024, 10:30. *)
Definition monday_morning : Z := at_ 2024 1 15 10 30.

(** ** A small department, for the worked examples *)

Definition attendance : TemplateItem :=
  {| ti_name := "attendance"; ti_maxMarks := 5; ti_kpiType := percentage;
     ti_isDynamic := false; ti_scoringRules := percentageExample |}.

Definition punctuality : TemplateItem :=
  {| ti_name := "punctuality"; ti_maxMarks := 5; ti_kpiType := percentage;
     ti_isDynamic := false; ti_scoringRules := percentageExample |}.

Definition templateOf (id frequency : string) (items : list TemplateItem)
    : KpiTemplate :=
  {| t_id := id; t_name := "Agent scorecard"; t_role := "agent";
     t_frequency := frequency; t_template := items |}.

Definition dailyTemplate : KpiTemplate := templateOf "T1" "daily" [attendance].
Definition weeklyTemplate : KpiTemplate := templateOf "T2" "weekly" [attendance].
Definition twoItemTemplate : KpiTemplate :=
  templateOf "T3" "daily" [attendance; punctuality].

Definition agent (userId name : string) : Member :=
  {| m_userId := userId; m_role := "agent"; m_departmentSlug := "sales";
     m_user := Some {| usr_name := name; usr_email := (name ++ "@example.com")%string |} |}.

Definition alice : Member := agent "u1" "alice".

Definition attended (percent s : Q) : EntryValue :=
  {| ev_name := "attendance"; ev_value := VNum percent; ev_score := s;
     ev_comments := None; ev_isByPassed := Some false |}.

(** An entry of [alice]'s, scored 3 for an attendance of 80. *)
Definition entryOf (id : nat) (templateId : string) (createdAt : Z) (st : Status)
    : KpiEntry :=
  {| e_id := id; e_kpiTemplateId := templateId; e_values := [attended 80 3];
     e_totalScore := 3; e_status := st; e_createdBy := "admin";
     e_createdFor := "u1"; e_createdAt := createdAt; e_updatedAt := createdAt |}.

Definition dbOf (entries : list KpiEntry) : Db :=
  {| tbl_kpi_entries := entries;
     kpiTemplates := [dailyTemplate; weeklyTemplate; twoItemTemplate];
     memberDocs := [alice];
     nextId := S (foldr Nat.max 0%nat (map e_id entries)) |}.

Definition attendanceInput (percent : Q) : ValueInput :=
  {| vi_name := "attendance"; vi_value := VNum percent; vi_score := None;
     vi_comments := None; vi_isByPassed := None |}.

Definition requestFor (templateId : string) : KpiEntryCreate :=
  {| c_kpiTemplateId := templateId; c_values := [attendanceInput 95];
     c_status := None; c_createdFor := "u1" |}.

(** The report of the morning has locked the entry of the same day. *)
Definition lockedToday : Db := dbOf [entryOf 1 "T1" (at_ 2024 1 15 9 0) generated].

(** The ISO 8601 week of an instant, as (week-numbering year, week): the
    week runs from Monday to Sunday and belongs to the year of its
    Thursday.  The code never computes it; it is the notion of week the
    update rule is stated with. *)
Definition isoWeek (t : Z) : Z * Z :=
  let thursday := Day t - (getDay t + 6) mod 7 + 3 in
  let year := (civilFromDays thursday).1.1 in
  (year, (thursday - daysFromCivil year 1 1) / 7 + 1).

Definition newValues (percent : Q) : KpiEntryPatch :=
  {| p_kpiTemplateId := None; p_values := Some [attendanceInput percent];
     p_status := None; p_createdFor := None |}.

(** Friday 5, Saturday 6, Sunday 7 and Monday 8 January 2024, at noon. *)
Definition friday_noon : Z := at_ 2024 1 5 12 0.
Definition saturday_noon : Z := at_ 2024 1 6 12 0.
Definition sunday_noon : Z := at_ 2024 1 7 12 0.
Definition next_monday_noon : Z := at_ 2024 1 8 12 0.

(** What a caller of the instance method may send for a locked entry. *)
Definition reopened : KpiEntryFields :=
  {| f_kpiTemplateId := "T1"; f_values := [attended 100 5];
     f_status := initiated; f_createdFor := "u1" |}.

Definition statusOf (r : option KpiEntry * Db) : option Status := e_status <$> r.1.

Definition storedStatus (db : Db) (id : nat) : option Status :=
  e_status <$> findById db id.

(** The names of the non-dynamic template items that [names] lacks. *)
Definition missingNonDynamic (names : list string) (templateItems : list TemplateItem)
    : list string :=
  map ti_name
    (List.filter
       (fun item => negb (ti_isDynamic item) && negb (includes names (ti_name item)))
       templateItems).

(** A system value names a template item. *)
Definition namesItem (templateItems : list TemplateItem) (sv : SystemValue) : bool :=
  bool_decide (is_Some (findItem templateItems (sv_name sv))).

Definition fromHr (name : string) (v : Q) : SystemValue :=
  {| sv_name := name; sv_value := VNum v; sv_source := "hr" |}.

Definition roleStatisticsOf (r : Result RoleStatistics) : option Statistics :=
  match r with
  | inr rs => Some (rs_statistics rs)
  | inl _ => None
  end.

Definition departmentStatisticsOf (r : Result (DepartmentReport * Db))
    : option DepartmentStatistics :=
  match r with
  | inr (report, _) => Some (dr_departmentStatistics report)
  | inl _ => None
  end.

(** ** Reports: notions and examples *)

(** The rankings of all roles of a report. *)
Definition allRankingsOf (report : DepartmentReport) : list Ranking :=
  concat (map rr_rankings (dr_roleReports report)).

(** The roster [generateReportByDepartment] asks for: page 1 of 1000. *)
Definition rosterOf (db : Db) (department : string) : list Member :=
  take 1000 (List.filter (memberQuery (Some department) None) (memberDocs db)).

(** An entry of the template for the member that no report has locked. *)
Definition openFor (templateId userId : string) (e : KpiEntry) : bool :=
  String.eqb (e_kpiTemplateId e) templateId
  && String.eqb (e_createdFor e) userId
  && negb (Status_eqb (e_status e) generated).

Definition reportOf (r : Result (DepartmentReport * Db)) : option DepartmentReport :=
  match r with
  | inr (report, _) => Some report
  | inl _ => None
  end.

Definition dbAfter (db : Db) (r : Result (DepartmentReport * Db)) : Db :=
  match r with
  | inr (_, db') => db'
  | inl _ => db
  end.

(** [alice] has entries of two days, neither reported yet. *)
Definition twoOpenDays : Db :=
  dbOf [entryOf 1 "T1" (at_ 2024 1 12 9 0) initiated;
        entryOf 2 "T1" (at_ 2024 1 15 9 0) initiated].

(** A department of 1001 agents, [m0] to [m1000], without entries. *)
Definition largeDepartment : Db :=
  {| tbl_kpi_entries := [];
     kpiTemplates := [dailyTemplate];
     memberDocs :=
       map (fun i => agent ("m" ++ pretty i)%string "agent") (seq 0 1001);
     nextId := 1%nat |}.

(** The entries a report reads, and the ids it locks. *)
Definition reportEntries (db : Db) (department templateId : string) : list KpiEntry :=
  List.filter (reportQuery templateId (rosterOf db department)) (tbl_kpi_entries db).

Definition lockedIds (db : Db) (department templateId : string) : list nat :=
  concat
    (map (fun group : string * list Member =>
            idsToUpdate (entriesByMember (reportEntries db department templateId))
              group.2)
       (groupByRole (rosterOf db department))).

(** [alice] has the entry of the day only. *)
Definition oneOpenDay : Db :=
  dbOf [entryOf 1 "T1" (at_ 2024 1 15 9 0) initiated].

(** The report of the sales department for the daily template, and the
    same report generated again right after. *)
Definition firstReport (db : Db) : Result (DepartmentReport * Db) :=
  generateReportByDepartment db "sales" "T1" "admin" monday_morning.

Definition secondReport (db : Db) : Result (DepartmentReport * Db) :=
  generateReportByDepartment (dbAfter db (firstReport db)) "sales" "T1" "admin"
    monday_morning.

(** A weekly entry created on Sunday 7, and one created on Friday 5. *)
Definition createdSunday : Db := dbOf [entryOf 1 "T2" sunday_noon initiated].
Definition createdFriday : Db := dbOf [entryOf 1 "T2" friday_noon initiated].

(** Requests that carry a [status]. *)
Definition markDone : KpiEntryPatch :=
  {| p_kpiTemplateId := None; p_values := None; p_status := Some generated;
     p_createdFor := None |}.

Definition requestGenerated : KpiEntryCreate :=
  {| c_kpiTemplateId := "T1"; c_values := [attendanceInput 95];
     c_status := Some generated; c_createdFor := "u1" |}.

(** Entries created at midnight sharp: on Tuesday 16 January for the
    daily template, on Monday 22 January for the weekly one. *)
Definition createdAtMidnight : Db :=
  dbOf [entryOf 1 "T1" (at_ 2024 1 16 0 0) initiated;
        entryOf 2 "T2" (at_ 2024 1 22 0 0) initiated].

(** ** The calendar, month by month *)

(** Days from the epoch to 1 March of year [y]. *)
Definition marchFirst (y : Z) : Z :=
  (y / 400) * 146097
  + ((y mod 400) * 365 + (y mod 400) / 4 - (y mod 400) / 100) - 719468.

(** Days from 1 March to the first day of month [k] (0 = January, 12 =
    January of the next year); January and February count from the March
    of the year before. *)
Definition monthOffset (k : Z) : Z :=
  if k <? 2 then 306 + 31 * k else (153 * (k - 2) + 2) / 5.

(** ** Validation: notions *)

(** The name is that of a template item. *)
Definition known (templateItems : list TemplateItem) (name : string) : bool :=
  bool_decide (is_Some (findItem templateItems name)).

Definition isBypassed (value : ValueInput) : bool :=
  default false (vi_isByPassed value).

(** The value has the type its item asks for. *)
Definition wellTyped (item : TemplateItem) (v : JsValue) : bool :=
  match ti_kpiType item, v with
  | (quantitative | percentage | score), VNum _ => true
  | (quantitative | percentage | score), _ => false
  | binary, VBool _ => true
  | binary, _ => false
  | qualitative, _ => true
  end.

(** The score a submitted value ends up with, when it has one. *)
Definition scoreFor (item : TemplateItem) (value : ValueInput) : option Q :=
  if isBypassed value then vi_score value
  else if wellTyped item (vi_value value)
       then Some (calculateScore (vi_value value) (ti_scoringRules item)
                    (Some (ti_kpiType item)) (Some (vi_name value)))
       else None.

(** The submitted value without the score a caller may have added to a
    value that is not bypassed. *)
Definition withoutLooseScore (value : ValueInput) : ValueInput :=
  {| vi_name := vi_name value; vi_value := vi_value value;
     vi_score := if isBypassed value then vi_score value else None;
     vi_comments := vi_comments value; vi_isByPassed := vi_isByPassed value |}.

(** A bypassed attendance with the score the caller gives. *)
Definition bypassedAttendance (s : Q) : ValueInput :=
  {| vi_name := "attendance"; vi_value := VStr "excused"; vi_score := Some s;
     vi_comments := None; vi_isByPassed := Some true |}.

Definition unknownValue : ValueInput :=
  {| vi_name := "mood"; vi_value := VStr "fine"; vi_score := None;
     vi_comments := None; vi_isByPassed := None |}.

(** ** The store: notions *)

(** The total of every entry is the sum of the scores of its values. *)
Definition consistentTotals (db : Db) : Prop :=
  Forall (fun e => e_totalScore e = sumScores (e_values e)) (tbl_kpi_entries db).

(** Two versions of an entry that differ at most by a lock: the status
    went from initiated to generated, at time [now]. *)
Definition sameOrLocked (now : Z) (old new : KpiEntry) : Prop :=
  e_id new = e_id old
  /\ e_kpiTemplateId new = e_kpiTemplateId old
  /\ e_values new = e_values old
  /\ e_totalScore new = e_totalScore old
  /\ e_createdBy new = e_createdBy old
  /\ e_createdFor new = e_createdFor old
  /\ e_createdAt new = e_createdAt old
  /\ (new = old \/ (e_status new = generated /\ e_updatedAt new = now)).

(** ** Rankings: notions *)

(** [x] has a strictly greater total score than [s]. *)
Definition scoresAbove (s : Q) (x : Ranking) : bool :=
  negb (Qle_bool (totalScore x) s).

(** Four members out of order, two of them tied. *)
Definition unsortedExample : list Ranking :=
  [scored "c" 80; scored "a" 90; scored "d" 70; scored "b" 90].

(** The member with 80 of the example, as ranked third. *)
Definition thirdOfFour : Ranking :=
  {| memberId := "c"; memberName := "Unknown"; memberEmail := "Unknown";
     memberDepartment := "sales"; memberRole := "agent"; ranking := 3%nat;
     totalScore := 80; hasEntry := true; entryId := None;
     status := Some initiated |}.

(** ** Role groups and statistics: notions *)

(** A group of [membersByRole]: not empty, and all of the group's role. *)
Definition groupOfRole (group : string * list Member) : Prop :=
  group.2 <> [] /\ Forall (fun m => m_role m = group.1) group.2.

(** What the statistics read of a ranking. *)
Definition scoreAndEntry (r : Ranking) : Q * bool := (totalScore r, hasEntry r).

(** ** [KpiEntryHandler.generateReportByDepartment]

    The fields of the request body are texts or absent; an absent or
    empty text is falsy. *)
Definition falsy (field : option string) : bool :=
  match field with
  | Some s => String.eqb s ""
  | None => true
  end.

Definition MissingRequiredFields : Thrown :=
  APIError 400 "Missing required fields" "Department and templateId are required".

(** The service function, under the name the handler calls it by. *)
Definition KpiEntryService_generateReportByDepartment := generateReportByDepartment.

Module Handler.

Definition generateReportByDepartment (db : Db) (department templateId : option string)
    (userId : string) (now : Z) : Result (DepartmentReport * Db) :=
  if falsy department || falsy templateId then throw MissingRequiredFields
  else KpiEntryService_generateReportByDepartment db (default "" department) (default "" templateId)
         userId now.

End Handler.

(** ** [bulkCreateSystemEntries] *)

(** An element of the [entries] of [bulkCreateSystemEntries]. *)
Record SystemEntry := {
  se_kpiTemplateId : string;
  se_userId : string;
  se_systemValues : list SystemValue
}.

(** The loop: the entries are created one after the other, and the first
    failure ends the call; what was created before it stays in the
    collection. *)
Fixpoint bulkCreateSystemEntries (db : Db) (entries : list SystemEntry) (now : Z)
    : Result (list KpiEntry) * Db :=
  match entries with
  | [] => (ok [], db)
  | entry :: rest =>
      match Prototype.createSystemGeneratedEntry db (se_kpiTemplateId entry)
              (se_userId entry) (se_systemValues entry) now with
      | inl error => (throw error, db)
      | inr (createdEntry, db1) =>
          match bulkCreateSystemEntries db1 rest now with
          | (inl error, db2) => (throw error, db2)
          | (inr createdEntries, db2) => (ok (createdEntry :: createdEntries), db2)
          end
      end
  end.

(** ** [getKpiEntries] and [getKpiEntriesByFilter]

    The two functions have the same body.  The filter of the query is
    any predicate on entries; [page] and [limit] are integers. *)

(** [Math.ceil(x)] *)
Definition MathCeil (x : number) : number :=
  match x with
  | Finite q => Finite (inject_Z (Qceiling q))
  | other => other
  end.

(** [n < x] for an integer [n] *)
Definition lessThan (n : Z) (x : number) : bool :=
  match x with
  | Finite q => negb (Qle_bool q (inject_Z n))
  | PosInfinity => true
  | NegInfinity | NaN => false
  end.

Record Paged := {
  pd_docs : list KpiEntry;
  pd_total : nat;
  pd_page : Z;
  pd_limit : Z;
  pd_totalPages : number;
  pd_hasNextPage : bool;
  pd_hasPreviousPage : bool
}.

Definition getKpiEntriesByFilter (db : Db) (page limit : option Z)
    (filter : KpiEntry -> bool) : Result Paged :=
  let page := default 1 page in
  let limit := default 10 limit in
  kpiEntries <- skipLimit ((page - 1) * limit) limit
                  (List.filter filter (tbl_kpi_entries db)) ;;
  let total := length (List.filter filter (tbl_kpi_entries db)) in
  let totalPages :=
    MathCeil (divide (inject_Z (Z.of_nat total)) (inject_Z limit)) in
  ok {| pd_docs := kpiEntries;
        pd_total := total;
        pd_page := page;
        pd_limit := limit;
        pd_totalPages := totalPages;
        pd_hasNextPage := lessThan page totalPages;
        pd_hasPreviousPage := 1 <? page |}.

(** The documents of one page, and of the pages 1 to [n]. *)
Definition docsOfPage (db : Db) (limit : Z) (filter : KpiEntry -> bool) (page : nat)
    : list KpiEntry :=
  match getKpiEntriesByFilter db (Some (Z.of_nat page)) (Some limit) filter with
  | inr p => pd_docs p
  | inl _ => []
  end.

(** ** [getKpiEntryStatistics]

    [totalScores] is the sum of the scores of all values of the entries
    that match, or 0 when the aggregation returns no group. *)
Definition getKpiEntryStatistics (db : Db) (filter : KpiEntry -> bool) : nat * Q :=
  let matched := List.filter filter (tbl_kpi_entries db) in
  (length matched,
   match concat (map e_values matched) with
   | [] => 0%Q
   | values => orZero (sumScores values)
   end).

(** The sum of the stored totals. *)
Definition sumTotals (entries : list KpiEntry) : Q :=
  foldr (fun e sum => (e_totalScore e + sum)%Q) 0%Q entries.

(** U+00A0, the no-break space, and a department name made of a space
    and a no-break space. *)
Definition noBreakSpace : string := String "194" (String "160" "").

Definition blankName : string := " " ++ noBreakSpace.

(** Two members of other departments beside [alice]. *)
Definition threeDepartments : Db :=
  {| tbl_kpi_entries := [];
     kpiTemplates := [dailyTemplate];
     memberDocs :=
       [alice;
        {| m_userId := "u2"; m_role := "agent"; m_departmentSlug := "support";
           m_user := None |};
        {| m_userId := "u3"; m_role := "lead"; m_departmentSlug := "finance";
           m_user := None |}];
     nextId := 1%nat |}.


(** The number of pages a result announces. *)
Definition pageCount (p : Paged) : nat :=
  match pd_totalPages p with
  | Finite q => Z.to_nat (Qceiling q)
  | _ => 0
  end.


(** A template item with other maximum marks. *)
Definition withMaxMarks (marks : TemplateItem -> Q) (item : TemplateItem)
    : TemplateItem :=
  {| ti_name := ti_name item; ti_maxMarks := marks item;
     ti_kpiType := ti_kpiType item; ti_isDynamic := ti_isDynamic item;
     ti_scoringRules := ti_scoringRules item |}.

(** A directly scored item of at most 5 marks, and a value of 1000 for it. *)
Definition directScore : TemplateItem :=
  {| ti_name := "bonus"; ti_maxMarks := 5; ti_kpiType := score;
     ti_isDynamic := false; ti_scoringRules := [] |}.

Definition bonusInput (n : Q) : ValueInput :=
  {| vi_name := "bonus"; vi_value := VNum n; vi_score := None;
     vi_comments := None; vi_isByPassed := None |}.

(* ================================================================== *)
(** * Properties *)
(* ================================================================== *)

(** ** Facts about the sort *)
Section SortFacts.
Context {A : Type} (comparefn : A -> A -> number).
Context (key : A -> Q) (P : A -> Prop).

(** On the elements of interest the comparator orders by descending key. *)
Hypothesis comparefn_key :
  forall x y, P x -> P y -> keepsBefore comparefn x y = Qle_bool (key y) (key x).

Lemma sortInsert_perm x l : sortInsert comparefn x l ≡ₚ x :: l.
Proof.
  induction l as [|y l IH]; simpl; [reflexivity|].
  destruct (keepsBefore comparefn x y); [reflexivity|].
  rewrite IH. apply Permutation_swap.
Qed.

Lemma sort_perm l : sort comparefn l ≡ₚ l.
Proof.
  induction l as [|x l IH]; simpl; [reflexivity|].
  rewrite sortInsert_perm. by rewrite IH.
Qed.

Lemma sort_Forall (R : A -> Prop) l : Forall R l -> Forall R (sort comparefn l).
Proof. intros H. by rewrite sort_perm. Qed.

Lemma sortInsert_sorted x l :
  P x -> Forall P l ->
  StronglySorted (descending key) l ->
  StronglySorted (descending key) (sortInsert comparefn x l).
Proof.
  intros Px HP Hs. induction Hs as [|y l Hs IH Hy]; simpl.
  - constructor; [constructor | constructor].
  - apply Forall_cons in HP as [Py HP].
    rewrite comparefn_key by assumption.
    destruct (Qle_bool (key y) (key x)) eqn:E.
    + apply Qle_bool_iff in E.
      constructor; [by constructor|].
      constructor; [exact E|].
      eapply Forall_impl; [exact Hy|].
      intros z Hz. unfold descending in *. lra.
    + assert (key x < key y)%Q as Hlt.
      { apply Qnot_le_lt. intros Hle. apply Qle_bool_iff in Hle. congruence. }
      constructor; [by apply IH|].
      rewrite sortInsert_perm. constructor; [|exact Hy].
      unfold descending. lra.
Qed.

Lemma sort_sorted l :
  Forall P l -> StronglySorted (descending key) (sort comparefn l).
Proof.
  induction 1 as [|x l Px HP IH]; simpl; [constructor|].
  apply sortInsert_sorted; [assumption| |assumption].
  by apply sort_Forall.
Qed.

(** Stability: the elements of one key keep their relative order. *)
Lemma sortInsert_stable c x l :
  P x -> Forall P l ->
  List.filter (hasKey key c) (sortInsert comparefn x l)
  = List.filter (hasKey key c) (x :: l).
Proof.
  intros Px HP. induction HP as [|y l Py HP IH]; [reflexivity|].
  cbn [sortInsert]. rewrite comparefn_key by assumption.
  destruct (Qle_bool (key y) (key x)) eqn:E; [reflexivity|].
  assert (key x < key y)%Q as Hlt.
  { apply Qnot_le_lt. intros Hle. apply Qle_bool_iff in Hle. congruence. }
  cbn [List.filter] in *. rewrite IH.
  destruct (hasKey key c x) eqn:Ex, (hasKey key c y) eqn:Ey; try reflexivity.
  unfold hasKey in *. apply Qeq_bool_iff in Ex, Ey. lra.
Qed.

Lemma sort_stable c l :
  Forall P l ->
  List.filter (hasKey key c) (sort comparefn l) = List.filter (hasKey key c) l.
Proof.
  induction 1 as [|x l Px HP IH]; [reflexivity|].
  cbn [sort foldr]. rewrite sortInsert_stable; [|assumption|by apply sort_Forall].
  cbn [List.filter]. fold (sort comparefn l). by rewrite IH.
Qed.

(** The first element of a descending list that passes a downward-closed
    test has the greatest key among those that pass. *)
Lemma find_sorted_greatest (n : Q) l r :
  StronglySorted (descending key) l ->
  List.find (fun a => Qle_bool (key a) n) l = Some r ->
  forall a, In a l -> (key a <= n)%Q -> (key a <= key r)%Q.
Proof.
  induction 1 as [|y l Hs IH Hy]; simpl; [discriminate|].
  destruct (Qle_bool (key y) n) eqn:E.
  - intros [= <-] a [<-|Ha] _; [lra|].
    rewrite Forall_forall in Hy. apply (Hy a). by apply list_elem_of_In.
  - intros Hf a [<-|Ha] Hle.
    + apply Qle_bool_iff in Hle. congruence.
    + by apply IH.
Qed.

(** ... and nothing in front of it shares its key. *)
Lemma find_first_of_key (n : Q) l r :
  List.find (fun a => Qle_bool (key a) n) l = Some r ->
  List.find (hasKey key (key r)) l = Some r.
Proof.
  induction l as [|y l IH]; simpl; [discriminate|].
  destruct (Qle_bool (key y) n) eqn:E.
  - intros [= <-]. unfold hasKey. by rewrite Qeq_bool_refl.
  - intros Hf. specialize (IH Hf).
    destruct (hasKey key (key r) y) eqn:Ey; [|exact IH].
    exfalso. unfold hasKey in Ey. apply Qeq_bool_iff in Ey.
    apply find_some in Hf as [_ Hr]. apply Qle_bool_iff in Hr.
    assert (key y <= n)%Q as Hy by lra.
    apply Qle_bool_iff in Hy. congruence.
Qed.
(** The result does not depend on the sorting algorithm: a descending
    list in which the elements of each key stand in their original order
    is the list [sort] returns. *)
Lemma sorted_stable_unique l1 l2 :
  StronglySorted (descending key) l1 ->
  StronglySorted (descending key) l2 ->
  (forall c, List.filter (hasKey key c) l1 = List.filter (hasKey key c) l2) ->
  l1 = l2.
Proof.
  assert (Hself : forall a, hasKey key (key a) a = true)
    by (intros a; unfold hasKey; by rewrite Qeq_bool_refl).
  intros Hs1. revert l2. induction Hs1 as [|a l1 Hs1 IH Ha]; intros l2 Hs2 Hf.
  - destruct l2 as [|b l2]; [reflexivity|].
    specialize (Hf (key b)). cbn [List.filter] in Hf. rewrite Hself in Hf.
    discriminate.
  - destruct Hs2 as [|b l2 Hs2 Hb].
    + specialize (Hf (key a)). cbn [List.filter] in Hf. rewrite Hself in Hf.
      discriminate.
    + assert (Hab : (key a == key b)%Q).
      { pose proof (Hf (key a)) as Hfa. pose proof (Hf (key b)) as Hfb.
        cbn [List.filter] in Hfa, Hfb. rewrite Hself in Hfa, Hfb.
        destruct (hasKey key (key a) b) eqn:Eb.
        - unfold hasKey in Eb. apply Qeq_bool_iff in Eb. lra.
        - destruct (hasKey key (key b) a) eqn:Ea.
          + unfold hasKey in Ea. by apply Qeq_bool_iff in Ea.
          + assert (In a l2) as Hina.
            { eapply (proj1 (filter_In _ _ _)). rewrite <- Hfa. by left. }
            assert (In b l1) as Hinb.
            { eapply (proj1 (filter_In _ _ _)). rewrite Hfb. by left. }
            rewrite Forall_forall in Ha, Hb.
            pose proof (Ha b (proj2 (list_elem_of_In _ _) Hinb)) as H1.
            pose proof (Hb a (proj2 (list_elem_of_In _ _) Hina)) as H2.
            unfold descending in H1, H2. lra. }
      assert (hasKey key (key a) b = true) as Hkb.
      { unfold hasKey. apply Qeq_bool_iff. lra. }
      assert (a = b) as <-.
      { specialize (Hf (key a)). cbn [List.filter] in Hf.
        rewrite Hself, Hkb in Hf. congruence. }
      f_equal. apply IH; [assumption|].
      intros c. specialize (Hf c). cbn [List.filter] in Hf.
      destruct (hasKey key c a); congruence.
Qed.

Lemma sort_unique l l' :
  Forall P l ->
  StronglySorted (descending key) l' ->
  (forall c, List.filter (hasKey key c) l' = List.filter (hasKey key c) l) ->
  l' = sort comparefn l.
Proof.
  intros HP Hs Hf. apply sorted_stable_unique; [assumption| |].
  - by apply sort_sorted.
  - intros c. by rewrite Hf, sort_stable.
Qed.
End SortFacts.

(** ** Percentage scoring *)

Lemma byValueDesc_key x y :
  (exists a, ruleNumber x = Finite a) -> (exists b, ruleNumber y = Finite b) ->
  keepsBefore byValueDesc x y = Qle_bool (ruleKey y) (ruleKey x).
Proof.
  intros [a Ha] [b Hb]. unfold keepsBefore, byValueDesc, ruleKey.
  rewrite Ha, Hb. cbn [minus].
  destruct (Qle_bool b a) eqn:E.
  - apply Qle_bool_iff in E. apply Qle_bool_iff. lra.
  - apply not_true_is_false. intros H. apply Qle_bool_iff in H.
    assert (b <= a)%Q as H' by lra. apply Qle_bool_iff in H'. congruence.
Qed.

Lemma valued_numeric_rules rules :
  Forall numericRule rules ->
  Forall (fun r => exists x, ruleNumber r = Finite x) (List.filter hasValue rules).
Proof.
  intros H. apply Forall_forall. intros r Hr.
  apply list_elem_of_In, filter_In in Hr as [Hr Hv].
  rewrite Forall_forall in H. specialize (H r (proj2 (list_elem_of_In _ _) Hr)).
  unfold hasValue in Hv. apply bool_decide_eq_true in Hv as [v Hv].
  unfold numericRule in H. unfold ruleNumber. rewrite Hv in *. exact H.
Qed.

Lemma ruleNumber_hasValue r x : ruleNumber r = Finite x -> hasValue r = true.
Proof.
  unfold ruleNumber, hasValue. intros H. apply bool_decide_eq_true.
  destruct (r_value r); [eauto | discriminate].
Qed.

Lemma find_head_filter {A} (q : A -> bool) l :
  List.find q l = head (List.filter q l).
Proof.
  induction l as [|a l IH]; [reflexivity|]. simpl.
  destruct (q a); [reflexivity | exact IH].
Qed.

Lemma find_ext_Forall {A} (p q : A -> bool) (R : A -> Prop) l :
  (forall a, R a -> p a = q a) -> Forall R l -> List.find p l = List.find q l.
Proof.
  intros Hpq. induction 1 as [|a l Ha Hl IH]; [reflexivity|]. simpl.
  rewrite (Hpq a Ha), IH. reflexivity.
Qed.

Lemma filter_threshold x rules :
  Forall numericRule rules ->
  List.filter (hasThreshold x) rules
  = List.filter (hasKey ruleKey x) (List.filter hasValue rules).
Proof.
  induction 1 as [|r rules Hr Hrs IH]; [reflexivity|].
  cbn [List.filter]. rewrite IH. clear IH.
  assert (hasThreshold x r = hasValue r && hasKey ruleKey x r) as ->.
  { unfold hasThreshold, hasValue, hasKey, ruleKey, ruleNumber, numericRule in *.
    destruct (r_value r) as [v|]; [|reflexivity].
    destruct Hr as [y ->]. reflexivity. }
  destruct (hasValue r); simpl; reflexivity.
Qed.

(** C1.  For a numeric value of a percentage item, over rules whose
    values, where present, are numbers or texts that read as finite
    numbers, [calculateScore] returns the score of the rule that comes
    first once the rules are sorted by descending value among those
    whose value is at most the submitted one: its value is the greatest
    such value, and it is the first rule in declared order with that
    value.  When no rule's value is at most the submitted value the
    score is 0. *)
Theorem calculateScore_percentage (n : Q) (rules : list ScoringRule)
    (kpiName : option string) :
  Forall numericRule rules ->
  (exists r x,
      In r rules /\ ruleNumber r = Finite x /\ (x <= n)%Q /\
      (forall r' x', In r' rules -> ruleNumber r' = Finite x' ->
                     (x' <= n)%Q -> (x' <= x)%Q) /\
      List.find (hasThreshold x) rules = Some r /\
      List.find (reaches n)
        (sort byValueDesc (List.filter hasValue rules)) = Some r /\
      calculateScore (VNum n) rules (Some percentage) kpiName = r_score r)
  \/ ((forall r x, In r rules -> ruleNumber r = Finite x -> ~ (x <= n)%Q) /\
      calculateScore (VNum n) rules (Some percentage) kpiName = 0%Q).
Proof.
  intros Hnum.
  pose proof (valued_numeric_rules rules Hnum) as HP.
  set (rs := List.filter hasValue rules) in *.
  pose proof (sort_Forall byValueDesc _ rs HP) as HPs.
  pose proof (sort_sorted byValueDesc ruleKey _ byValueDesc_key rs HP) as Hsorted.
  assert (Hreach : List.find (reaches n) (sort byValueDesc rs)
                   = List.find (fun a => Qle_bool (ruleKey a) n) (sort byValueDesc rs)).
  { eapply find_ext_Forall; [|exact HPs].
    intros a [y Hy]. unfold reaches, ruleKey. by rewrite Hy. }
  assert (Hin : forall r x, In r rules -> ruleNumber r = Finite x ->
                            In r (sort byValueDesc rs)).
  { intros r x Hr Hx. eapply Permutation_in; [symmetry; apply sort_perm|].
    apply filter_In. split; [exact Hr | by eapply ruleNumber_hasValue]. }
  unfold calculateScore. fold rs. cbv zeta.
  rewrite Hreach. clear Hreach.
  destruct (List.find (fun a => Qle_bool (ruleKey a) n) (sort byValueDesc rs))
    as [r|] eqn:Hfind.
  - left.
    pose proof Hfind as Hsome. apply find_some in Hsome as [Hr Hreaches].
    assert (In r rules) as Hrules.
    { eapply Permutation_in in Hr; [|apply sort_perm].
      by apply filter_In in Hr as [? _]. }
    assert (exists x, ruleNumber r = Finite x) as [x Hx].
    { rewrite Forall_forall in HPs.
      destruct (HPs r (proj2 (list_elem_of_In _ _) Hr)) as [x Hx]. eauto. }
    assert (ruleKey r = x) as Hkey by (unfold ruleKey; by rewrite Hx).
    rewrite Hkey in Hreaches. apply Qle_bool_iff in Hreaches.
    exists r, x. repeat split; try assumption; try reflexivity.
    + intros r' x' Hr' Hx' Hle.
      pose proof (find_sorted_greatest ruleKey n _ r Hsorted Hfind r'
                    (Hin r' x' Hr' Hx')) as Hg.
      assert (ruleKey r' = x') as Hkey' by (unfold ruleKey; by rewrite Hx').
      rewrite Hkey, Hkey' in Hg. by apply Hg.
    + rewrite find_head_filter, (filter_threshold x rules Hnum).
      fold rs. rewrite <- (sort_stable byValueDesc ruleKey _ byValueDesc_key x rs HP).
      rewrite <- find_head_filter. rewrite <- Hkey.
      eapply find_first_of_key. exact Hfind.
  - right. split; [|reflexivity].
    intros r x Hr Hx Hle.
    pose proof (find_none _ _ Hfind r (Hin r x Hr Hx)) as Hno.
    simpl in Hno.
    assert (ruleKey r = x) as Hkey by (unfold ruleKey; by rewrite Hx).
    rewrite Hkey in Hno. apply Qle_bool_iff in Hle. congruence.
Qed.

Lemma calculateScore_percentage_witness :
  Forall numericRule textExample /\
  calculateScore (VNum 80) textExample (Some percentage) None = 3%Q.
Proof.
  assert (H : Forall numericRule textExample).
  { constructor; [by exists 90%Q|]. constructor; [by exists 75%Q | constructor]. }
  split; [exact H|].
  destruct (calculateScore_percentage 80 textExample None H)
    as [(r & x & _ & _ & _ & _ & _ & Hf & ->)|[Hnone _]].
  - vm_compute in Hf. injection Hf as <-. reflexivity.
  - exfalso. apply (Hnone (textRule " 75.0 " 3) 75%Q).
    + right. left. reflexivity.
    + reflexivity.
    + apply Qle_bool_iff. reflexivity.
Defined.

(** With a text that is not a number among the rule values the
    comparator is [NaN] on the pairs with that rule, the sort leaves the
    list [75, 'n/a', 90] as it is, and 95 is scored 3 by the rule of 75
    although the rule of 90 has the greatest value that is at most 95. *)
Lemma calculateScore_text_rule :
  ~ Forall numericRule mixedRules
  /\ sort byValueDesc (List.filter hasValue mixedRules) = mixedRules
  /\ calculateScore (VNum 95) mixedRules (Some percentage) None = 3%Q
  /\ In (exactRule 90 5) mixedRules
  /\ ruleNumber (exactRule 90 5) = Finite 90
  /\ (75 < 90 <= 95)%Q
  /\ r_score (exactRule 90 5) = 5%Q.
Proof.
  split.
  { intros H. apply Forall_cons in H as [_ H]. apply Forall_cons in H as [[x Hx] _].
    vm_compute in Hx. discriminate. }
  split; [reflexivity|]. split; [reflexivity|].
  split; [right; right; by left|]. split; [reflexivity|].
  split; [split; [reflexivity | discriminate] | reflexivity].
Qed.

Example percentage_80 :
  calculateScore (VNum 80) percentageExample (Some percentage) None = 3%Q.
Proof. reflexivity. Qed.

Example percentage_95 :
  calculateScore (VNum 95) percentageExample (Some percentage) None = 5%Q.
Proof. reflexivity. Qed.

Example percentage_50 :
  calculateScore (VNum 50) percentageExample (Some percentage) None = 0%Q.
Proof. reflexivity. Qed.

(** The same thresholds written as text are read as numbers. *)
Example percentage_text :
  map (fun n => calculateScore (VNum n) textExample (Some percentage) None)
    [80; 95; 50]%Q
  = [3; 5; 0]%Q.
Proof. reflexivity. Qed.

(** ** Competition ranking *)

Lemma firstWithScore_Qeq s s' rs :
  (s == s')%Q -> firstWithScore s rs = firstWithScore s' rs.
Proof.
  intros Hs. induction rs as [|r rs IH]; [reflexivity|]. simpl.
  rewrite IH.
  destruct (Qeq_bool (totalScore r) s) eqn:E, (Qeq_bool (totalScore r) s') eqn:E';
    try reflexivity.
  - apply Qeq_bool_iff in E. apply Qeq_bool_neq in E'. exfalso. apply E'. lra.
  - apply Qeq_bool_iff in E'. apply Qeq_bool_neq in E. exfalso. apply E. lra.
Qed.

Lemma firstWithScore_app s pre rest :
  Forall (fun p => (s < totalScore p)%Q) pre ->
  firstWithScore s (pre ++ rest) = (length pre + firstWithScore s rest)%nat.
Proof.
  induction 1 as [|p pre Hp _ IH]; [reflexivity|]. simpl.
  destruct (Qeq_bool (totalScore p) s) eqn:E.
  - apply Qeq_bool_iff in E. lra.
  - by rewrite IH.
Qed.

Lemma firstWithScore_here r rest :
  firstWithScore (totalScore r) (r :: rest) = 0%nat.
Proof. simpl. by rewrite Qeq_bool_refl. Qed.

Lemma sorted_app_le {A} (key : A -> Q) pre rest :
  StronglySorted (descending key) (pre ++ rest) ->
  forall a b, In a pre -> In b rest -> (key b <= key a)%Q.
Proof.
  induction pre as [|p pre IH]; simpl; [contradiction|].
  intros Hs a b [<-|Ha] Hb.
  - apply StronglySorted_inv in Hs as [_ Hall].
    rewrite Forall_forall in Hall. apply (Hall b).
    apply list_elem_of_In, in_or_app. by right.
  - apply StronglySorted_inv in Hs as [Hs _]. by apply IH.
Qed.

Lemma assignFrom_spec (pre rest : list Ranking) (c : Q) (k : nat) :
  StronglySorted (descending totalScore) (pre ++ rest) ->
  Forall (fun p => (c <= totalScore p)%Q) pre ->
  (forall r, head rest = Some r -> (totalScore r <= c)%Q) ->
  k = S (firstWithScore c (pre ++ rest)) ->
  forall i r0, rest !! i = Some r0 ->
    assignFrom (length pre) k (Some c) rest !! i
    = Some (setRanking r0 (S (firstWithScore (totalScore r0) (pre ++ rest)))).
Proof.
  revert pre c k. induction rest as [|r rest IH]; intros pre c k Hs Hpre Hhead Hk i r0 Hi.
  - by rewrite lookup_nil in Hi.
  - assert (Hr : (totalScore r <= c)%Q) by (by apply Hhead).
    assert (Hge : Forall (fun p => (totalScore r <= totalScore p)%Q) pre).
    { apply Forall_forall. intros p Hp.
      apply (sorted_app_le totalScore pre (r :: rest) Hs p r).
      - by apply list_elem_of_In.
      - by left. }
    cbn [assignFrom]. unfold differs.
    destruct (Qeq_bool (totalScore r) c) eqn:E; cbn [negb].
    + (* a tie: the rank is kept *)
      apply Qeq_bool_iff in E.
      destruct i as [|i]; simpl in Hi |- *.
      * injection Hi as <-. do 2 f_equal. rewrite Hk. f_equal.
        apply firstWithScore_Qeq. lra.
      * replace (pre ++ r :: rest) with ((pre ++ [r]) ++ rest) in *
          by (by rewrite <- app_assoc).
        replace (S (length pre)) with (length (pre ++ [r]))
          by (rewrite length_app; simpl; lia).
        apply IH; try assumption.
        -- apply Forall_app. split; [assumption|]. constructor; [lra|constructor].
        -- intros r2 H2. destruct rest as [|r2' rest]; simplify_eq/=.
           pose proof (sorted_app_le totalScore (pre ++ [r]) (r2 :: rest) Hs r r2) as Hle.
           cut (totalScore r2 <= totalScore r)%Q; [lra|].
           apply Hle; [apply in_or_app; right; by left | by left].
    + (* a new score: the rank is the position *)
      apply Qeq_bool_neq in E.
      assert (Hlt : Forall (fun p => (totalScore r < totalScore p)%Q) pre).
      { eapply Forall_impl; [exact Hpre|]. intros p Hp. simpl in Hp.
        destruct (Qlt_le_dec (totalScore r) c) as [?|Hc]; [lra|].
        exfalso. apply E. lra. }
      assert (Hpos : (length pre + 1)%nat
                     = S (firstWithScore (totalScore r) (pre ++ r :: rest))).
      { rewrite firstWithScore_app by assumption.
        rewrite firstWithScore_here. lia. }
      destruct i as [|i]; simpl in Hi |- *.
      * injection Hi as <-. by rewrite Hpos.
      * replace (pre ++ r :: rest) with ((pre ++ [r]) ++ rest) in *
          by (by rewrite <- app_assoc).
        replace (S (length pre)) with (length (pre ++ [r]))
          by (rewrite length_app; simpl; lia).
        apply IH; try assumption.
        -- apply Forall_app. split.
           ++ eapply Forall_impl; [exact Hge|]. intros p Hp. exact Hp.
           ++ constructor; [lra|constructor].
        -- intros r2 H2. destruct rest as [|r2' rest]; simplify_eq/=.
           apply (sorted_app_le totalScore (pre ++ [r]) (r2 :: rest) Hs r r2);
             [apply in_or_app; right; by left | by left].
Qed.

Lemma sorted_lookup_le {A} (key : A -> Q) (l : list A) i j a b :
  StronglySorted (descending key) l ->
  (i <= j)%nat -> l !! i = Some a -> l !! j = Some b -> (key b <= key a)%Q.
Proof.
  intros Hs Hij Ha Hb.
  destruct (decide (i = j)) as [->|Hne].
  - rewrite Ha in Hb. injection Hb as <-. lra.
  - rewrite <- (take_drop (S i) l) in Hs.
    apply (sorted_app_le key _ _ Hs a b).
    + apply list_elem_of_In, list_elem_of_lookup. exists i.
      rewrite lookup_take_lt by lia. exact Ha.
    + apply list_elem_of_In, list_elem_of_lookup. exists (j - S i)%nat.
      rewrite lookup_drop. rewrite <- Hb. f_equal. lia.
Qed.

Lemma firstWithScore_bound s l i r :
  l !! i = Some r -> (totalScore r == s)%Q -> (firstWithScore s l <= i)%nat.
Proof.
  revert i. induction l as [|a l IH]; intros i Hi Hs; [by rewrite lookup_nil in Hi|].
  simpl. destruct (Qeq_bool (totalScore a) s) eqn:E; [lia|].
  destruct i as [|i]; simpl in Hi.
  - injection Hi as ->. apply Qeq_bool_iff in Hs. congruence.
  - specialize (IH i Hi Hs). lia.
Qed.

Lemma firstWithScore_lookup s l :
  (firstWithScore s l < length l)%nat ->
  exists r, l !! firstWithScore s l = Some r /\ (totalScore r == s)%Q.
Proof.
  induction l as [|a l IH]; simpl; [lia|].
  destruct (Qeq_bool (totalScore a) s) eqn:E.
  - intros _. exists a. split; [reflexivity | by apply Qeq_bool_iff].
  - intros H. apply IH. lia.
Qed.

Example ranking_90_90_80_70 :
  map ranking (assignRankings rankingExample) = [1; 1; 3; 4]%nat
  /\ map ranking (rankAll (reverse rankingExample)) = [1; 1; 3; 4]%nat.
Proof. split; reflexivity. Qed.

(** The list the ranking loop receives is sorted: it comes out of the
    sort by descending total score. *)
Lemma sort_byTotalScoreDesc_sorted (rankings : list Ranking) :
  StronglySorted (descending totalScore) (sort byTotalScoreDesc rankings).
Proof.
  apply (sort_sorted byTotalScoreDesc totalScore (fun _ => True)).
  - intros x y _ _. unfold keepsBefore, byTotalScoreDesc.
    destruct (Qle_bool (totalScore y) (totalScore x)) eqn:E.
    + apply Qle_bool_iff in E. apply Qle_bool_iff. lra.
    + apply not_true_is_false. intros H. apply Qle_bool_iff in H.
      assert (totalScore y <= totalScore x)%Q as H' by lra.
      apply Qle_bool_iff in H'. congruence.
  - apply Forall_forall. auto.
Qed.

Lemma assignFrom_length index currentRank currentScore rankings :
  length (assignFrom index currentRank currentScore rankings) = length rankings.
Proof.
  revert index currentRank currentScore.
  induction rankings as [|r rest IH]; intros; [reflexivity|].
  cbn [assignFrom length]. cbv zeta. by rewrite IH.
Qed.

Lemma assignFrom_unranked index currentRank currentScore rankings :
  map unranked (assignFrom index currentRank currentScore rankings)
  = map unranked rankings.
Proof.
  revert index currentRank currentScore.
  induction rankings as [|r rest IH]; intros; [reflexivity|].
  cbn [assignFrom map]. cbv zeta. by rewrite IH.
Qed.

Lemma assignRankings_lookup rs i r0 :
  StronglySorted (descending totalScore) rs ->
  rs !! i = Some r0 ->
  assignRankings rs !! i
  = Some (setRanking r0 (S (firstWithScore (totalScore r0) rs))).
Proof.
  intros Hs Hi. unfold assignRankings.
  destruct rs as [|r rs']; [by rewrite lookup_nil in Hi|].
  cbn [head fmap option_fmap option_map].
  apply (assignFrom_spec [] (r :: rs') (totalScore r) 1 Hs).
  - constructor.
  - intros r2 [= <-]. lra.
  - simpl. by rewrite Qeq_bool_refl.
  - exact Hi.
Qed.

(** C4.  Over a list sorted by descending total score, the ranking loop
    keeps the length of the list, leaves every element in place with
    all its other fields, and sets its [ranking] to the competition
    rank: one more than the position of the first element with the same
    score.  So the first element has rank 1, an element whose score
    differs from its predecessor's has its 1-based position as rank, and
    an element whose score equals its predecessor's has the
    predecessor's rank. *)
Theorem assignRankings_competition (rs : list Ranking) :
  StronglySorted (descending totalScore) rs ->
  length (assignRankings rs) = length rs
  /\ forall i r0, rs !! i = Some r0 ->
       exists r,
         assignRankings rs !! i = Some r /\
         unranked r = unranked r0 /\
         ranking r = S (firstWithScore (totalScore r0) rs) /\
         (i = 0%nat -> ranking r = 1%nat) /\
         (forall j p, i = S j -> rs !! j = Some p ->
                      ~ (totalScore p == totalScore r0)%Q -> ranking r = S i) /\
         (forall j p, i = S j -> rs !! j = Some p ->
                      (totalScore p == totalScore r0)%Q ->
                      exists q, assignRankings rs !! j = Some q
                                /\ unranked q = unranked p
                                /\ ranking q = ranking r).
Proof.
  intros Hs. split; [apply assignFrom_length|].
  intros i r0 Hi.
  exists (setRanking r0 (S (firstWithScore (totalScore r0) rs))).
  split; [by apply assignRankings_lookup|]. split; [reflexivity|].
  cbn [setRanking ranking]. split; [reflexivity|].
  split; [|split].
  - intros ->. destruct rs as [|r rs']; [by rewrite lookup_nil in Hi|].
    simpl in Hi. injection Hi as ->. by rewrite firstWithScore_here.
  - intros j p -> Hj Hne. f_equal.
    pose proof (firstWithScore_bound (totalScore r0) rs (S j) r0 Hi
                  ltac:(reflexivity)) as Hle.
    destruct (decide (firstWithScore (totalScore r0) rs = S j)) as [|Hlt];
      [assumption|exfalso].
    destruct (firstWithScore_lookup (totalScore r0) rs) as (q & Hq & Hqs).
    { apply lookup_lt_Some in Hi. lia. }
    assert (firstWithScore (totalScore r0) rs <= j)%nat as Hfj by lia.
    pose proof (sorted_lookup_le totalScore rs _ j q p Hs Hfj Hq Hj).
    pose proof (sorted_lookup_le totalScore rs j (S j) p r0 Hs (le_S _ _ (le_n j))
                  Hj Hi).
    apply Hne. lra.
  - intros j p -> Hj Heq.
    exists (setRanking p (S (firstWithScore (totalScore p) rs))).
    split; [by apply assignRankings_lookup|]. split; [reflexivity|].
    cbn [setRanking ranking]. f_equal. by apply firstWithScore_Qeq.
Qed.

Lemma assignRankings_competition_witness :
  StronglySorted (descending totalScore) rankingExample /\
  exists r, assignRankings rankingExample !! 2%nat = Some r
            /\ memberId r = "c" /\ ranking r = 3%nat.
Proof.
  assert (Hs : StronglySorted (descending totalScore) rankingExample).
  { unfold rankingExample, descending.
    repeat (constructor; [|repeat constructor; apply Qle_bool_iff; reflexivity]).
    constructor. }
  split; [exact Hs|].
  destruct (proj2 (assignRankings_competition rankingExample Hs) 2%nat
              (scored "c" 80) eq_refl) as (r & Hr & Hfields & Hrank & _).
  exists r. split; [exact Hr|]. split.
  - by injection Hfields.
  - rewrite Hrank. reflexivity.
Defined.

(** ** The calendar *)

Lemma civilFromDays_inverse z :
  daysFromCivil (civilFromDays z).1.1 (civilFromDays z).1.2 (civilFromDays z).2 = z
  /\ 1 <= (civilFromDays z).1.2 <= 12
  /\ 1 <= (civilFromDays z).2 <= 31.
Proof.
  unfold civilFromDays, daysFromCivil. cbv zeta. cbn [fst snd].
  set (z' := z + 719468).
  set (era := z' / 146097). set (doe := z' mod 146097).
  assert (Hdoe : 0 <= doe < 146097) by (apply Z.mod_pos_bound; lia).
  assert (Hz : z' = 146097 * era + doe) by (apply Z.div_mod; lia).
  set (yoe := (doe - doe / 1460 + doe / 36524 - doe / 146096) / 365).
  assert (Hyoe : 0 <= yoe <= 399
                 /\ 0 <= doe - (365 * yoe + yoe / 4 - yoe / 100) <= 365).
  { subst yoe. clear Hz. Z.div_mod_to_equations. lia. }
  set (doy := doe - (365 * yoe + yoe / 4 - yoe / 100)) in *.
  set (mp := (5 * doy + 2) / 153).
  assert (Hmp : 0 <= mp <= 11) by (subst mp; Z.div_mod_to_equations; lia).
  assert (Hd : 1 <= doy - (153 * mp + 2) / 5 + 1 <= 31).
  { subst mp. clearbody doy. clear -Hyoe. Z.div_mod_to_equations. lia. }
  set (m := if mp <? 10 then mp + 3 else mp - 9).
  assert (Hm : 1 <= m <= 12 /\ (if 2 <? m then m - 3 else m + 9) = mp
               /\ ((m <=? 2) = negb (mp <? 10))).
  { subst m. destruct (Z.ltb_spec mp 10).
    - destruct (Z.ltb_spec 2 (mp + 3)), (Z.leb_spec (mp + 3) 2); simpl; lia.
    - destruct (Z.ltb_spec 2 (mp - 9)), (Z.leb_spec (mp - 9) 2); simpl; lia. }
  destruct Hm as (Hm & Hmp' & Hle). rewrite Hmp'.
  split; [|split; [exact Hm | exact Hd]].
  set (y := (if m <=? 2 then yoe + era * 400 + 1 else yoe + era * 400)
            - (if m <=? 2 then 1 else 0)).
  assert (Hy : (if m <=? 2
                then (if m <=? 2 then yoe + era * 400 + 1 else yoe + era * 400) - 1
                else (if m <=? 2 then yoe + era * 400 + 1 else yoe + era * 400))
               = yoe + era * 400) by (destruct (m <=? 2); lia).
  rewrite Hy.
  assert (Hera : (yoe + era * 400) / 400 = era)
    by (clear -Hyoe; Z.div_mod_to_equations; lia).
  assert (Hyoe' : (yoe + era * 400) mod 400 = yoe)
    by (clear -Hyoe; Z.div_mod_to_equations; lia).
  rewrite Hera, Hyoe'. subst doy z'. lia.
Qed.

Lemma daysFromCivil_day y m d : daysFromCivil y m d = daysFromCivil y m 1 + d - 1.
Proof. unfold daysFromCivil. cbv zeta. lia. Qed.

(** An instant since the epoch lies in a year that [new Date] takes as
    written. *)
Lemma getFullYear_since_epoch t : 0 <= t -> 1970 <= getFullYear t.
Proof.
  intros Ht. unfold getFullYear, civilFromDays, Day, msPerDay. cbv zeta. cbn [fst snd].
  assert (0 <= t / 86400000) as Hz by (apply Z.div_pos; lia).
  set (z := t / 86400000) in *. clearbody z. clear Ht t.
  set (z' := z + 719468).
  set (era := z' / 146097). set (doe := z' mod 146097).
  assert (Hdoe : 0 <= doe < 146097) by (apply Z.mod_pos_bound; lia).
  assert (Hz' : z' = 146097 * era + doe) by (apply Z.div_mod; lia).
  set (yoe := (doe - doe / 1460 + doe / 36524 - doe / 146096) / 365).
  assert (Hyoe : 0 <= yoe <= 399
                 /\ 0 <= doe - (365 * yoe + yoe / 4 - yoe / 100) <= 365).
  { subst yoe. clear Hz'. Z.div_mod_to_equations. lia. }
  set (doy := doe - (365 * yoe + yoe / 4 - yoe / 100)) in *.
  set (mp := (5 * doy + 2) / 153).
  assert (Hmp : 0 <= mp <= 11 /\ (doy < 306 -> mp < 10) /\ (306 <= doy -> 10 <= mp))
    by (subst mp; Z.div_mod_to_equations; lia).
  assert (Hera : 4 <= era) by lia.
  assert (Hkey : era = 4 -> 369 <= yoe /\ (yoe = 369 -> 306 <= doy)).
  { intros He. subst doy z'. clearbody yoe doe. clear Hmp mp.
    Z.div_mod_to_equations. lia. }
  destruct (Z.ltb_spec mp 10) as [Hlt|Hge].
  - destruct (Z.leb_spec (mp + 3) 2); lia.
  - destruct (Z.leb_spec (mp - 9) 2); lia.
Qed.

Lemma newDate_of_day t :
  0 <= t -> newDate (getFullYear t) (getMonth t) (getDate t) = Day t * msPerDay.
Proof.
  intros Ht. pose proof (getFullYear_since_epoch t Ht) as Hy.
  unfold newDate.
  replace ((0 <=? getFullYear t) && (getFullYear t <=? 99)) with false
    by (symmetry; apply andb_false_iff; right; apply Z.leb_gt; lia).
  f_equal. unfold MakeDay, getFullYear, getMonth, getDate in *.
  destruct (civilFromDays_inverse (Day t)) as (Hinv & Hm & Hd).
  set (c := civilFromDays (Day t)) in *. clearbody c.
  replace ((c.1.2 - 1) / 12) with 0 by (Z.div_mod_to_equations; lia).
  replace ((c.1.2 - 1) mod 12 + 1) with c.1.2 by (Z.div_mod_to_equations; lia).
  rewrite Z.add_0_r. rewrite <- daysFromCivil_day. exact Hinv.
Qed.

(** ** The period window *)

Lemma Day_shift t k : Day (t - k * msPerDay) = Day t - k.
Proof.
  unfold Day, msPerDay.
  replace (t - k * 86400000) with (t + (- k) * 86400000) by lia.
  rewrite Z.div_add by lia. lia.
Qed.

Lemma Day_midnight d : Day (d * msPerDay) = d /\ TimeWithinDay (d * msPerDay) = 0.
Proof.
  unfold Day, TimeWithinDay, msPerDay.
  split; [apply Z.div_mul; lia | apply Z.mod_mul; lia].
Qed.

Lemma periodWindow_daily t :
  0 <= t ->
  periodWindow "daily" t = Some (Day t * msPerDay, (Day t + 1) * msPerDay).
Proof.
  intros Ht. unfold periodWindow. cbn [String.eqb Ascii.eqb Bool.eqb].
  cbv zeta. rewrite newDate_of_day by assumption.
  do 2 f_equal; unfold msPerDay; lia.
Qed.

Lemma periodWindow_weekly t :
  periodWindow "weekly" t = Some (mondayOf t, mondayOf t + 7 * msPerDay).
Proof.
  unfold periodWindow. cbn [String.eqb Ascii.eqb Bool.eqb]. cbv zeta.
  assert (setHours
            (t - (if getDay t =? 0 then 6 else getDay t - 1) * 24 * 60 * 60 * 1000)
            0 0 0 0 = mondayOf t) as ->.
  { unfold setHours, mondayOf.
    replace ((if getDay t =? 0 then 6 else getDay t - 1) * 24 * 60 * 60 * 1000)
      with ((if getDay t =? 0 then 6 else getDay t - 1) * msPerDay)
      by (unfold msPerDay; lia).
    rewrite Day_shift.
    assert ((if getDay t =? 0 then 6 else getDay t - 1) = (getDay t + 6) mod 7) as ->.
    { unfold getDay. set (d := Day t). clearbody d.
      destruct (Z.eqb_spec ((d + 4) mod 7) 0); Z.div_mod_to_equations; lia. }
    lia. }
  do 2 f_equal; unfold msPerDay; lia.
Qed.

Lemma mondayOf_is_monday t : getDay (mondayOf t) = 1 /\ mondayOf t <= t.
Proof.
  unfold mondayOf, getDay. rewrite (proj1 (Day_midnight _)).
  unfold Day, msPerDay. split; Z.div_mod_to_equations; lia.
Qed.

(** C2.  For an instant [t] since the epoch, the daily window starts at
    the midnight of [t]'s date and the weekly window at the midnight of
    the Monday of [t]'s week; but each window ends at the midnight that
    follows the period (start + 1 day, start + 7 days), not one
    millisecond before it, so that this instant is also the start of the
    next period's window. *)
Theorem periodWindow_daily_weekly (t : Z) :
  0 <= t ->
  periodWindow "daily" t = Some (Day t * msPerDay, Day t * msPerDay + msPerDay)
  /\ periodWindow "daily" (Day t * msPerDay + msPerDay)
     = Some (Day t * msPerDay + msPerDay, Day t * msPerDay + 2 * msPerDay)
  /\ periodWindow "weekly" t = Some (mondayOf t, mondayOf t + 7 * msPerDay)
  /\ periodWindow "weekly" (mondayOf t + 7 * msPerDay)
     = Some (mondayOf t + 7 * msPerDay, mondayOf t + 14 * msPerDay)
  /\ getDay (mondayOf t) = 1
  /\ TimeWithinDay (mondayOf t) = 0
  /\ Day t * msPerDay <= t < Day t * msPerDay + msPerDay
  /\ mondayOf t <= t < mondayOf t + 7 * msPerDay.
Proof.
  intros Ht.
  assert (Hnext : Day t * msPerDay + msPerDay = (Day t + 1) * msPerDay)
    by (unfold msPerDay; lia).
  assert (Hday : 0 <= Day t) by (apply Z.div_pos; unfold msPerDay; lia).
  repeat split.
  - rewrite periodWindow_daily by assumption. do 2 f_equal; unfold msPerDay; lia.
  - rewrite Hnext, periodWindow_daily by (unfold msPerDay; lia).
    rewrite (proj1 (Day_midnight _)). do 2 f_equal; unfold msPerDay; lia.
  - apply periodWindow_weekly.
  - rewrite periodWindow_weekly.
    assert (mondayOf (mondayOf t + 7 * msPerDay) = mondayOf t + 7 * msPerDay) as ->.
    { unfold mondayOf at 1.
      replace (mondayOf t + 7 * msPerDay)
        with ((Day t - (getDay t + 6) mod 7 + 7) * msPerDay)
        by (unfold mondayOf, msPerDay; lia).
      unfold getDay. rewrite !(proj1 (Day_midnight _)).
      unfold msPerDay. set (d := Day t). clearbody d.
      Z.div_mod_to_equations. lia. }
    do 2 f_equal; unfold msPerDay; lia.
  - apply mondayOf_is_monday.
  - unfold mondayOf. apply Day_midnight.
  - unfold Day, msPerDay. Z.div_mod_to_equations. lia.
  - unfold Day, msPerDay. Z.div_mod_to_equations. lia.
  - apply mondayOf_is_monday.
  - unfold mondayOf, getDay, Day, msPerDay. Z.div_mod_to_equations. lia.
Qed.

(** At the reference of the example the daily window ends on 16 January
    at 00:00:00.000 and the weekly one on 22 January at 00:00:00.000. *)
Lemma periodWindow_daily_weekly_witness :
  0 <= monday_morning
  /\ periodWindow "daily" monday_morning
     = Some (at_ 2024 1 15 0 0, at_ 2024 1 16 0 0)
  /\ periodWindow "weekly" monday_morning
     = Some (at_ 2024 1 15 0 0, at_ 2024 1 22 0 0).
Proof.
  assert (H : 0 <= monday_morning) by (vm_compute; discriminate).
  split; [exact H|].
  destruct (periodWindow_daily_weekly monday_morning H)
    as (Hd & _ & Hw & _).
  split; [rewrite Hd | rewrite Hw]; reflexivity.
Defined.

(** An entry created at midnight sharp is in the window of the day (of
    the week) before and in that of the day (of the week) that starts. *)
Example midnight_entry_in_two_windows :
  checkFrequencyValidation createdAtMidnight "T1" "u1" "daily" monday_morning
  = ok true
  /\ checkFrequencyValidation createdAtMidnight "T1" "u1" "daily"
       (at_ 2024 1 16 10 30) = ok true
  /\ checkFrequencyValidation createdAtMidnight "T2" "u1" "weekly" monday_morning
     = ok true
  /\ checkFrequencyValidation createdAtMidnight "T2" "u1" "weekly"
       (at_ 2024 1 22 10 30) = ok true.
Proof. vm_compute. repeat split. Qed.

(** ** Creating an entry *)

Lemma is_Some_find_existsb {A} (p : A -> bool) l :
  bool_decide (is_Some (List.find p l)) = existsb p l.
Proof.
  induction l as [|a l IH]; [reflexivity|]. simpl.
  destruct (p a); [|exact IH].
  apply bool_decide_eq_true. eauto.
Qed.

Lemma find_is_Some {A} (p : A -> bool) l a :
  In a l -> p a = true -> exists b, List.find p l = Some b.
Proof.
  intros Ha Hp. destruct (List.find p l) as [b|] eqn:E; [eauto|].
  pose proof (find_none _ _ E a Ha). congruence.
Qed.

(** C3, as stated, fails: a generated entry that lies in the window
    around now makes the creation fail with [PeriodConflict], which is
    checked first. *)
Lemma createKpiEntry_generated_in_window :
  (exists e, In e (tbl_kpi_entries lockedToday)
             /\ isGeneratedFor "T1" "u1" e = true)
  /\ createKpiEntry lockedToday (requestFor "T1") "admin" monday_morning
     = throw (PeriodConflict "daily")
  /\ createKpiEntry lockedToday (requestFor "T1") "admin" monday_morning
     <> throw ReportAlreadyGenerated.
Proof.
  split; [|split].
  - eexists. split; [left; reflexivity | reflexivity].
  - vm_compute. reflexivity.
  - vm_compute. discriminate.
Qed.

(** C3, amended.  Whenever some entry of the (template, member) pair is
    generated, the creation fails, whatever the windows of that entry
    and of now; when the template exists, is for the member's role and
    has a known frequency, the failure is [PeriodConflict] if an entry
    of the pair lies in the window around now, and
    [ReportAlreadyGenerated] otherwise. *)
Theorem createKpiEntry_after_report (db : Db) (kpiEntry : KpiEntryCreate)
    (userId : string) (now : Z) (e : KpiEntry) :
  In e (tbl_kpi_entries db) ->
  isGeneratedFor (c_kpiTemplateId kpiEntry) (c_createdFor kpiEntry) e = true ->
  succeeded (createKpiEntry db kpiEntry userId now) = false
  /\ forall template startDate endDate,
       getKpiTemplate db (c_kpiTemplateId kpiEntry) = Some template ->
       option_string_eqb (Some (t_role template))
         (m_role <$> getMember db (c_createdFor kpiEntry)) = true ->
       periodWindow (t_frequency template) now = Some (startDate, endDate) ->
       createKpiEntry db kpiEntry userId now
       = throw (if existsb
                     (inWindow (c_kpiTemplateId kpiEntry) (c_createdFor kpiEntry)
                        startDate endDate)
                     (tbl_kpi_entries db)
                then PeriodConflict (t_frequency template)
                else ReportAlreadyGenerated).
Proof.
  intros He Hgen.
  destruct (find_is_Some _ _ e He Hgen) as [g Hg].
  unfold createKpiEntry, checkFrequencyValidation.
  split.
  - destruct (getKpiTemplate db (c_kpiTemplateId kpiEntry)) as [template|];
      [|reflexivity].
    destruct (negb _); [reflexivity|].
    destruct (periodWindow (t_frequency template) now) as [[s' e']|];
      [|reflexivity].
    cbn [bind ok]. rewrite is_Some_find_existsb.
    destruct (existsb _ _); [reflexivity|]. by rewrite Hg.
  - intros template startDate endDate -> Hrole ->.
    rewrite Hrole. cbn [negb bind ok]. rewrite is_Some_find_existsb.
    destruct (existsb _ _); [reflexivity|]. by rewrite Hg.
Qed.

(** The report has locked last week's entry: the creation of this
    week's fails with [ReportAlreadyGenerated]. *)
Lemma createKpiEntry_after_report_witness :
  createKpiEntry (dbOf [entryOf 1 "T1" (at_ 2024 1 8 9 0) generated])
    (requestFor "T1") "admin" monday_morning
  = throw ReportAlreadyGenerated.
Proof.
  pose (db := dbOf [entryOf 1 "T1" (at_ 2024 1 8 9 0) generated]).
  destruct (createKpiEntry_after_report db (requestFor "T1") "admin"
              monday_morning (entryOf 1 "T1" (at_ 2024 1 8 9 0) generated)
              (or_introl eq_refl) eq_refl) as [_ H].
  exact (H dailyTemplate (at_ 2024 1 15 0 0) (at_ 2024 1 16 0 0)
           eq_refl eq_refl eq_refl).
Defined.

(** ** Updating an entry *)

Lemma updateKpiEntry_locked db entryId updateData userId now existingEntry :
  findById db entryId = Some existingEntry ->
  e_status existingEntry = generated ->
  updateKpiEntry db entryId updateData userId now = throw EntryLocked.
Proof. intros Hf Hs. unfold updateKpiEntry. by rewrite Hf, Hs. Qed.

Lemma updateKpiEntry_window db entryId updateData userId now existingEntry template :
  findById db entryId = Some existingEntry ->
  e_status existingEntry = initiated ->
  getKpiTemplate db (e_kpiTemplateId existingEntry) = Some template ->
  isWithinUpdatePeriod (t_frequency template) (e_createdAt existingEntry) now = false ->
  updateKpiEntry db entryId updateData userId now
  = throw (UpdateWindowClosed (t_frequency template)).
Proof.
  intros Hf Hs Ht Hw. unfold updateKpiEntry. by rewrite Hf, Hs, Ht, Hw.
Qed.

(** The weeks of the example dates. *)
Example weeks_of_january_2024 :
  isoWeek friday_noon = (2024, 1) /\ isoWeek saturday_noon = (2024, 1)
  /\ isoWeek sunday_noon = (2024, 1) /\ isoWeek next_monday_noon = (2024, 2)
  /\ getWeekNumber friday_noon = 1 /\ getWeekNumber saturday_noon = 2
  /\ getWeekNumber sunday_noon = 2 /\ getWeekNumber next_monday_noon = 2.
Proof. vm_compute. repeat split. Qed.

(** C5: the weekly case of the update rule does not compare ISO weeks.
    An entry created on Sunday 7 January 2024 is still updated on Monday
    8 January, which is in the next ISO week and in the next weekly
    window of [periodWindow]; an entry created on Friday 5 January is
    refused on Saturday 6 January, in the same ISO week and the same
    weekly window. *)
Theorem updateKpiEntry_weekly_not_iso :
  isoWeek sunday_noon <> isoWeek next_monday_noon
  /\ periodWindow "weekly" sunday_noon <> periodWindow "weekly" next_monday_noon
  /\ succeeded (updateKpiEntry createdSunday 1 (newValues 95) "admin"
                  next_monday_noon) = true
  /\ isoWeek friday_noon = isoWeek saturday_noon
  /\ periodWindow "weekly" friday_noon = periodWindow "weekly" saturday_noon
  /\ updateKpiEntry createdFriday 1 (newValues 95) "admin" saturday_noon
     = throw (UpdateWindowClosed "weekly").
Proof. vm_compute. repeat split; discriminate. Qed.

(** ** Entries that a report has locked *)

(** C6: a generated entry is not immutable.  The instance method
    [updateKpiEntry] overwrites its values and takes it back to
    [initiated], and [deleteKpiEntry] removes it; the static
    [updateKpiEntry] and [createKpiEntry] store the [status] of the
    request, so an entry becomes generated without any report. *)
Theorem generated_entry_overwritten :
  storedStatus lockedToday 1 = Some generated
  /\ storedStatus
       (Prototype.updateKpiEntry lockedToday 1 reopened monday_morning).2 1
     = Some initiated
  /\ e_values <$>
       findById (Prototype.updateKpiEntry lockedToday 1 reopened monday_morning).2 1
     = Some [attended 100 5]
  /\ findById (Prototype.deleteKpiEntry lockedToday 1).2 1 = None
  /\ (match updateKpiEntry oneOpenDay 1 markDone "admin" monday_morning with
      | inr (_, db') => storedStatus db' 1
      | inl _ => None
      end) = Some generated
  /\ (match createKpiEntry (dbOf []) requestGenerated "admin" monday_morning with
      | inr (entry, _) => Some (e_status entry)
      | inl _ => None
      end) = Some generated.
Proof. vm_compute. repeat split. Qed.

(** ** The completion rate *)

Lemma completionRateOf_nonempty (membersWithEntries totalMembers : nat) :
  (0 < totalMembers)%nat ->
  completionRateOf membersWithEntries totalMembers
  = Finite (roundQ (inject_Z (Z.of_nat membersWithEntries)
                    / inject_Z (Z.of_nat totalMembers) * 100)).
Proof.
  intros Ht. unfold completionRateOf, divide.
  destruct (Qeq_bool (inject_Z (Z.of_nat totalMembers)) 0) eqn:E; [|reflexivity].
  apply Qeq_bool_iff in E. unfold Qeq in E. simpl in E. lia.
Qed.

Example completionRate_3_of_4 : completionRateOf 3 4 = Finite 75.
Proof. reflexivity. Qed.

(** C8: nothing guards the completion rate against an empty roster.
    With no member the quotient is [0 / 0] and the rate [NaN], for the
    statistics of a role as for those of a department, while the
    average, the highest and the lowest score of the same block are
    guarded and are 0. *)
Theorem completionRate_empty_roster :
  completionRateOf 0 0 = NaN
  /\ completionRate (statisticsOf []) = NaN
  /\ (averageScore (statisticsOf []) == 0)%Q
  /\ highestScore (statisticsOf []) = 0%Q
  /\ lowestScore (statisticsOf []) = 0%Q
  /\ completionRate <$>
       roleStatisticsOf
         (getKpiEntriesStatisticsByDepartmentAndRole (dbOf []) (Some 1) (Some 10)
            "T1" "sales" "manager")
     = Some NaN
  /\ ds_completionRate <$>
       departmentStatisticsOf
         (generateReportByDepartment (dbOf []) "support" "T1" "admin" monday_morning)
     = Some NaN.
Proof. vm_compute. repeat split. Qed.

(** ** System-generated entries *)

Lemma validateLoop_system_values templateItems (systemValues : list SystemValue) :
  validateLoop templateItems
    (map (fun sv =>
            {| vi_name := sv_name sv; vi_value := sv_value sv; vi_score := None;
               vi_comments := Some ("System generated from " ++ sv_source sv)%string;
               vi_isByPassed := Some true |})
       systemValues)
  = match List.find (namesItem templateItems) systemValues with
    | Some sv => throw (MissingBypassScore (sv_name sv))
    | None => ok []
    end.
Proof.
  induction systemValues as [|sv svs IH]; [reflexivity|].
  cbn [map validateLoop List.find]. unfold validateValue, namesItem at 1.
  cbn [vi_name vi_isByPassed vi_score default].
  destruct (findItem templateItems (sv_name sv)) as [item|] eqn:E.
  - rewrite bool_decide_eq_true_2 by eauto. reflexivity.
  - rewrite bool_decide_eq_false_2 by (intros [? ?]; discriminate).
    cbn [bind ok]. rewrite IH.
    destruct (List.find (namesItem templateItems) svs); reflexivity.
Qed.

Lemma validateRequiredValues_names values templateItems :
  validateRequiredValues values templateItems
  = if (0 <? length (missingNonDynamic (map vi_name values) templateItems))%nat
    then throw (MissingRequiredValues
                  (missingNonDynamic (map vi_name values) templateItems))
    else ok tt.
Proof. reflexivity. Qed.

(** C10, as stated, fails: when the system values leave out a
    non-dynamic item of the template, the call throws
    [MissingRequiredValues], which is checked before any score. *)
Lemma createSystemGeneratedEntry_missing_item :
  namesItem (t_template twoItemTemplate) (fromHr "attendance" 80) = true
  /\ Prototype.createSystemGeneratedEntry (dbOf []) "T3" "u1"
       [fromHr "attendance" 80] monday_morning
     = throw (MissingRequiredValues ["punctuality"])
  /\ Prototype.createSystemGeneratedEntry (dbOf []) "T3" "u1"
       [fromHr "attendance" 80] monday_morning
     <> throw (MissingBypassScore "attendance").
Proof.
  split; [|split].
  - reflexivity.
  - vm_compute. reflexivity.
  - vm_compute. discriminate.
Qed.

(** C10, amended.  For a template that exists and system values of which
    at least one names a template item, [createSystemGeneratedEntry]
    always throws and creates no entry: [MissingRequiredValues] when a
    non-dynamic item of the template is not among the system values,
    and otherwise [MissingBypassScore] for the first system value that
    names a template item. *)
Theorem createSystemGeneratedEntry_always_throws (db : Db)
    (kpiTemplateId userId : string) (systemValues : list SystemValue) (now : Z)
    (template : KpiTemplate) (sv : SystemValue) :
  getKpiTemplate db kpiTemplateId = Some template ->
  In sv systemValues ->
  namesItem (t_template template) sv = true ->
  let missing :=
    missingNonDynamic (map sv_name systemValues) (t_template template) in
  succeeded (Prototype.createSystemGeneratedEntry db kpiTemplateId userId
               systemValues now) = false
  /\ (missing <> [] ->
      Prototype.createSystemGeneratedEntry db kpiTemplateId userId systemValues now
      = throw (MissingRequiredValues missing))
  /\ (missing = [] ->
      exists first,
        List.find (namesItem (t_template template)) systemValues = Some first
        /\ Prototype.createSystemGeneratedEntry db kpiTemplateId userId
             systemValues now
           = throw (MissingBypassScore (sv_name first))).
Proof.
  intros Ht Hin Hnames missing.
  destruct (find_is_Some _ _ sv Hin Hnames) as [first Hfirst].
  unfold Prototype.createSystemGeneratedEntry. rewrite Ht.
  unfold validateAndCalculateScores.
  rewrite validateRequiredValues_names, validateLoop_system_values, Hfirst.
  rewrite map_map. cbn [vi_name].
  change (map (fun x => sv_name x) systemValues) with (map sv_name systemValues).
  fold missing.
  destruct missing as [|name rest] eqn:Hm; cbn [length Nat.ltb Nat.leb bind throw ok].
  - split; [reflexivity|]. split; [congruence|]. intros _. eauto.
  - split; [reflexivity|]. split; [reflexivity | discriminate].
Qed.

Lemma createSystemGeneratedEntry_always_throws_witness :
  Prototype.createSystemGeneratedEntry (dbOf []) "T1" "u1"
    [fromHr "attendance" 80] monday_morning
  = throw (MissingBypassScore "attendance").
Proof.
  destruct (createSystemGeneratedEntry_always_throws (dbOf []) "T1" "u1"
              [fromHr "attendance" 80] monday_morning dailyTemplate
              (fromHr "attendance" 80) eq_refl (or_introl eq_refl) eq_refl)
    as (_ & _ & H).
  destruct (H eq_refl) as (first & Hf & ->).
  vm_compute in Hf. injection Hf as <-. reflexivity.
Defined.

(** ** Reports *)

Lemma pushMember_perm member (groups : list (string * list Member)) :
  concat (map snd (pushMember member groups)) ≡ₚ concat (map snd groups) ++ [member].
Proof.
  induction groups as [|[role members] rest IH]; [reflexivity|].
  cbn [pushMember]. destruct (String.eqb role (m_role member)); cbn [map concat snd].
  - rewrite <- !app_assoc. apply Permutation_app_head, Permutation_app_comm.
  - rewrite IH. by rewrite app_assoc.
Qed.

Lemma groupByRole_acc docs (groups : list (string * list Member)) :
  concat (map snd (foldl (fun membersByRole member => pushMember member membersByRole)
                     groups docs))
  ≡ₚ concat (map snd groups) ++ docs.
Proof.
  revert groups. induction docs as [|member docs IH]; intros groups; cbn [foldl].
  - by rewrite app_nil_r.
  - rewrite IH, pushMember_perm, <- app_assoc. reflexivity.
Qed.

(** The role groups partition the roster. *)
Lemma groupByRole_perm docs : concat (map snd (groupByRole docs)) ≡ₚ docs.
Proof. unfold groupByRole. by rewrite groupByRole_acc. Qed.

Lemma assignFrom_fields index currentRank currentScore rankings :
  map memberId (assignFrom index currentRank currentScore rankings)
  = map memberId rankings
  /\ map hasEntry (assignFrom index currentRank currentScore rankings)
     = map hasEntry rankings.
Proof.
  revert index currentRank currentScore.
  induction rankings as [|r rest IH]; intros index currentRank currentScore;
    [split; reflexivity|].
  cbn [assignFrom map]. cbv zeta.
  destruct (IH (S index)
              (if differs (totalScore r) currentScore then (index + 1)%nat
               else currentRank)
              (if differs (totalScore r) currentScore then Some (totalScore r)
               else currentScore)) as [-> ->].
  split; reflexivity.
Qed.

Lemma rankAll_memberIds rankings :
  map memberId (rankAll rankings) ≡ₚ map memberId rankings.
Proof.
  unfold rankAll, assignRankings. rewrite (proj1 (assignFrom_fields _ _ _ _)).
  apply Permutation_map, sort_perm.
Qed.

Lemma getMembers_roster db department :
  getMembers db (Some department) None 1 1000 = ok (rosterOf db department).
Proof. reflexivity. Qed.

Lemma generateReportByDepartment_inv db department templateId generatedBy now
    report db' :
  generateReportByDepartment db department templateId generatedBy now
  = inr (report, db') ->
  dr_roleReports report
  = map (roleReportOf (entriesByMember (reportEntries db department templateId)))
      (groupByRole (rosterOf db department))
  /\ db' = (if (0 <? length (lockedIds db department templateId))%nat
            then withEntries db
                   (map (markGenerated (lockedIds db department templateId) now)
                      (tbl_kpi_entries db))
            else db).
Proof.
  unfold generateReportByDepartment.
  destruct (getKpiTemplate db templateId) as [template|]; [|discriminate].
  rewrite getMembers_roster. cbn [bind ok]. cbv zeta.
  intros [= <- <-]. split; reflexivity.
Qed.

Lemma allRankings_memberIds entriesMap (groups : list (string * list Member)) :
  map memberId (concat (map rr_rankings (map (roleReportOf entriesMap) groups)))
  ≡ₚ map m_userId (concat (map snd groups)).
Proof.
  induction groups as [|[role members] rest IH]; [reflexivity|].
  cbn [map concat]. rewrite !map_app, IH.
  apply Permutation_app_tail.
  unfold roleReportOf. cbn [rr_rankings snd].
  rewrite rankAll_memberIds, map_map. reflexivity.
Qed.

Lemma report_covers_roster db department templateId generatedBy now :
  match reportOf (generateReportByDepartment db department templateId generatedBy now)
  with
  | Some report =>
      map memberId (allRankingsOf report) ≡ₚ map m_userId (rosterOf db department)
  | None => True
  end.
Proof.
  destruct (generateReportByDepartment db department templateId generatedBy now)
    as [err|[report db']] eqn:E; [exact I|].
  apply generateReportByDepartment_inv in E as [Hr _].
  cbn [reportOf]. unfold allRankingsOf. rewrite Hr, allRankings_memberIds.
  apply Permutation_map, groupByRole_perm.
Qed.

(** C9: the roster of a report is page 1 of 1000 members.  The members a
    report ranks are those of [rosterOf], the first 1000 of the
    department; in a department of 1001 members the report ranks 1000
    and the member [m1000] is in no role group. *)
Theorem generateReportByDepartment_roster_capped :
  (forall db department templateId generatedBy now,
      match reportOf (generateReportByDepartment db department templateId
                        generatedBy now) with
      | Some report =>
          map memberId (allRankingsOf report)
          ≡ₚ map m_userId (rosterOf db department)
      | None => True
      end)
  /\ length (List.filter (memberQuery (Some "sales") None)
               (memberDocs largeDepartment)) = 1001%nat
  /\ existsb (fun m => String.eqb (m_userId m) "m1000") (memberDocs largeDepartment)
     = true
  /\ (let report :=
        reportOf (generateReportByDepartment largeDepartment "sales" "T1" "admin"
                    monday_morning) in
      length <$> (allRankingsOf <$> report) = Some 1000%nat
      /\ existsb (fun r => String.eqb (memberId r) "m1000")
           <$> (allRankingsOf <$> report) = Some false
      /\ existsb (fun r => String.eqb (memberId r) "m999")
           <$> (allRankingsOf <$> report) = Some true).
Proof.
  split; [exact report_covers_roster|].
  vm_compute. repeat split.
Qed.

(** ** Running the report twice *)

Lemma assignFrom_In index currentRank currentScore rankings r :
  In r (assignFrom index currentRank currentScore rankings) ->
  exists r0 k, In r0 rankings /\ r = setRanking r0 k.
Proof.
  revert index currentRank currentScore.
  induction rankings as [|r1 rest IH]; intros index currentRank currentScore;
    [contradiction|].
  cbn [assignFrom]. cbv zeta. intros [<-|Hr].
  - eexists _, _. split; [by left | reflexivity].
  - apply IH in Hr as (r0 & k & H0 & ->). exists r0, k. split; [by right | reflexivity].
Qed.

Lemma rankAll_In rankings r :
  In r (rankAll rankings) ->
  exists r0, In r0 rankings /\ memberId r = memberId r0 /\ hasEntry r = hasEntry r0.
Proof.
  unfold rankAll, assignRankings. intros Hr.
  apply assignFrom_In in Hr as (r0 & k & H0 & ->).
  exists r0. split; [|split; reflexivity].
  eapply Permutation_in; [apply sort_perm | exact H0].
Qed.

(** A ranking of a report is that of a roster member, with the entry
    that [entriesMap] holds for the member. *)
Lemma report_ranking_member db department templateId generatedBy now report db' r :
  generateReportByDepartment db department templateId generatedBy now
  = inr (report, db') ->
  In r (allRankingsOf report) ->
  exists member,
    In member (rosterOf db department)
    /\ memberId r = m_userId member
    /\ hasEntry r
       = bool_decide
           (is_Some (entriesByMember (reportEntries db department templateId)
                     !! m_userId member)).
Proof.
  intros Hgen Hr. apply generateReportByDepartment_inv in Hgen as [Hroles _].
  unfold allRankingsOf in Hr. rewrite Hroles in Hr.
  apply in_concat in Hr as (rankings & Hrs & Hr).
  apply in_map_iff in Hrs as (rr & <- & Hrr).
  apply in_map_iff in Hrr as (group & <- & Hgroup).
  unfold roleReportOf in Hr. cbn [rr_rankings] in Hr.
  apply rankAll_In in Hr as (r0 & H0 & Hid & Hhas).
  apply in_map_iff in H0 as (member & <- & Hmember).
  exists member. split; [|split; assumption].
  eapply Permutation_in; [apply groupByRole_perm|].
  apply in_concat. exists group.2. split; [|exact Hmember].
  apply in_map_iff. eauto.
Qed.

Lemma entriesByMember_acc (es : list KpiEntry) (m0 : gmap string KpiEntry) uid :
  let m := foldl (fun entriesMap entry => <[e_createdFor entry := entry]> entriesMap)
             m0 es in
  (forall e, m !! uid = Some e ->
             (In e es /\ e_createdFor e = uid) \/ m0 !! uid = Some e)
  /\ (m !! uid = None ->
      (forall e, In e es -> e_createdFor e <> uid) /\ m0 !! uid = None).
Proof.
  revert m0. induction es as [|e0 es IH]; intros m0; cbn [foldl].
  - split; [by right | intros H; split; [contradiction | exact H]].
  - destruct (IH (<[e_createdFor e0 := e0]> m0)) as [IHa IHb]. split.
    + intros e He. destruct (IHa e He) as [[Hin Hc]|Hm0].
      * left. split; [by right | exact Hc].
      * apply lookup_insert_Some in Hm0 as [[Hk <-]|[Hk Hm0]].
        -- left. split; [by left | exact Hk].
        -- by right.
    + intros Hn. destruct (IHb Hn) as [Hall Hm0].
      apply lookup_insert_None in Hm0 as [Hm0 Hk].
      split; [|exact Hm0]. intros e [<-|He]; [exact Hk | by apply Hall].
Qed.

Lemma entriesByMember_Some es uid e :
  entriesByMember es !! uid = Some e -> In e es /\ e_createdFor e = uid.
Proof.
  intros H. destruct (entriesByMember_acc es ∅ uid) as [Ha _].
  destruct (Ha e H) as [?|Hempty]; [assumption|].
  by rewrite lookup_empty in Hempty.
Qed.

Lemma entriesByMember_None es uid :
  entriesByMember es !! uid = None -> forall e, In e es -> e_createdFor e <> uid.
Proof.
  intros H. destruct (entriesByMember_acc es ∅ uid) as [_ Hb].
  by destruct (Hb H).
Qed.

Lemma entriesByMember_None_intro es uid :
  (forall e, In e es -> e_createdFor e <> uid) -> entriesByMember es !! uid = None.
Proof.
  intros Hall. destruct (entriesByMember es !! uid) as [e|] eqn:E; [|reflexivity].
  apply entriesByMember_Some in E as [Hin Hc]. by destruct (Hall e Hin).
Qed.

Lemma includes_In names name : includes names name = true <-> In name names.
Proof.
  unfold includes. rewrite existsb_exists. split.
  - intros (x & Hx & Heq). apply String.eqb_eq in Heq. by subst.
  - intros H. exists name. split; [exact H | apply String.eqb_refl].
Qed.

(** An open entry of a roster member is read by the report. *)
Lemma reportQuery_open templateId docs member e :
  In member docs ->
  openFor templateId (m_userId member) e = true ->
  reportQuery templateId docs e = true.
Proof.
  intros Hm Ho. unfold openFor in Ho. unfold reportQuery.
  apply andb_true_iff in Ho as [Ho Hs]. apply andb_true_iff in Ho as [Ht Hc].
  rewrite Ht, Hs. cbn [andb]. rewrite andb_true_r.
  apply includes_In. apply String.eqb_eq in Hc. rewrite Hc.
  apply in_map_iff. eauto.
Qed.

Lemma reportQuery_openFor templateId docs e :
  reportQuery templateId docs e = true ->
  openFor templateId (e_createdFor e) e = true.
Proof.
  unfold reportQuery, openFor. intros H.
  apply andb_true_iff in H as [H Hs]. apply andb_true_iff in H as [Ht _].
  by rewrite Ht, Hs, String.eqb_refl.
Qed.

(** The entry that [entriesMap] holds for a roster member is locked. *)
Lemma lockedIds_In db department templateId member e :
  In member (rosterOf db department) ->
  entriesByMember (reportEntries db department templateId) !! m_userId member
  = Some e ->
  In (e_id e) (lockedIds db department templateId).
Proof.
  intros Hm He. unfold lockedIds.
  pose proof Hm as Hg.
  eapply Permutation_in in Hg; [|symmetry; apply groupByRole_perm].
  apply in_concat in Hg as (members & Hms & Hmem).
  apply in_map_iff in Hms as (group & <- & Hgroup).
  apply in_concat. exists (idsToUpdate
    (entriesByMember (reportEntries db department templateId)) group.2).
  split; [apply in_map_iff; eauto|].
  unfold idsToUpdate. apply list_elem_of_In, list_elem_of_omap.
  exists member. split; [by apply list_elem_of_In|].
  rewrite He.
  apply entriesByMember_Some in He as [Hin _].
  apply filter_In in Hin as [_ Hq]. unfold reportQuery in Hq.
  apply andb_true_iff in Hq as [_ Hs]. by rewrite Hs.
Qed.

Lemma In_short {A} (l : list A) a b :
  (length l <= 1)%nat -> In a l -> In b l -> a = b.
Proof.
  destruct l as [|x [|y l]]; simpl; intros Hl Ha Hb; try lia; try contradiction.
  destruct Ha as [<-|[]], Hb as [<-|[]]. reflexivity.
Qed.

Lemma markGenerated_open templateId uid ids now e :
  openFor templateId uid (markGenerated ids now e) = true ->
  openFor templateId uid e = true /\ existsb (Nat.eqb (e_id e)) ids = false.
Proof.
  unfold markGenerated. destruct (existsb (Nat.eqb (e_id e)) ids).
  - unfold openFor. cbn. rewrite andb_false_r. discriminate.
  - auto.
Qed.

Lemma openFor_createdFor templateId uid e :
  openFor templateId uid e = true -> e_createdFor e = uid.
Proof.
  unfold openFor. intros H. apply andb_true_iff in H as [H _].
  apply andb_true_iff in H as [_ H]. by apply String.eqb_eq.
Qed.

(** After a report, a roster member who had at most one open entry of
    the template has none. *)
Lemma no_open_entry_after_report db department templateId generatedBy now
    report db' member x :
  generateReportByDepartment db department templateId generatedBy now
  = inr (report, db') ->
  In member (rosterOf db department) ->
  (length (List.filter (openFor templateId (m_userId member)) (tbl_kpi_entries db))
   <= 1)%nat ->
  In x (tbl_kpi_entries db') ->
  openFor templateId (m_userId member) x = false.
Proof.
  intros Hgen Hm Hone Hx.
  destruct (openFor templateId (m_userId member) x) eqn:Hopen; [exfalso|reflexivity].
  apply generateReportByDepartment_inv in Hgen as [_ Hdb].
  set (ids := lockedIds db department templateId) in *.
  assert (exists x0, In x0 (tbl_kpi_entries db)
                     /\ openFor templateId (m_userId member) x0 = true
                     /\ ~ In (e_id x0) ids) as (x0 & Hx0 & Hopen0 & Hnot).
  { destruct (0 <? length ids)%nat eqn:Hlen; subst db'.
    - cbn [withEntries tbl_kpi_entries] in Hx.
      apply in_map_iff in Hx as (x0 & <- & Hx0).
      apply markGenerated_open in Hopen as [Hopen0 Hex].
      exists x0. split; [exact Hx0|]. split; [exact Hopen0|].
      intros Hin. apply not_true_iff_false in Hex. apply Hex.
      apply existsb_exists. exists (e_id x0). split; [exact Hin|].
      apply Nat.eqb_refl.
    - exists x. split; [exact Hx|]. split; [exact Hopen|].
      apply Nat.ltb_ge in Hlen. destruct ids; [auto | simpl in Hlen; lia]. }
  assert (In x0 (reportEntries db department templateId)) as Hread.
  { apply filter_In. split; [exact Hx0|]. eapply reportQuery_open; eassumption. }
  destruct (entriesByMember (reportEntries db department templateId)
            !! m_userId member) as [e'|] eqn:Hmap.
  - pose proof (lockedIds_In db department templateId member e' Hm Hmap) as Hlocked.
    apply entriesByMember_Some in Hmap as [Hin' Hc'].
    apply filter_In in Hin' as [Hin' Hq'].
    apply reportQuery_openFor in Hq'. rewrite Hc' in Hq'.
    assert (e' = x0) as ->.
    { eapply In_short; [exact Hone | |]; apply filter_In; split; assumption. }
    by apply Hnot.
  - eapply entriesByMember_None in Hmap; [|exact Hread].
    apply Hmap. eapply openFor_createdFor. exact Hopen0.
Qed.

Lemma report_keeps_members db department templateId generatedBy now report db' :
  generateReportByDepartment db department templateId generatedBy now
  = inr (report, db') ->
  rosterOf db' department = rosterOf db department.
Proof.
  intros Hgen. apply generateReportByDepartment_inv in Hgen as [_ ->].
  by destruct (0 <? _)%nat.
Qed.

(** C7, as stated, fails: [alice] has open entries of two days; the
    first report locks the one it read last, and the second report
    finds the other one and shows [hasEntry = true]. *)
Lemma second_report_finds_older_entry :
  map (fun r => (memberId r, entryId r))
    <$> (allRankingsOf <$> reportOf (firstReport twoOpenDays))
  = Some [("u1", Some 2%nat)]
  /\ storedStatus twoOpenDays 2 = Some initiated
  /\ storedStatus (dbAfter twoOpenDays (firstReport twoOpenDays)) 2 = Some generated
  /\ map (fun r => (memberId r, hasEntry r))
       <$> (allRankingsOf <$> reportOf (secondReport twoOpenDays))
     = Some [("u1", true)].
Proof. vm_compute. repeat split. Qed.

(** C7, amended.  When the report is generated twice in a row for the
    same department and template, the second report shows
    [hasEntry = false] for every member who had at most one entry of the
    template that was not generated before the first call: that entry,
    if any, was locked by the first call and the second query filters
    it out. *)
Theorem second_report_has_no_entry (db : Db) (department templateId : string)
    (generatedBy generatedBy' : string) (now now' : Z)
    (report1 report2 : DepartmentReport) (db1 db2 : Db) (r : Ranking) :
  generateReportByDepartment db department templateId generatedBy now
  = inr (report1, db1) ->
  generateReportByDepartment db1 department templateId generatedBy' now'
  = inr (report2, db2) ->
  In r (allRankingsOf report2) ->
  (length (List.filter (openFor templateId (memberId r)) (tbl_kpi_entries db))
   <= 1)%nat ->
  hasEntry r = false.
Proof.
  intros Hgen1 Hgen2 Hr Hone.
  destruct (report_ranking_member _ _ _ _ _ _ _ r Hgen2 Hr)
    as (member & Hm & Hid & ->).
  rewrite (report_keeps_members _ _ _ _ _ _ _ Hgen1) in Hm.
  rewrite Hid in Hone.
  rewrite entriesByMember_None_intro; [reflexivity|].
  intros x Hx Hc. apply filter_In in Hx as [Hx Hq].
  apply reportQuery_openFor in Hq. rewrite Hc in Hq.
  pose proof (no_open_entry_after_report _ _ _ _ _ _ _ member x Hgen1 Hm Hone Hx).
  congruence.
Qed.

(** The report of the day locks [alice]'s only entry; run again, it
    shows her without entry. *)
Lemma second_report_has_no_entry_witness :
  exists report1 db1 report2 db2 r,
    firstReport oneOpenDay = inr (report1, db1)
    /\ secondReport oneOpenDay = inr (report2, db2)
    /\ In r (allRankingsOf report2)
    /\ memberId r = "u1"
    /\ map hasEntry (allRankingsOf report1) = [true]
    /\ hasEntry r = false.
Proof.
  destruct (firstReport oneOpenDay) as [err|[report1 db1]] eqn:E1;
    [vm_compute in E1; discriminate|].
  assert (secondReport oneOpenDay
          = generateReportByDepartment db1 "sales" "T1" "admin" monday_morning)
    as Hsecond by (unfold secondReport; by rewrite E1).
  destruct (secondReport oneOpenDay) as [err|[report2 db2]] eqn:E2;
    [vm_compute in E2; discriminate|].
  assert (exists r, allRankingsOf report2 = [r] /\ memberId r = "u1")
    as (r & Hr & Hid).
  { vm_compute in E2. injection E2 as <- <-. eexists. split; reflexivity. }
  exists report1, db1, report2, db2, r.
  split; [reflexivity|]. split; [reflexivity|].
  split; [rewrite Hr; by left|]. split; [exact Hid|].
  split; [vm_compute in E1; injection E1 as <- <-; reflexivity|].
  apply (second_report_has_no_entry oneOpenDay "sales" "T1" "admin" "admin"
           monday_morning monday_morning report1 report2 db1 db2 r E1
           (eq_sym Hsecond)).
  - rewrite Hr. by left.
  - rewrite Hid. vm_compute. lia.
Defined.

(* ================================================================== *)
(** * Further properties of the service *)
(* ================================================================== *)

(** ** Months and years *)

Ltac calendar :=
  unfold MakeDay, daysFromCivil, marchFirst, monthOffset; cbv zeta;
  repeat match goal with
         | |- context [if ?b then _ else _] => destruct b eqn:?
         end;
  Z.div_mod_to_equations; lia.

Lemma firstOfMonth y k :
  0 <= k <= 12 ->
  MakeDay y k 1 = marchFirst (if k <? 2 then y - 1 else y) + monthOffset k.
Proof.
  intros Hk.
  assert (k = 0 \/ k = 1 \/ k = 2 \/ k = 3 \/ k = 4 \/ k = 5 \/ k = 6
          \/ k = 7 \/ k = 8 \/ k = 9 \/ k = 10 \/ k = 11 \/ k = 12) as H by lia.
  repeat (destruct H as [->|H]); try subst k; calendar.
Qed.

Lemma marchFirst_step y : 365 <= marchFirst (y + 1) - marchFirst y <= 366.
Proof. calendar. Qed.

(** A day is the [doy]-th day after 1 March of a year [yc], and
    [civilFromDays] reads its date off [yc] and [doy]. *)
Lemma civil_components z :
  exists yc doy,
    z = marchFirst yc + doy /\ 0 <= doy <= 365 /\ z < marchFirst (yc + 1)
    /\ civilFromDays z
       = (let mp := (5 * doy + 2) / 153 in
          let m := if mp <? 10 then mp + 3 else mp - 9 in
          (if m <=? 2 then yc + 1 else yc, m, doy - (153 * mp + 2) / 5 + 1)).
Proof.
  unfold civilFromDays. cbv zeta.
  set (z' := z + 719468).
  set (era := z' / 146097). set (doe := z' mod 146097).
  assert (Hdoe : 0 <= doe < 146097) by (apply Z.mod_pos_bound; lia).
  assert (Hz : z' = 146097 * era + doe) by (apply Z.div_mod; lia).
  set (yoe := (doe - doe / 1460 + doe / 36524 - doe / 146096) / 365).
  assert (Hyoe : 0 <= yoe <= 399
                 /\ 0 <= doe - (365 * yoe + yoe / 4 - yoe / 100) <= 365
                 /\ (yoe < 399 ->
                     doe < 365 * (yoe + 1) + (yoe + 1) / 4 - (yoe + 1) / 100)).
  { subst yoe. clear Hz. Z.div_mod_to_equations. lia. }
  set (doy := doe - (365 * yoe + yoe / 4 - yoe / 100)) in *.
  exists (yoe + era * 400), doy.
  assert (Hera : (yoe + era * 400) / 400 = era)
    by (clear -Hyoe; Z.div_mod_to_equations; lia).
  assert (Hmod : (yoe + era * 400) mod 400 = yoe)
    by (clear -Hyoe; Z.div_mod_to_equations; lia).
  split; [|split; [lia|split; [|reflexivity]]].
  - unfold marchFirst. rewrite Hera, Hmod. subst doy z'. lia.
  - unfold marchFirst. destruct (Z.eq_dec yoe 399) as [H399|Hlt].
    + replace ((yoe + era * 400 + 1) / 400) with (era + 1)
        by (clear -H399; Z.div_mod_to_equations; lia).
      replace ((yoe + era * 400 + 1) mod 400) with 0
        by (clear -H399; Z.div_mod_to_equations; lia).
      subst doy. clearbody yoe era doe. subst z'.
      Z.div_mod_to_equations. lia.
    + replace ((yoe + era * 400 + 1) / 400) with era
        by (clear -Hyoe Hlt; Z.div_mod_to_equations; lia).
      replace ((yoe + era * 400 + 1) mod 400) with (yoe + 1)
        by (clear -Hyoe Hlt; Z.div_mod_to_equations; lia).
      destruct Hyoe as (Hb & _ & Htight). specialize (Htight ltac:(lia)).
      subst doy. clearbody yoe era doe. subst z'.
      Z.div_mod_to_equations. lia.
Qed.

(** The day of an instant lies in its month: from the first day of the
    month, at its day of the month, before the first day of the next. *)
Lemma day_in_month t :
  MakeDay (getFullYear t) (getMonth t) 1 + getDate t - 1 = Day t
  /\ 1 <= getDate t
  /\ Day t < MakeDay (getFullYear t) (getMonth t + 1) 1
  /\ 0 <= getMonth t <= 11.
Proof.
  unfold getFullYear, getMonth, getDate.
  destruct (civil_components (Day t)) as (yc & doy & Hz & Hdoy & Hnext & ->).
  cbv zeta. cbn [fst snd].
  set (mp := (5 * doy + 2) / 153).
  assert (Hmp : 0 <= mp <= 11) by (subst mp; Z.div_mod_to_equations; lia).
  assert (Htight : (mp < 11 -> doy < (153 * (mp + 1) + 2) / 5)
                   /\ (153 * mp + 2) / 5 <= doy)
    by (subst mp; Z.div_mod_to_equations; lia).
  pose proof (marchFirst_step yc) as Hstep.
  destruct (Z.ltb_spec mp 10) as [Hlt|Hge].
  - destruct (Z.leb_spec (mp + 3) 2); [lia|].
    rewrite !firstOfMonth by lia.
    destruct (Z.ltb_spec (mp + 3 - 1) 2); [lia|].
    destruct (Z.ltb_spec (mp + 3 - 1 + 1) 2); [lia|].
    unfold monthOffset.
    destruct (Z.ltb_spec (mp + 3 - 1) 2); [lia|].
    destruct (Z.ltb_spec (mp + 3 - 1 + 1) 2); [lia|].
    replace (mp + 3 - 1 - 2) with mp by lia.
    replace (mp + 3 - 1 + 1 - 2) with (mp + 1) by lia.
    lia.
  - destruct (Z.leb_spec (mp - 9) 2); [|lia].
    rewrite !firstOfMonth by lia.
    destruct (Z.ltb_spec (mp - 9 - 1) 2); [|lia].
    replace (yc + 1 - 1) with yc by lia.
    assert (mp = 10 \/ mp = 11) as [E|E] by lia; rewrite E in *;
      unfold monthOffset;
      repeat match goal with
             | |- context [if ?b then _ else _] => destruct b eqn:?
             end;
      Z.div_mod_to_equations; lia.
Qed.

Lemma newDate_recent y m d : 99 < y -> newDate y m d = MakeDay y m d * msPerDay.
Proof.
  intros Hy. unfold newDate.
  replace ((0 <=? y) && (y <=? 99)) with false; [reflexivity|].
  symmetry. apply andb_false_iff. right. apply Z.leb_gt. lia.
Qed.

Lemma MakeDay_date y m d : MakeDay y m d = MakeDay y m 1 + d - 1.
Proof. unfold MakeDay. lia. Qed.

Lemma setHours_end x :
  setHours (x * msPerDay) 23 59 59 999 = x * msPerDay + 86399999.
Proof. unfold setHours. rewrite (proj1 (Day_midnight x)). lia. Qed.

Lemma Day_bounds t : Day t * msPerDay <= t <= Day t * msPerDay + 86399999.
Proof. unfold Day, msPerDay. Z.div_mod_to_equations. lia. Qed.

(** The first days of the months of a year, in order. *)
Lemma months_in_order y k :
  0 <= k <= 11 ->
  MakeDay y (k / 3 * 3) 1 <= MakeDay y k 1
  /\ MakeDay y (k + 1) 1 <= MakeDay y ((k / 3 + 1) * 3) 1
  /\ MakeDay y 0 1 <= MakeDay y k 1
  /\ MakeDay y (k + 1) 1 <= MakeDay y 11 31 + 1.
Proof.
  intros Hk. rewrite (MakeDay_date y 11 31).
  pose proof (marchFirst_step (y - 1)) as Hstep.
  replace (y - 1 + 1) with y in Hstep by lia.
  assert (k = 0 \/ k = 1 \/ k = 2 \/ k = 3 \/ k = 4 \/ k = 5 \/ k = 6
          \/ k = 7 \/ k = 8 \/ k = 9 \/ k = 10 \/ k = 11) as H by lia.
  repeat (destruct H as [->|H]); try subst k;
    rewrite !firstOfMonth by (Z.div_mod_to_equations; lia);
    unfold monthOffset;
    repeat match goal with
           | |- context [if ?b then _ else _] => destruct b eqn:?
           end;
    Z.div_mod_to_equations; lia.
Qed.

Lemma periodWindow_covers (frequency : string) (t : Z) :
  0 <= t ->
  match periodWindow frequency t with
  | Some (startDate, endDate) => startDate <= t <= endDate
  | None => True
  end.
Proof.
  intros Ht.
  destruct (periodWindow frequency t) as [[startDate endDate]|] eqn:Hwin;
    [|exact I].
  revert Hwin. pose proof (getFullYear_since_epoch t Ht) as Hy.
  pose proof (Day_bounds t) as Hday.
  destruct (day_in_month t) as (Hd & Hd1 & Hnext & Hm).
  pose proof (months_in_order (getFullYear t) (getMonth t) Hm)
    as (Hq1 & Hq2 & Hy1 & Hy2).
  destruct (String.eqb_spec frequency "weekly") as [->|Hw].
  { rewrite periodWindow_weekly. intros [= <- <-].
    pose proof (mondayOf_is_monday t) as [_ Hle]. split; [exact Hle|].
    unfold mondayOf, getDay, msPerDay in *. Z.div_mod_to_equations. lia. }
  apply String.eqb_neq in Hw. unfold periodWindow. rewrite Hw.
  destruct (String.eqb frequency "daily").
  { rewrite newDate_of_day by assumption. intros [= <- <-].
    unfold msPerDay in *. lia. }
  destruct (String.eqb frequency "monthly").
  { rewrite !newDate_recent by lia. rewrite setHours_end.
    rewrite (MakeDay_date _ _ 0). intros [= <- <-].
    unfold msPerDay in *. lia. }
  destruct (String.eqb frequency "quarterly").
  { rewrite !newDate_recent by lia. rewrite setHours_end.
    rewrite (MakeDay_date _ _ 0). intros [= <- <-].
    unfold msPerDay in *. lia. }
  destruct (String.eqb frequency "yearly"); [|discriminate].
  rewrite !newDate_recent by lia. rewrite setHours_end. intros [= <- <-].
  unfold msPerDay in *. lia.
Qed.

(** X1.  Whatever the frequency, the window that
    [checkFrequencyValidation] computes around an instant since the
    epoch contains that instant. *)
Theorem periodWindow_contains (frequency : string) (t startDate endDate : Z) :
  0 <= t ->
  periodWindow frequency t = Some (startDate, endDate) ->
  startDate <= t <= endDate.
Proof.
  intros Ht Hwin. pose proof (periodWindow_covers frequency t Ht) as Hc.
  by rewrite Hwin in Hc.
Qed.

Lemma periodWindow_contains_witness :
  0 <= monday_morning
  /\ periodWindow "quarterly" monday_morning
     = Some (at_ 2024 1 1 0 0, at_ 2024 4 1 0 0 - 1)
  /\ at_ 2024 1 1 0 0 <= monday_morning <= at_ 2024 4 1 0 0 - 1.
Proof.
  assert (H : 0 <= monday_morning) by (vm_compute; discriminate).
  assert (Hw : periodWindow "quarterly" monday_morning
               = Some (at_ 2024 1 1 0 0, at_ 2024 4 1 0 0 - 1)) by reflexivity.
  split; [exact H|]. split; [exact Hw|].
  exact (periodWindow_contains "quarterly" monday_morning _ _ H Hw).
Defined.

(** ** The update window *)

(** What a successful static [updateKpiEntry] went through. *)
Lemma updateKpiEntry_inv db entryId updateData userId now r db' :
  updateKpiEntry db entryId updateData userId now = inr (r, db') ->
  exists existingEntry template validatedValues,
    findById db entryId = Some existingEntry
    /\ e_status existingEntry = initiated
    /\ getKpiTemplate db (e_kpiTemplateId existingEntry) = Some template
    /\ isWithinUpdatePeriod (t_frequency template) (e_createdAt existingEntry) now
       = true
    /\ match p_values updateData with
       | Some values =>
           validateAndCalculateScores values (t_template template)
           = inr validatedValues
       | None => validatedValues = e_values existingEntry
       end
    /\ (r, db')
       = findByIdAndUpdate db entryId
           (setFields (p_kpiTemplateId updateData) (Some validatedValues)
              (Some (sumScores validatedValues)) (p_status updateData)
              (p_createdFor updateData) now).
Proof.
  unfold updateKpiEntry.
  destruct (findById db entryId) as [existingEntry|] eqn:Hf; [|discriminate].
  destruct (e_status existingEntry) eqn:Hs; cbn [Status_eqb]; [|discriminate].
  destruct (getKpiTemplate db (e_kpiTemplateId existingEntry)) as [template|]
    eqn:Ht; [|discriminate].
  destruct (isWithinUpdatePeriod _ _ _) eqn:Hw; cbn [negb]; [|discriminate].
  intros H. exists existingEntry, template.
  destruct (p_values updateData) as [values|].
  - destruct (validateAndCalculateScores values (t_template template))
      as [err|validatedValues]; [discriminate|].
    cbn [bind ok] in H. exists validatedValues.
    repeat split; try assumption; try reflexivity.
    unfold ok in H. inversion H. reflexivity.
  - cbn [bind ok] in H. exists (e_values existingEntry).
    repeat split; try assumption; try reflexivity.
    unfold ok in H. inversion H. reflexivity.
Qed.

Lemma civil_injective z1 z2 : civilFromDays z1 = civilFromDays z2 -> z1 = z2.
Proof.
  intros H. destruct (civilFromDays_inverse z1) as [H1 _].
  destruct (civilFromDays_inverse z2) as [H2 _]. rewrite H in H1. congruence.
Qed.

Lemma toDateString_Day (t1 t2 : Z) :
  toDateString t1 = toDateString t2 -> Day t1 = Day t2.
Proof.
  unfold toDateString, getDay, getMonth, getDate, getFullYear.
  intros H. apply civil_injective.
  destruct (civilFromDays (Day t1)) as [[y1 m1] d1].
  destruct (civilFromDays (Day t2)) as [[y2 m2] d2].
  cbn [fst snd] in H. injection H as _ Hm Hd Hy.
  assert (m1 = m2) as -> by lia. by subst.
Qed.

(** X2.  For a daily template the update rule compares calendar days:
    two instants print the same date exactly when they lie in the same
    day. *)
Theorem daily_update_same_day (entryDate currentDate : Z) :
  isWithinUpdatePeriod "daily" entryDate currentDate = true
  <-> Day entryDate = Day currentDate.
Proof.
  change (isWithinUpdatePeriod "daily" entryDate currentDate)
    with (bool_decide (toDateString entryDate = toDateString currentDate)).
  rewrite bool_decide_eq_true. split.
  - apply toDateString_Day.
  - intros H. unfold toDateString, getDay, getMonth, getDate, getFullYear.
    by rewrite H.
Qed.

Lemma same_period_same_window frequency entryDate currentDate :
  frequency <> "weekly" ->
  isWithinUpdatePeriod frequency entryDate currentDate = true ->
  0 <= entryDate -> 0 <= currentDate ->
  periodWindow frequency entryDate = periodWindow frequency currentDate.
Proof.
  intros Hw Hin He Hc. apply String.eqb_neq in Hw.
  destruct (String.eqb_spec frequency "daily") as [->|Hd].
  { change (isWithinUpdatePeriod "daily" entryDate currentDate)
      with (bool_decide (toDateString entryDate = toDateString currentDate))
      in Hin.
    apply bool_decide_eq_true, toDateString_Day in Hin.
    rewrite !periodWindow_daily by assumption. by rewrite Hin. }
  apply String.eqb_neq in Hd.
  unfold isWithinUpdatePeriod in Hin. unfold periodWindow.
  rewrite Hd, Hw in *.
  destruct (String.eqb frequency "monthly").
  { apply andb_true_iff in Hin as [Hm Hy].
    apply Z.eqb_eq in Hm, Hy. by rewrite Hm, Hy. }
  destruct (String.eqb frequency "quarterly").
  { apply andb_true_iff in Hin as [Hq Hy].
    apply Z.eqb_eq in Hq, Hy. by rewrite Hq, Hy. }
  destruct (String.eqb frequency "yearly"); [|discriminate].
  apply Z.eqb_eq in Hin. by rewrite Hin.
Qed.

(** X3.  When the static [updateKpiEntry] succeeds on an entry of a
    daily, monthly, quarterly or yearly template, now lies inside the
    window [checkFrequencyValidation] computes around the entry's
    creation: the update rule never reaches beyond the create rule. *)
Theorem updateKpiEntry_within_create_window (db : Db) (entryId : nat)
    (updateData : KpiEntryPatch) (userId : string) (now : Z)
    (r : option KpiEntry) (db' : Db) (existingEntry : KpiEntry)
    (template : KpiTemplate) :
  updateKpiEntry db entryId updateData userId now = inr (r, db') ->
  findById db entryId = Some existingEntry ->
  getKpiTemplate db (e_kpiTemplateId existingEntry) = Some template ->
  t_frequency template <> "weekly" ->
  0 <= e_createdAt existingEntry ->
  0 <= now ->
  exists startDate endDate,
    periodWindow (t_frequency template) (e_createdAt existingEntry)
    = Some (startDate, endDate)
    /\ startDate <= now <= endDate.
Proof.
  intros Hup Hfind Htemplate Hw He Hn.
  apply updateKpiEntry_inv in Hup
    as (e0 & t0 & vs & Hfind' & _ & Htemplate' & Hin & _).
  rewrite Hfind in Hfind'. injection Hfind' as <-.
  rewrite Htemplate in Htemplate'. injection Htemplate' as <-.
  pose proof (same_period_same_window _ _ _ Hw Hin He Hn) as Hsame.
  destruct (periodWindow (t_frequency template) now) as [[s e]|] eqn:Hnow.
  - exists s, e. split; [exact Hsame|].
    pose proof (periodWindow_covers (t_frequency template) now Hn) as Hc.
    by rewrite Hnow in Hc.
  - exfalso. unfold isWithinUpdatePeriod in Hin. unfold periodWindow in Hnow.
    destruct (String.eqb (t_frequency template) "daily"); [discriminate|].
    destruct (String.eqb (t_frequency template) "weekly"); [discriminate|].
    destruct (String.eqb (t_frequency template) "monthly"); [discriminate|].
    destruct (String.eqb (t_frequency template) "quarterly"); [discriminate|].
    destruct (String.eqb (t_frequency template) "yearly"); discriminate.
Qed.

Lemma updateKpiEntry_within_create_window_witness :
  exists startDate endDate,
    periodWindow "daily" (at_ 2024 1 15 9 0) = Some (startDate, endDate)
    /\ startDate <= monday_morning <= endDate.
Proof.
  destruct (updateKpiEntry oneOpenDay 1 (newValues 95) "admin" monday_morning)
    as [err|[r db']] eqn:E; [vm_compute in E; discriminate|].
  apply (updateKpiEntry_within_create_window oneOpenDay 1 (newValues 95) "admin"
           monday_morning r db'
           (entryOf 1 "T1" (at_ 2024 1 15 9 0) initiated) dailyTemplate E
           eq_refl eq_refl).
  - discriminate.
  - vm_compute. discriminate.
  - vm_compute. discriminate.
Defined.

Lemma weekly_same_week_span entryDate currentDate :
  isWithinUpdatePeriod "weekly" entryDate currentDate = true ->
  Z.abs (currentDate - entryDate) < 7 * msPerDay.
Proof.
  change (isWithinUpdatePeriod "weekly" entryDate currentDate)
    with ((getWeekNumber entryDate =? getWeekNumber currentDate)
          && (getFullYear entryDate =? getFullYear currentDate)).
  intros H. apply andb_true_iff in H as [Hweek Hyear].
  apply Z.eqb_eq in Hweek, Hyear. unfold getWeekNumber in Hweek.
  rewrite Hyear in Hweek. cbv zeta in Hweek.
  set (f := newDate (getFullYear currentDate) 0 1) in *.
  set (w := inject_Z (getDay f)) in *.
  set (xe := ((inject_Z (entryDate - f) / 86400000 + w + 1) / 7)%Q) in *.
  set (xn := ((inject_Z (currentDate - f) / 86400000 + w + 1) / 7)%Q) in *.
  pose proof (Qle_ceiling xe) as He1. pose proof (Qceiling_lt xe) as He2.
  pose proof (Qle_ceiling xn) as Hn1. pose proof (Qceiling_lt xn) as Hn2.
  rewrite Hweek in He1, He2.
  unfold Z.sub in He2, Hn2. rewrite inject_Z_plus in He2, Hn2.
  change (inject_Z (- (1))) with (- (1))%Q in He2, Hn2.
  set (k := inject_Z (Qceiling xn)) in *. clearbody k.
  assert (Hdiff : (inject_Z (currentDate - f) - inject_Z (entryDate - f)
                   < 604800000)%Q
                  /\ (inject_Z (entryDate - f) - inject_Z (currentDate - f)
                      < 604800000)%Q).
  { subst xe xn. clearbody w.
    set (a := inject_Z (entryDate - f)) in *.
    set (b := inject_Z (currentDate - f)) in *.
    clearbody a b. clear Hweek. unfold Qdiv in *.
    assert (E1 : (/ 7 == 1 # 7)%Q) by reflexivity.
    assert (E2 : (/ 86400000 == 1 # 86400000)%Q) by reflexivity.
    rewrite E1, E2 in *. split; lra. }
  destruct Hdiff as [H1 H2].
  unfold Qminus in H1, H2. rewrite <- inject_Z_opp, <- inject_Z_plus in H1, H2.
  change (604800000%Q) with (inject_Z 604800000) in H1, H2.
  rewrite <- Zlt_Qlt in H1, H2. unfold msPerDay. lia.
Qed.

(** X4.  When the static [updateKpiEntry] succeeds on an entry of a
    weekly template, less than seven days separate now from the entry's
    creation. *)
Theorem updateKpiEntry_weekly_span (db : Db) (entryId : nat)
    (updateData : KpiEntryPatch) (userId : string) (now : Z)
    (r : option KpiEntry) (db' : Db) (existingEntry : KpiEntry)
    (template : KpiTemplate) :
  updateKpiEntry db entryId updateData userId now = inr (r, db') ->
  findById db entryId = Some existingEntry ->
  getKpiTemplate db (e_kpiTemplateId existingEntry) = Some template ->
  t_frequency template = "weekly" ->
  Z.abs (now - e_createdAt existingEntry) < 7 * msPerDay.
Proof.
  intros Hup Hfind Htemplate Hw.
  apply updateKpiEntry_inv in Hup
    as (e0 & t0 & vs & Hfind' & _ & Htemplate' & Hin & _).
  rewrite Hfind in Hfind'. injection Hfind' as <-.
  rewrite Htemplate in Htemplate'. injection Htemplate' as <-.
  rewrite Hw in Hin. by apply weekly_same_week_span.
Qed.

Lemma updateKpiEntry_weekly_span_witness :
  Z.abs (next_monday_noon - sunday_noon) < 7 * msPerDay.
Proof.
  destruct (updateKpiEntry createdSunday 1 (newValues 95) "admin" next_monday_noon)
    as [err|[r db']] eqn:E; [vm_compute in E; discriminate|].
  exact (updateKpiEntry_weekly_span createdSunday 1 (newValues 95) "admin"
           next_monday_noon r db' (entryOf 1 "T2" sunday_noon initiated)
           weeklyTemplate E eq_refl eq_refl eq_refl).
Defined.

(** ** Validation *)

Lemma checkValueType_wellTyped item value :
  checkValueType item value
  = if wellTyped item (vi_value value) then ok tt
    else throw (InvalidValueType (vi_name value)
                  (match ti_kpiType item with binary => "boolean" | _ => "numeric" end)
                  (vi_value value)).
Proof.
  unfold checkValueType, wellTyped.
  destruct (ti_kpiType item), (vi_value value); reflexivity.
Qed.

(** One turn of the loop, by cases. *)
Lemma validateValue_cases templateItems value :
  match findItem templateItems (vi_name value) with
  | None => validateValue templateItems value = ok None
  | Some item =>
      match scoreFor item value with
      | Some s => validateValue templateItems value = ok (Some (withScore value s))
      | None => succeeded (validateValue templateItems value) = false
      end
  end.
Proof.
  unfold validateValue, scoreFor, isBypassed.
  destruct (findItem templateItems (vi_name value)) as [item|]; [|reflexivity].
  destruct (default false (vi_isByPassed value)).
  - destruct (vi_score value); reflexivity.
  - rewrite checkValueType_wellTyped.
    destruct (wellTyped item (vi_value value)); reflexivity.
Qed.

Lemma validateLoop_output (values : list ValueInput)
    (templateItems : list TemplateItem) (validatedValues : list EntryValue) :
  validateLoop templateItems values = inr validatedValues ->
  Forall2
    (fun value validated =>
       exists item s,
         findItem templateItems (vi_name value) = Some item
         /\ scoreFor item value = Some s
         /\ validated = withScore value s)
    (List.filter (fun value => known templateItems (vi_name value)) values)
    validatedValues.
Proof.
  revert validatedValues.
  induction values as [|value rest IH]; intros validatedValues.
  - intros [= <-]. constructor.
  - cbn [validateLoop List.filter]. unfold known at 1.
    pose proof (validateValue_cases templateItems value) as Hcase.
    destruct (findItem templateItems (vi_name value)) as [item|] eqn:Hitem.
    + rewrite bool_decide_eq_true_2 by eauto.
      destruct (scoreFor item value) as [s|] eqn:Hs.
      * rewrite Hcase. cbn [bind ok].
        destruct (validateLoop templateItems rest) as [err|out]; [discriminate|].
        cbn [bind ok]. intros [= <-]. constructor; [|by apply IH].
        exists item, s. auto.
      * destruct (validateValue templateItems value); [discriminate|].
        discriminate.
    + rewrite bool_decide_eq_false_2 by (intros [? ?]; discriminate).
      rewrite Hcase. cbn [bind ok].
      destruct (validateLoop templateItems rest) as [err|out]; [discriminate|].
      cbn [bind ok]. intros [= <-]. by apply IH.
Qed.

Lemma validateAndCalculateScores_loop values templateItems validatedValues :
  validateAndCalculateScores values templateItems = inr validatedValues ->
  succeeded (validateRequiredValues values templateItems) = true
  /\ validateLoop templateItems values = inr validatedValues.
Proof.
  unfold validateAndCalculateScores.
  destruct (validateRequiredValues values templateItems); [discriminate|].
  cbn [bind]. auto.
Qed.

(** X5.  When the validation succeeds, its output is the submitted
    values whose name is that of a template item, in the order
    submitted, each with its score: the score supplied if the value is
    bypassed, the score [calculateScore] gives its well-typed value
    otherwise.  Values with other names are dropped. *)
Theorem validateAndCalculateScores_output (values : list ValueInput)
    (templateItems : list TemplateItem) (validatedValues : list EntryValue) :
  validateAndCalculateScores values templateItems = inr validatedValues ->
  Forall2
    (fun value validated =>
       exists item s,
         findItem templateItems (vi_name value) = Some item
         /\ scoreFor item value = Some s
         /\ validated = withScore value s)
    (List.filter (fun value => known templateItems (vi_name value)) values)
    validatedValues.
Proof.
  intros Hval. apply validateAndCalculateScores_loop in Hval as [_ Hloop].
  by apply validateLoop_output.
Qed.

Lemma validateAndCalculateScores_output_witness :
  exists validatedValues,
    validateAndCalculateScores [unknownValue; bypassedAttendance 4]
      (t_template dailyTemplate) = inr validatedValues
    /\ map ev_name validatedValues = ["attendance"]
    /\ map ev_score validatedValues = [4%Q].
Proof.
  destruct (validateAndCalculateScores [unknownValue; bypassedAttendance 4]
              (t_template dailyTemplate)) as [err|out] eqn:E;
    [vm_compute in E; discriminate|].
  exists out. split; [reflexivity|].
  pose proof (validateAndCalculateScores_output _ _ _ E) as H.
  change (List.filter _ _) with [bypassedAttendance 4] in H.
  inversion H as [|value validated rest out' (item & s & _ & Hs & ->) Hrest];
    subst.
  inversion Hrest; subst.
  injection Hs as <-. split; reflexivity.
Defined.

Lemma Forall2_In_l {A B} (R : A -> B -> Prop) l1 l2 a :
  Forall2 R l1 l2 -> In a l1 -> exists b, In b l2 /\ R a b.
Proof.
  induction 1 as [|x y l1 l2 Hxy _ IH]; [contradiction|].
  intros [<-|Ha].
  - exists y. split; [by left | exact Hxy].
  - destruct (IH Ha) as (b & Hb & Hab). exists b. split; [by right | exact Hab].
Qed.

Lemma validateRequiredValues_ok values templateItems item :
  succeeded (validateRequiredValues values templateItems) = true ->
  In item templateItems ->
  ti_isDynamic item = false ->
  In (ti_name item) (map vi_name values).
Proof.
  rewrite validateRequiredValues_names. unfold missingNonDynamic.
  intros Hok Hitem Hdyn.
  destruct (includes (map vi_name values) (ti_name item)) eqn:Hinc;
    [by apply includes_In|exfalso].
  assert (In (ti_name item)
            (map ti_name
               (List.filter
                  (fun item => negb (ti_isDynamic item)
                               && negb (includes (map vi_name values) (ti_name item)))
                  templateItems))) as Hmissing.
  { apply in_map, filter_In. split; [exact Hitem|]. by rewrite Hdyn, Hinc. }
  destruct (map ti_name _) as [|name names]; [contradiction|].
  discriminate.
Qed.

Lemma findItem_In templateItems item :
  In item templateItems -> is_Some (findItem templateItems (ti_name item)).
Proof.
  intros Hitem. unfold findItem.
  destruct (find_is_Some (fun i => String.eqb (ti_name i) (ti_name item))
              templateItems item Hitem (String.eqb_refl _)) as [found ->].
  eauto.
Qed.

(** X6.  A successfully validated list holds a value for every
    non-dynamic item of the template. *)
Theorem validated_covers_required (values : list ValueInput)
    (templateItems : list TemplateItem) (validatedValues : list EntryValue)
    (item : TemplateItem) :
  validateAndCalculateScores values templateItems = inr validatedValues ->
  In item templateItems ->
  ti_isDynamic item = false ->
  In (ti_name item) (map ev_name validatedValues).
Proof.
  intros Hval Hitem Hdyn.
  apply validateAndCalculateScores_loop in Hval as [Hreq Hval].
  pose proof (validateRequiredValues_ok _ _ _ Hreq Hitem Hdyn) as Hname.
  apply in_map_iff in Hname as (value & Hn & Hvalue).
  apply validateLoop_output in Hval.
  destruct (Forall2_In_l _ _ _ value Hval) as (validated & Hin & item' & s & _ & _ & ->).
  { apply filter_In. split; [exact Hvalue|]. unfold known. rewrite Hn.
    apply bool_decide_eq_true. by apply findItem_In. }
  apply in_map_iff. exists (withScore value s). split; [exact Hn | exact Hin].
Qed.

Lemma validated_covers_required_witness :
  exists validatedValues,
    validateAndCalculateScores [attendanceInput 95] (t_template dailyTemplate)
    = inr validatedValues
    /\ In "attendance" (map ev_name validatedValues).
Proof.
  destruct (validateAndCalculateScores [attendanceInput 95]
              (t_template dailyTemplate)) as [err|out] eqn:E;
    [vm_compute in E; discriminate|].
  exists out. split; [reflexivity|].
  exact (validated_covers_required _ _ _ attendance E (or_introl eq_refl) eq_refl).
Defined.

Lemma validateValue_withoutLooseScore templateItems value :
  validateValue templateItems (withoutLooseScore value)
  = validateValue templateItems value.
Proof.
  unfold validateValue, withoutLooseScore, withScore. cbn.
  destruct (findItem templateItems (vi_name value)) as [item|]; [|reflexivity].
  unfold isBypassed.
  destruct (default false (vi_isByPassed value)); [reflexivity|].
  unfold checkValueType. cbn. reflexivity.
Qed.

(** X7.  A score sent with a value that is not bypassed has no effect:
    the validation gives the same result, scores and errors, as without
    it. *)
Theorem loose_score_ignored (values : list ValueInput)
    (templateItems : list TemplateItem) :
  validateAndCalculateScores (map withoutLooseScore values) templateItems
  = validateAndCalculateScores values templateItems.
Proof.
  unfold validateAndCalculateScores.
  rewrite !validateRequiredValues_names, map_map. cbn [withoutLooseScore vi_name].
  change (map (fun x => vi_name x) values) with (map vi_name values).
  destruct (0 <? length _)%nat; [reflexivity|]. cbn [bind ok].
  induction values as [|value rest IH]; [reflexivity|].
  cbn [map validateLoop]. by rewrite validateValue_withoutLooseScore, IH.
Qed.

(** ** Creating and updating: what changes in the store *)

Lemma existsb_false_Forall {A} (p : A -> bool) l :
  existsb p l = false -> forall a, In a l -> p a = false.
Proof.
  intros H a Ha. destruct (p a) eqn:E; [|reflexivity].
  assert (existsb p l = true) by (apply existsb_exists; eauto). congruence.
Qed.

(** What a successful [createKpiEntry] went through. *)
Lemma createKpiEntry_inv db kpiEntry userId now entry db' :
  createKpiEntry db kpiEntry userId now = inr (entry, db') ->
  exists template member startDate endDate validatedValues,
    getKpiTemplate db (c_kpiTemplateId kpiEntry) = Some template
    /\ getMember db (c_createdFor kpiEntry) = Some member
    /\ m_role member = t_role template
    /\ periodWindow (t_frequency template) now = Some (startDate, endDate)
    /\ (forall e, In e (tbl_kpi_entries db) ->
          inWindow (c_kpiTemplateId kpiEntry) (c_createdFor kpiEntry)
            startDate endDate e = false)
    /\ (forall e, In e (tbl_kpi_entries db) ->
          isGeneratedFor (c_kpiTemplateId kpiEntry) (c_createdFor kpiEntry) e
          = false)
    /\ validateAndCalculateScores (c_values kpiEntry) (t_template template)
       = inr validatedValues
    /\ entry
       = {| e_id := nextId db;
            e_kpiTemplateId := c_kpiTemplateId kpiEntry;
            e_values := validatedValues;
            e_totalScore := sumScores validatedValues;
            e_status := default initiated (c_status kpiEntry);
            e_createdBy := userId;
            e_createdFor := c_createdFor kpiEntry;
            e_createdAt := now;
            e_updatedAt := now |}
    /\ db' = {| tbl_kpi_entries := tbl_kpi_entries db ++ [entry];
                kpiTemplates := kpiTemplates db;
                memberDocs := memberDocs db;
                nextId := S (nextId db) |}.
Proof.
  unfold createKpiEntry, checkFrequencyValidation.
  destruct (getKpiTemplate db (c_kpiTemplateId kpiEntry)) as [template|] eqn:Ht;
    [|discriminate].
  destruct (getMember db (c_createdFor kpiEntry)) as [member|] eqn:Hm;
    cbn [fmap option_fmap option_map option_string_eqb negb]; [|discriminate].
  destruct (String.eqb (t_role template) (m_role member)) eqn:Hrole;
    cbn [negb]; [|discriminate].
  destruct (periodWindow (t_frequency template) now) as [[startDate endDate]|]
    eqn:Hw; [|discriminate].
  cbn [bind ok]. rewrite is_Some_find_existsb.
  destruct (existsb _ _) eqn:Hex; [discriminate|].
  destruct (List.find _ _) eqn:Hgen; [discriminate|].
  destruct (validateAndCalculateScores (c_values kpiEntry) (t_template template))
    as [err|validatedValues] eqn:Hval; [discriminate|].
  cbn [bind ok]. unfold KpiEntryModel_create.
  destruct (required _ && required _ && required _); [|discriminate].
  cbn [default]. intros H. unfold ok in H. inversion H; subst. clear H.
  exists template, member, startDate, endDate, validatedValues.
  apply String.eqb_eq in Hrole.
  repeat split; try reflexivity; try assumption; try congruence.
  - by apply existsb_false_Forall.
  - intros e He. by apply (find_none _ _ Hgen).
Qed.

(** X8.  A successful [createKpiEntry] adds one entry at the end of the
    collection and changes nothing else.  The entry is for a member
    whose role is the template's, is created by the caller at the time
    of the call, holds the validated values, and its total is the sum of
    their scores. *)
Theorem createKpiEntry_effect (db : Db) (kpiEntry : KpiEntryCreate)
    (userId : string) (now : Z) (entry : KpiEntry) (db' : Db) :
  createKpiEntry db kpiEntry userId now = inr (entry, db') ->
  tbl_kpi_entries db' = tbl_kpi_entries db ++ [entry]
  /\ kpiTemplates db' = kpiTemplates db
  /\ memberDocs db' = memberDocs db
  /\ e_kpiTemplateId entry = c_kpiTemplateId kpiEntry
  /\ e_createdFor entry = c_createdFor kpiEntry
  /\ e_createdBy entry = userId
  /\ e_createdAt entry = now
  /\ e_totalScore entry = sumScores (e_values entry)
  /\ validateAndCalculateScores (c_values kpiEntry)
       (default [] (t_template <$> getKpiTemplate db (c_kpiTemplateId kpiEntry)))
     = inr (e_values entry)
  /\ (m_role <$> getMember db (c_createdFor kpiEntry))
     = (t_role <$> getKpiTemplate db (c_kpiTemplateId kpiEntry)).
Proof.
  intros H. apply createKpiEntry_inv in H
    as (template & member & s & e & vs & Ht & Hm & Hrole & _ & _ & _ & Hval
        & -> & ->).
  rewrite Ht, Hm. cbn. repeat split; try reflexivity; try assumption.
  by rewrite Hrole.
Qed.

Lemma createKpiEntry_effect_witness :
  exists entry db',
    createKpiEntry (dbOf []) (requestFor "T1") "admin" monday_morning
    = inr (entry, db')
    /\ tbl_kpi_entries db' = [entry]
    /\ e_totalScore entry = sumScores (e_values entry).
Proof.
  destruct (createKpiEntry (dbOf []) (requestFor "T1") "admin" monday_morning)
    as [err|[entry db']] eqn:E; [vm_compute in E; discriminate|].
  exists entry, db'. split; [reflexivity|].
  destruct (createKpiEntry_effect _ _ _ _ _ _ E) as (H1 & _ & _ & _ & _ & _ & _ & H2 & _).
  split; [exact H1 | exact H2].
Defined.

Lemma filter_none {A} (p : A -> bool) l :
  (forall a, In a l -> p a = false) -> List.filter p l = [].
Proof.
  induction l as [|a l IH]; intros H; [reflexivity|]. cbn [List.filter].
  rewrite (H a (or_introl eq_refl)). apply IH. intros b Hb. apply H. by right.
Qed.



(** ** Totals *)

Lemma updateFirst_Forall (P : KpiEntry -> Prop) p f es :
  Forall P es -> (forall e, P e -> P (f e)) -> Forall P (updateFirst p f es).
Proof.
  intros Hes Hf. induction Hes as [|e es He Hes IH]; [constructor|].
  cbn [updateFirst]. destruct (p e); constructor; auto.
Qed.

(** X10.  The service keeps the totals consistent: if the total of
    every stored entry is the sum of the scores of its values, this
    still holds after a successful [createKpiEntry], after a successful
    static [updateKpiEntry] and after a report generation. *)
Theorem totals_stay_consistent (db : Db) :
  consistentTotals db ->
  (forall kpiEntry userId now entry db',
      createKpiEntry db kpiEntry userId now = inr (entry, db') ->
      consistentTotals db')
  /\ (forall entryId updateData userId now r db',
        updateKpiEntry db entryId updateData userId now = inr (r, db') ->
        consistentTotals db')
  /\ (forall department templateId generatedBy now report db',
        generateReportByDepartment db department templateId generatedBy now
        = inr (report, db') ->
        consistentTotals db').
Proof.
  unfold consistentTotals. intros Hdb. split; [|split].
  - intros kpiEntry userId now entry db' H.
    apply createKpiEntry_inv in H
      as (template & member & s & e & vs & _ & _ & _ & _ & _ & _ & _ & -> & ->).
    cbn [tbl_kpi_entries]. apply Forall_app. split; [exact Hdb|].
    constructor; [reflexivity | constructor].
  - intros entryId updateData userId now r db' H.
    apply updateKpiEntry_inv in H as (old & template & vs & _ & _ & _ & _ & _ & H).
    unfold findByIdAndUpdate in H. injection H as _ ->.
    cbn [withEntries tbl_kpi_entries].
    apply updateFirst_Forall; [exact Hdb|]. intros e _. reflexivity.
  - intros department templateId generatedBy now report db' H.
    apply generateReportByDepartment_inv in H as [_ ->].
    destruct (0 <? _)%nat; [|exact Hdb].
    cbn [withEntries tbl_kpi_entries]. apply Forall_map.
    eapply Forall_impl; [exact Hdb|]. intros e He. cbn beta.
    unfold markGenerated. destruct (existsb _ _); [|exact He]. exact He.
Qed.

Lemma totals_stay_consistent_witness :
  consistentTotals oneOpenDay
  /\ consistentTotals (dbAfter oneOpenDay (firstReport oneOpenDay)).
Proof.
  assert (H : consistentTotals oneOpenDay).
  { constructor; [reflexivity | constructor]. }
  split; [exact H|].
  destruct (totals_stay_consistent oneOpenDay H) as (_ & _ & Hreport).
  destruct (firstReport oneOpenDay) as [err|[report db']] eqn:E;
    [exact H|].
  exact (Hreport "sales" "T1" "admin" monday_morning report db' E).
Defined.

(** ** Updating: what changes in the store *)

Lemma updateFirst_length p f es : length (updateFirst p f es) = length es.
Proof.
  induction es as [|e es IH]; [reflexivity|]. cbn [updateFirst].
  destruct (p e); cbn [length]; congruence.
Qed.

Lemma find_updateFirst_same id f es :
  (forall e, e_id (f e) = e_id e) ->
  List.find (fun e => Nat.eqb (e_id e) id)
    (updateFirst (fun e => Nat.eqb (e_id e) id) f es)
  = f <$> List.find (fun e => Nat.eqb (e_id e) id) es.
Proof.
  intros Hid. induction es as [|e es IH]; [reflexivity|].
  cbn [updateFirst List.find]. destruct (Nat.eqb (e_id e) id) eqn:E.
  - cbn [List.find]. by rewrite Hid, E.
  - cbn [List.find]. by rewrite E.
Qed.

Lemma find_updateFirst_other id id' f es :
  id' <> id ->
  (forall e, e_id (f e) = e_id e) ->
  List.find (fun e => Nat.eqb (e_id e) id')
    (updateFirst (fun e => Nat.eqb (e_id e) id) f es)
  = List.find (fun e => Nat.eqb (e_id e) id') es.
Proof.
  intros Hne Hid. induction es as [|e es IH]; [reflexivity|].
  cbn [updateFirst List.find]. destruct (Nat.eqb (e_id e) id) eqn:E.
  - cbn [List.find]. rewrite Hid.
    apply Nat.eqb_eq in E.
    destruct (Nat.eqb (e_id e) id') eqn:E'; [|reflexivity].
    apply Nat.eqb_eq in E'. congruence.
  - cbn [List.find]. by rewrite IH.
Qed.

(** X11.  A successful static [updateKpiEntry] rewrites the entry it
    was asked for and no other: the entry was not generated, it keeps
    its id, creator and creation time, its total is the sum of the
    scores of its values, which are unchanged when the request has no
    values; the collection keeps its length and every other id still
    finds the same entry. *)
Theorem updateKpiEntry_effect (db : Db) (entryId : nat)
    (updateData : KpiEntryPatch) (userId : string) (now : Z)
    (r : option KpiEntry) (db' : Db) :
  updateKpiEntry db entryId updateData userId now = inr (r, db') ->
  exists old new,
    findById db entryId = Some old
    /\ r = Some new
    /\ findById db' entryId = Some new
    /\ e_status old = initiated
    /\ e_id new = entryId
    /\ e_createdBy new = e_createdBy old
    /\ e_createdAt new = e_createdAt old
    /\ e_updatedAt new = now
    /\ e_totalScore new = sumScores (e_values new)
    /\ (p_values updateData = None -> e_values new = e_values old)
    /\ length (tbl_kpi_entries db') = length (tbl_kpi_entries db)
    /\ (forall id, id <> entryId -> findById db' id = findById db id).
Proof.
  intros H. apply updateKpiEntry_inv in H
    as (old & template & vs & Hfind & Hs & _ & _ & Hvs & H).
  unfold findByIdAndUpdate in H. injection H as -> ->.
  set (f := setFields (p_kpiTemplateId updateData) (Some vs) (Some (sumScores vs))
              (p_status updateData) (p_createdFor updateData) now).
  assert (Hid : forall e, e_id (f e) = e_id e) by reflexivity.
  assert (Hnew : findById
                   (withEntries db
                      (updateFirst (fun e => Nat.eqb (e_id e) entryId) f
                         (tbl_kpi_entries db))) entryId = Some (f old)).
  { unfold findById. cbn [withEntries tbl_kpi_entries].
    rewrite find_updateFirst_same by assumption.
    unfold findById in Hfind. by rewrite Hfind. }
  exists old, (f old). rewrite Hnew.
  repeat split; try assumption; try reflexivity.
  - cbn. unfold findById in Hfind. apply find_some in Hfind as [_ Heq].
    by apply Nat.eqb_eq.
  - intros Hnone. rewrite Hnone in Hvs. cbn. exact Hvs.
  - cbn [withEntries tbl_kpi_entries]. apply updateFirst_length.
  - intros id Hne. unfold findById. cbn [withEntries tbl_kpi_entries].
    by apply find_updateFirst_other.
Qed.

Lemma updateKpiEntry_effect_witness :
  exists new db',
    updateKpiEntry twoOpenDays 2 (newValues 95) "admin" monday_morning
    = inr (Some new, db')
    /\ e_totalScore new = sumScores (e_values new)
    /\ findById db' 1 = findById twoOpenDays 1.
Proof.
  destruct (updateKpiEntry twoOpenDays 2 (newValues 95) "admin" monday_morning)
    as [err|[r db']] eqn:E; [vm_compute in E; discriminate|].
  destruct (updateKpiEntry_effect _ _ _ _ _ _ _ E)
    as (old & new & _ & -> & _ & _ & _ & _ & _ & _ & Htotal & _ & _ & Hother).
  exists new, db'. split; [reflexivity|]. split; [exact Htotal|].
  apply Hother. discriminate.
Defined.

(** ** Reports: what changes in the store *)

Lemma markGenerated_sameOrLocked ids now e :
  sameOrLocked now e (markGenerated ids now e).
Proof.
  unfold markGenerated, sameOrLocked.
  destruct (existsb _ _); cbn; repeat split; auto.
Qed.

Lemma Forall2_map_r {A B} (R : A -> B -> Prop) (f : A -> B) l :
  (forall a, R a (f a)) -> Forall2 R l (map f l).
Proof. intros H. induction l; constructor; auto. Qed.

Lemma Forall2_same {A} (R : A -> A -> Prop) l :
  (forall a, R a a) -> Forall2 R l l.
Proof. intros H. induction l; constructor; auto. Qed.

Lemma lockedIds_inv db department templateId id :
  In id (lockedIds db department templateId) ->
  exists e, In e (reportEntries db department templateId) /\ e_id e = id.
Proof.
  unfold lockedIds. intros H. apply in_concat in H as (ids & Hids & Hid).
  apply in_map_iff in Hids as (group & <- & _).
  unfold idsToUpdate in Hid.
  apply list_elem_of_In, list_elem_of_omap in Hid as (member & _ & Hm).
  destruct (entriesByMember _ !! m_userId member) as [e|] eqn:He; [|discriminate].
  destruct (negb _); [|discriminate]. injection Hm as <-.
  apply entriesByMember_Some in He as [He _]. eauto.
Qed.

Lemma NoDup_map_inj {A B} (f : A -> B) l a b :
  NoDup (map f l) -> In a l -> In b l -> f a = f b -> a = b.
Proof.
  induction l as [|x l IH]; [contradiction|]. cbn [map].
  intros Hnd Ha Hb Hf. apply NoDup_cons in Hnd as [Hx Hnd].
  destruct Ha as [->|Ha], Hb as [->|Hb]; auto.
  - exfalso. apply Hx. rewrite Hf. apply list_elem_of_In, in_map. exact Hb.
  - exfalso. apply Hx. rewrite <- Hf. apply list_elem_of_In, in_map. exact Ha.
Qed.

(** X12.  A report generation changes no score: entry by entry the
    collection is as before, except that entries may have gone to
    generated at the time of the call, and none goes back to initiated.
    When the ids are distinct, the entries that changed are entries of
    the template, of a roster member, that were not generated. *)
Theorem report_only_locks (db : Db) (department templateId generatedBy : string)
    (now : Z) (report : DepartmentReport) (db' : Db) :
  generateReportByDepartment db department templateId generatedBy now
  = inr (report, db') ->
  kpiTemplates db' = kpiTemplates db
  /\ memberDocs db' = memberDocs db
  /\ Forall2 (sameOrLocked now) (tbl_kpi_entries db) (tbl_kpi_entries db')
  /\ Forall2 (fun old new => e_status old = generated -> e_status new = generated)
       (tbl_kpi_entries db) (tbl_kpi_entries db')
  /\ (NoDup (map e_id (tbl_kpi_entries db)) ->
      Forall2
        (fun old new =>
           new = old
           \/ reportQuery templateId (rosterOf db department) old = true)
        (tbl_kpi_entries db) (tbl_kpi_entries db')).
Proof.
  intros H. apply generateReportByDepartment_inv in H as [_ ->].
  set (ids := lockedIds db department templateId).
  destruct (0 <? length ids)%nat.
  - cbn [withEntries kpiTemplates memberDocs tbl_kpi_entries].
    split; [reflexivity|]. split; [reflexivity|].
    split; [apply Forall2_map_r, markGenerated_sameOrLocked|].
    split.
    + apply Forall2_map_r. intros e He. unfold markGenerated.
      destruct (existsb _ _); [reflexivity | exact He].
    + intros Hnd.
      assert (Hall : Forall (fun old =>
                markGenerated ids now old = old
                \/ reportQuery templateId (rosterOf db department) old = true)
              (tbl_kpi_entries db)).
      { apply Forall_forall. intros old Hold. apply list_elem_of_In in Hold.
        unfold markGenerated.
        destruct (existsb (Nat.eqb (e_id old)) ids) eqn:Hex; [right|by left].
        apply existsb_exists in Hex as (id & Hid & Heq).
        apply Nat.eqb_eq in Heq. subst id.
        apply lockedIds_inv in Hid as (e & He & Hide).
        apply filter_In in He as [He Hq].
        by rewrite <- (NoDup_map_inj e_id _ e old Hnd He Hold Hide). }
      clear Hnd. induction Hall; constructor; auto.
  - split; [reflexivity|]. split; [reflexivity|].
    split; [apply Forall2_same; intros e; unfold sameOrLocked; by repeat split; auto|].
    split; [apply Forall2_same; auto|].
    intros _. apply Forall2_same. auto.
Qed.

Lemma report_only_locks_witness :
  exists report db',
    firstReport twoOpenDays = inr (report, db')
    /\ Forall2 (sameOrLocked monday_morning) (tbl_kpi_entries twoOpenDays)
         (tbl_kpi_entries db')
    /\ map e_status (tbl_kpi_entries db') = [initiated; generated].
Proof.
  destruct (firstReport twoOpenDays) as [err|[report db']] eqn:E;
    [vm_compute in E; discriminate|].
  exists report, db'. split; [reflexivity|].
  destruct (report_only_locks twoOpenDays "sales" "T1" "admin" monday_morning
              report db' E) as (_ & _ & H & _).
  split; [exact H|].
  vm_compute in E. injection E as _ <-. reflexivity.
Defined.

(** ** Ranking any list *)

Lemma filter_perm {A} (p : A -> bool) l l' :
  l ≡ₚ l' -> List.filter p l ≡ₚ List.filter p l'.
Proof.
  induction 1 as [|x l l' _ IH|x y l|l l' l'' _ IH1 _ IH2]; cbn [List.filter].
  - reflexivity.
  - destruct (p x); [by constructor | exact IH].
  - destruct (p x), (p y); try reflexivity. apply Permutation_swap.
  - by rewrite IH1.
Qed.

Lemma scoresAbove_Qeq s s' x :
  (s == s')%Q -> scoresAbove s x = scoresAbove s' x.
Proof.
  intros Hs. unfold scoresAbove. f_equal.
  destruct (Qle_bool (totalScore x) s) eqn:E, (Qle_bool (totalScore x) s') eqn:E';
    try reflexivity.
  - apply Qle_bool_iff in E. assert (totalScore x <= s')%Q as H by lra.
    apply Qle_bool_iff in H. congruence.
  - apply Qle_bool_iff in E'. assert (totalScore x <= s)%Q as H by lra.
    apply Qle_bool_iff in H. congruence.
Qed.

(** In a descending list, the first position of a score is the number of
    elements above it. *)
Lemma firstWithScore_count s (rs : list Ranking) :
  StronglySorted (descending totalScore) rs ->
  (exists r, In r rs /\ (totalScore r == s)%Q) ->
  firstWithScore s rs = length (List.filter (scoresAbove s) rs).
Proof.
  induction 1 as [|a rs Hs IH Ha]; intros (r & Hr & Hrs); [contradiction|].
  cbn [firstWithScore List.filter]. rewrite Forall_forall in Ha.
  destruct (Qeq_bool (totalScore a) s) eqn:E.
  - apply Qeq_bool_iff in E.
    assert (scoresAbove s a = false) as ->.
    { unfold scoresAbove. apply negb_false_iff, Qle_bool_iff. lra. }
    rewrite filter_none; [reflexivity|].
    intros x Hx. unfold scoresAbove. apply negb_false_iff, Qle_bool_iff.
    specialize (Ha x (proj2 (list_elem_of_In _ _) Hx)).
    unfold descending in Ha. lra.
  - apply Qeq_bool_neq in E. destruct Hr as [->|Hr]; [contradiction|].
    pose proof (Ha r (proj2 (list_elem_of_In _ _) Hr)) as Hle.
    unfold descending in Hle.
    assert (scoresAbove s a = true) as ->.
    { unfold scoresAbove. apply negb_true_iff.
      destruct (Qle_bool (totalScore a) s) eqn:E'; [|reflexivity].
      apply Qle_bool_iff in E'. exfalso. apply E. lra. }
    cbn [length]. f_equal. apply IH. eauto.
Qed.

Lemma rankAll_setRanking (rankings : list Ranking) (r : Ranking) :
  In r (rankAll rankings) ->
  exists r0,
    In r0 rankings
    /\ r = setRanking r0
             (S (length (List.filter (scoresAbove (totalScore r0)) rankings))).
Proof.
  intros Hr. unfold rankAll in Hr.
  pose proof (sort_byTotalScoreDesc_sorted rankings) as Hs.
  pose proof (sort_perm byTotalScoreDesc rankings) as Hperm.
  set (sorted := sort byTotalScoreDesc rankings) in *.
  apply list_elem_of_In, list_elem_of_lookup in Hr as [i Hi].
  assert (i < length sorted)%nat as Hlt.
  { apply lookup_lt_Some in Hi. unfold assignRankings in Hi.
    by rewrite assignFrom_length in Hi. }
  destruct (lookup_lt_is_Some_2 sorted i Hlt) as [r0 H0].
  rewrite (assignRankings_lookup sorted i r0 Hs H0) in Hi. injection Hi as <-.
  assert (In r0 sorted) as Hin
    by (apply list_elem_of_In, list_elem_of_lookup; eauto).
  assert (firstWithScore (totalScore r0) sorted
          = length (List.filter (scoresAbove (totalScore r0)) rankings)) as ->.
  { rewrite firstWithScore_count; [|exact Hs|exists r0; split; [exact Hin|reflexivity]].
    apply Permutation_length, filter_perm, Hperm. }
  exists r0. split; [eapply Permutation_in; eassumption | reflexivity].
Qed.

Lemma scoresAbove_fewer (rankings : list Ranking) (r0 : Ranking) :
  In r0 rankings ->
  (length (List.filter (scoresAbove (totalScore r0)) rankings)
   < length rankings)%nat.
Proof.
  intros Hin0. induction rankings as [|x l IH]; [contradiction|].
  cbn [List.filter length]. destruct Hin0 as [->|Hin0].
  - assert (scoresAbove (totalScore r0) r0 = false) as ->.
    { unfold scoresAbove. apply negb_false_iff, Qle_bool_iff. lra. }
    pose proof (filter_length_le (scoresAbove (totalScore r0)) l). lia.
  - specialize (IH Hin0). destruct (scoresAbove (totalScore r0) x); cbn [length]; lia.
Qed.

(** X13.  Whatever the order of the list, sorting and ranking return the
    same members with all their other fields, each once, and set the
    [ranking] of each to the competition rank: one more than the number
    of members with a strictly greater total score, a number between 1
    and the number of members. *)
Theorem rankAll_competition (rankings : list Ranking) :
  map unranked (rankAll rankings) ≡ₚ map unranked rankings
  /\ forall r, In r (rankAll rankings) ->
       ranking r
       = S (length (List.filter (scoresAbove (totalScore r)) rankings))
       /\ (1 <= ranking r <= length rankings)%nat.
Proof.
  split.
  - unfold rankAll, assignRankings. rewrite assignFrom_unranked.
    apply Permutation_map, sort_perm.
  - intros r Hr. apply rankAll_setRanking in Hr as (r0 & H0 & ->).
    cbn [setRanking ranking totalScore]. split; [reflexivity|].
    pose proof (scoresAbove_fewer rankings r0 H0). lia.
Qed.

Lemma rankAll_competition_witness :
  In thirdOfFour (rankAll unsortedExample)
  /\ memberId thirdOfFour = "c"
  /\ ranking thirdOfFour
     = S (length (List.filter (scoresAbove 80) unsortedExample))
  /\ ranking thirdOfFour = 3%nat.
Proof.
  assert (H : In thirdOfFour (rankAll unsortedExample)).
  { vm_compute. right. right. left. reflexivity. }
  split; [exact H|]. split; [reflexivity|].
  destruct (proj2 (rankAll_competition unsortedExample) thirdOfFour H) as [Hrank _].
  split; [exact Hrank | reflexivity].
Defined.

(** ** The role groups of a report *)

Lemma pushMember_keys member (groups : list (string * list Member)) k :
  In k (map fst (pushMember member groups)) ->
  In k (map fst groups) \/ k = m_role member.
Proof.
  induction groups as [|[role members] rest IH]; cbn [pushMember map fst].
  - intros [<-|[]]. by right.
  - destruct (String.eqb role (m_role member)); cbn [map fst].
    + intros H. by left.
    + intros [<-|H]; [left; by left|].
      destruct (IH H) as [?|?]; [left; by right | by right].
Qed.

Lemma pushMember_NoDup member (groups : list (string * list Member)) :
  NoDup (map fst groups) -> NoDup (map fst (pushMember member groups)).
Proof.
  induction groups as [|[role members] rest IH]; cbn [pushMember map fst].
  - intros _. apply NoDup_singleton.
  - intros Hnd. apply NoDup_cons in Hnd as [Hrole Hnd].
    destruct (String.eqb role (m_role member)) eqn:E; cbn [map fst].
    + by apply NoDup_cons.
    + apply NoDup_cons. split; [|by apply IH].
      intros Hin. apply list_elem_of_In, pushMember_keys in Hin as [Hin| ->].
      * by apply Hrole, list_elem_of_In.
      * by rewrite String.eqb_refl in E.
Qed.

Lemma pushMember_groupOfRole member (groups : list (string * list Member)) :
  Forall groupOfRole groups -> Forall groupOfRole (pushMember member groups).
Proof.
  induction 1 as [|[role members] rest [Hne Hall] Hrest IH]; cbn [pushMember].
  - constructor; [|constructor]. split; [discriminate|].
    cbn. constructor; [reflexivity | constructor].
  - destruct (String.eqb role (m_role member)) eqn:E.
    + constructor; [|exact Hrest]. split; cbn [fst snd] in *.
      * destruct members; discriminate.
      * apply Forall_app. split; [exact Hall|].
        constructor; [|constructor]. symmetry. by apply String.eqb_eq.
    + constructor; [by split | exact IH].
Qed.

Lemma groupByRole_groups docs :
  NoDup (map fst (groupByRole docs)) /\ Forall groupOfRole (groupByRole docs).
Proof.
  unfold groupByRole.
  enough (forall groups : list (string * list Member),
             NoDup (map fst groups) -> Forall groupOfRole groups ->
             NoDup (map fst (foldl (fun g m => pushMember m g) groups docs))
             /\ Forall groupOfRole (foldl (fun g m => pushMember m g) groups docs))
    as H by (apply H; constructor).
  induction docs as [|member docs IH]; intros groups Hnd Hall; cbn [foldl].
  - by split.
  - apply IH; [by apply pushMember_NoDup | by apply pushMember_groupOfRole].
Qed.

Lemma sorted_by_keys {A} (key : A -> Q) (l l' : list A) :
  map key l = map key l' ->
  StronglySorted (descending key) l -> StronglySorted (descending key) l'.
Proof.
  intros Hmap Hs. revert l' Hmap.
  induction Hs as [|a l Hs IH Ha]; intros [|a' l'] Hmap; try discriminate.
  - constructor.
  - cbn [map] in Hmap. injection Hmap as Hk Hmap.
    constructor; [by apply IH|].
    apply Forall_forall. intros x Hx. apply list_elem_of_In in Hx.
    assert (In (key x) (map key l)) as Hkx by (rewrite Hmap; by apply in_map).
    apply in_map_iff in Hkx as (y & Hy & Hyl).
    rewrite Forall_forall in Ha. specialize (Ha y (proj2 (list_elem_of_In _ _) Hyl)).
    unfold descending in *. rewrite <- Hk, <- Hy. exact Ha.
Qed.

Lemma assignFrom_scores index currentRank currentScore rankings :
  map totalScore (assignFrom index currentRank currentScore rankings)
  = map totalScore rankings
  /\ map memberRole (assignFrom index currentRank currentScore rankings)
     = map memberRole rankings.
Proof.
  revert index currentRank currentScore.
  induction rankings as [|r rest IH]; intros index currentRank currentScore;
    [split; reflexivity|].
  cbn [assignFrom map]. cbv zeta.
  destruct (IH (S index)
              (if differs (totalScore r) currentScore then (index + 1)%nat
               else currentRank)
              (if differs (totalScore r) currentScore then Some (totalScore r)
               else currentScore)) as [-> ->].
  split; reflexivity.
Qed.

Lemma rankAll_sorted rankings :
  StronglySorted (descending totalScore) (rankAll rankings).
Proof.
  unfold rankAll, assignRankings.
  eapply sorted_by_keys; [|apply sort_byTotalScoreDesc_sorted].
  symmetry. apply assignFrom_scores.
Qed.

Lemma rankAll_length rankings : length (rankAll rankings) = length rankings.
Proof.
  unfold rankAll, assignRankings. rewrite assignFrom_length.
  apply Permutation_length, sort_perm.
Qed.

Lemma completionRateOf_bounds (membersWithEntries totalMembers : nat) :
  (0 < totalMembers)%nat ->
  (membersWithEntries <= totalMembers)%nat ->
  exists q, completionRateOf membersWithEntries totalMembers = Finite q
            /\ (0 <= q <= 100)%Q.
Proof.
  intros Ht Hm. rewrite completionRateOf_nonempty by assumption.
  eexists. split; [reflexivity|]. unfold roundQ.
  set (m := inject_Z (Z.of_nat membersWithEntries)).
  set (t := inject_Z (Z.of_nat totalMembers)).
  assert (0 <= m)%Q as Hm0.
  { subst m. rewrite <- (Zle_Qle 0). lia. }
  assert (0 < t)%Q as Ht0.
  { subst t. rewrite <- (Zlt_Qlt 0). lia. }
  assert (m <= t)%Q as Hmt.
  { subst m t. rewrite <- Zle_Qle. lia. }
  assert (0 <= m / t)%Q as Hq0.
  { apply Qle_shift_div_l; [exact Ht0|]. lra. }
  assert (m / t <= 1)%Q as Hq1.
  { apply Qle_shift_div_r; [exact Ht0|]. lra. }
  split.
  - rewrite <- (Zle_Qle 0). change 0 with (Qfloor (1 # 2)).
    apply Qfloor_resp_le. lra.
  - rewrite <- (Zle_Qle _ 100). change 100 with (Qfloor (100 + (1 # 2))) at 2.
    apply Qfloor_resp_le. lra.
Qed.

(** X14.  In a department report each role of the roster has one role
    report, with at least one member; its rankings are members of that
    role, in descending order of total score, and its completion rate
    is a number between 0 and 100. *)
Theorem report_role_groups (db : Db) (department templateId generatedBy : string)
    (now : Z) (report : DepartmentReport) (db' : Db) :
  generateReportByDepartment db department templateId generatedBy now
  = inr (report, db') ->
  NoDup (map rr_role (dr_roleReports report))
  /\ forall rr, In rr (dr_roleReports report) ->
       rr_rankings rr <> []
       /\ Forall (fun r => memberRole r = rr_role rr) (rr_rankings rr)
       /\ StronglySorted (descending totalScore) (rr_rankings rr)
       /\ totalMembers (rr_statistics rr) = length (rr_rankings rr)
       /\ exists q, completionRate (rr_statistics rr) = Finite q
                    /\ (0 <= q <= 100)%Q.
Proof.
  intros H. apply generateReportByDepartment_inv in H as [-> _].
  destruct (groupByRole_groups (rosterOf db department)) as [Hnd Hgroups].
  split.
  - rewrite map_map. exact Hnd.
  - intros rr Hrr. apply in_map_iff in Hrr as (group & <- & Hgroup).
    rewrite Forall_forall in Hgroups.
    destruct (Hgroups group (proj2 (list_elem_of_In _ _) Hgroup)) as [Hne Hroles].
    unfold roleReportOf. cbn [rr_rankings rr_role rr_statistics].
    set (l := map _ group.2).
    assert (length l = length group.2) as Hlen by (subst l; apply length_map).
    assert (0 < length (rankAll l))%nat as Hpos.
    { rewrite rankAll_length, Hlen. destruct group.2; [contradiction|cbn; lia]. }
    split; [intros E; rewrite E in Hpos; cbn in Hpos; lia|].
    split; [|split; [apply rankAll_sorted|split; [reflexivity|]]].
    + apply Forall_forall. intros r Hr. apply list_elem_of_In in Hr.
      unfold rankAll, assignRankings in Hr.
      apply assignFrom_In in Hr as (r0 & k & H0 & ->). cbn [setRanking memberRole].
      eapply Permutation_in in H0; [|apply sort_perm].
      subst l. apply in_map_iff in H0 as (member & <- & Hmember).
      cbn [rankingOf memberRole]. rewrite Forall_forall in Hroles.
      apply Hroles. by apply list_elem_of_In.
    + unfold statisticsOf. cbn [completionRate].
      apply completionRateOf_bounds; [exact Hpos|]. apply filter_length_le.
Qed.

Lemma report_role_groups_witness :
  exists report db',
    firstReport oneOpenDay = inr (report, db')
    /\ map rr_role (dr_roleReports report) = ["agent"]
    /\ NoDup (map rr_role (dr_roleReports report)).
Proof.
  destruct (firstReport oneOpenDay) as [err|[report db']] eqn:E;
    [vm_compute in E; discriminate|].
  exists report, db'. split; [reflexivity|].
  destruct (report_role_groups oneOpenDay "sales" "T1" "admin" monday_morning
              report db' E) as [Hnd _].
  split; [|exact Hnd].
  vm_compute in E. injection E as <- _. reflexivity.
Defined.

(** ** Statistics *)

Lemma assignFrom_scoreAndEntry index currentRank currentScore rankings :
  map scoreAndEntry (assignFrom index currentRank currentScore rankings)
  = map scoreAndEntry rankings.
Proof.
  revert index currentRank currentScore.
  induction rankings as [|r rest IH]; intros; [reflexivity|].
  cbn [assignFrom map]. cbv zeta. by rewrite IH.
Qed.

Lemma rankAll_scoreAndEntry rankings :
  map scoreAndEntry (rankAll rankings) ≡ₚ map scoreAndEntry rankings.
Proof.
  unfold rankAll, assignRankings. rewrite assignFrom_scoreAndEntry.
  apply Permutation_map, sort_perm.
Qed.

Lemma rankAll_same_fields rankings r :
  In r rankings ->
  exists x, In x (rankAll rankings)
            /\ totalScore x = totalScore r /\ hasEntry x = hasEntry r.
Proof.
  intros Hr.
  assert (In (scoreAndEntry r) (map scoreAndEntry (rankAll rankings))) as H.
  { eapply Permutation_in; [symmetry; apply rankAll_scoreAndEntry|].
    by apply in_map. }
  apply in_map_iff in H as (x & Hx & Hin). injection Hx as Hs He. eauto.
Qed.

Lemma filter_length_map {A B} (f : A -> B) (p : B -> bool) l :
  length (List.filter p (map f l)) = length (List.filter (fun a => p (f a)) l).
Proof.
  induction l as [|a l IH]; [reflexivity|]. cbn [map List.filter].
  destruct (p (f a)); cbn [length]; congruence.
Qed.

Lemma rankAll_withEntries rankings :
  length (List.filter hasEntry (rankAll rankings))
  = length (List.filter hasEntry rankings).
Proof.
  change (List.filter hasEntry (rankAll rankings))
    with (List.filter (fun r => snd (scoreAndEntry r)) (rankAll rankings)).
  change (List.filter hasEntry rankings)
    with (List.filter (fun r => snd (scoreAndEntry r)) rankings).
  rewrite <- !(filter_length_map scoreAndEntry snd).
  apply Permutation_length, filter_perm, rankAll_scoreAndEntry.
Qed.

Lemma sorted_filter {A} (key : A -> Q) (p : A -> bool) l :
  StronglySorted (descending key) l ->
  StronglySorted (descending key) (List.filter p l).
Proof.
  induction 1 as [|a l Hs IH Ha]; [constructor|]. cbn [List.filter].
  destruct (p a); [|exact IH]. constructor; [exact IH|].
  apply Forall_forall. intros x Hx. apply list_elem_of_In, filter_In in Hx as [Hx _].
  rewrite Forall_forall in Ha. apply Ha. by apply list_elem_of_In.
Qed.

Lemma sorted_last_least {A} (key : A -> Q) l z :
  StronglySorted (descending key) l ->
  last l = Some z ->
  forall a, In a l -> (key z <= key a)%Q.
Proof.
  induction 1 as [|x l Hs IH Hx]; [discriminate|].
  intros Hlast a Ha. destruct l as [|y l].
  - cbn in Hlast. injection Hlast as <-. destruct Ha as [->|[]]. lra.
  - change (last (x :: y :: l)) with (last (y :: l)) in Hlast.
    destruct Ha as [<-|Ha]; [|by apply IH].
    rewrite Forall_forall in Hx. apply (Hx z).
    apply list_elem_of_In. destruct (last_Some (y :: l) z) as [H _].
    destruct (H Hlast) as [l' ->]. apply in_or_app. right. by left.
Qed.

Lemma orZero_Qeq x : (orZero x == x)%Q.
Proof.
  unfold orZero. destruct (Qeq_bool x 0) eqn:E; [|reflexivity].
  apply Qeq_bool_iff in E. lra.
Qed.

(** X15.  The statistics of a sorted and ranked list count every member
    once, with or without entry; [highestScore] is at least the total
    score of every member, and [lowestScore] at most that of every
    member with an entry. *)
Theorem statistics_extremes (rankings : list Ranking) (r : Ranking) :
  In r rankings ->
  totalMembers (statisticsOf (rankAll rankings)) = length rankings
  /\ membersWithEntries (statisticsOf (rankAll rankings))
     = length (List.filter hasEntry rankings)
  /\ (membersWithEntries (statisticsOf (rankAll rankings))
      + membersWithoutEntries (statisticsOf (rankAll rankings)))%nat
     = length rankings
  /\ (totalScore r <= highestScore (statisticsOf (rankAll rankings)))%Q
  /\ (hasEntry r = true ->
      (lowestScore (statisticsOf (rankAll rankings)) <= totalScore r)%Q).
Proof.
  intros Hr. unfold statisticsOf.
  cbn [totalMembers membersWithEntries membersWithoutEntries highestScore lowestScore].
  rewrite rankAll_length, rankAll_withEntries.
  pose proof (filter_length_le hasEntry rankings) as Hle.
  split; [reflexivity|]. split; [reflexivity|]. split; [lia|].
  destruct (rankAll_same_fields rankings r Hr) as (x & Hx & Hscore & Hentry).
  pose proof (rankAll_sorted rankings) as Hs.
  split.
  - destruct (rankAll rankings) as [|h rest]; [contradiction|].
    destruct Hx as [->|Hx]; [rewrite Hscore; lra|].
    apply StronglySorted_inv in Hs as [_ Hall].
    rewrite Forall_forall in Hall.
    specialize (Hall x (proj2 (list_elem_of_In _ _) Hx)).
    unfold descending in Hall. by rewrite <- Hscore.
  - intros He. rewrite <- Hentry in He.
    assert (In x (List.filter hasEntry (rankAll rankings))) as Hxf
      by (by apply filter_In).
    assert (0 < length (List.filter hasEntry rankings))%nat as Hpos.
    { rewrite <- rankAll_withEntries.
      destruct (List.filter hasEntry (rankAll rankings)); [contradiction|cbn; lia]. }
    apply Nat.ltb_lt in Hpos. rewrite Hpos.
    destruct (last (List.filter hasEntry (rankAll rankings))) as [z|] eqn:Hlast.
    + rewrite orZero_Qeq, <- Hscore.
      by apply (sorted_last_least totalScore _ z (sorted_filter _ _ _ Hs) Hlast).
    + apply last_None in Hlast. rewrite Hlast in Hxf. contradiction.
Qed.

Lemma statistics_extremes_witness :
  (totalScore (scored "c" 80)
   <= highestScore (statisticsOf (rankAll unsortedExample)))%Q
  /\ (lowestScore (statisticsOf (rankAll unsortedExample))
      <= totalScore (scored "c" 80))%Q.
Proof.
  destruct (statistics_extremes unsortedExample (scored "c" 80)
              (or_introl eq_refl)) as (_ & _ & _ & Hhigh & Hlow).
  split; [exact Hhigh | exact (Hlow eq_refl)].
Defined.

(** ** The counts of a department report *)

Lemma generateReportByDepartment_counts db department templateId generatedBy now
    report db' :
  generateReportByDepartment db department templateId generatedBy now
  = inr (report, db') ->
  dr_entriesUpdated report = length (lockedIds db department templateId)
  /\ ds_totalMembers (dr_departmentStatistics report)
     = length (allRankingsOf report)
  /\ ds_membersWithEntries (dr_departmentStatistics report)
     = length (List.filter hasEntry (allRankingsOf report))
  /\ ds_totalRoles (dr_departmentStatistics report)
     = length (dr_roleReports report)
  /\ ds_completionRate (dr_departmentStatistics report)
     = completionRateOf (length (List.filter hasEntry (allRankingsOf report)))
         (length (allRankingsOf report)).
Proof.
  unfold generateReportByDepartment.
  destruct (getKpiTemplate db templateId) as [template|]; [|discriminate].
  rewrite getMembers_roster. cbn [bind ok]. cbv zeta.
  intros H. unfold ok in H. inversion H; subst. clear H.
  repeat split.
Qed.

Lemma idsToUpdate_length (entriesMap : gmap string KpiEntry) members :
  (forall uid e, entriesMap !! uid = Some e -> e_status e <> generated) ->
  length (idsToUpdate entriesMap members)
  = length (List.filter hasEntry
              (map (fun member => rankingOf member (entriesMap !! m_userId member))
                 members)).
Proof.
  intros Hopen. unfold idsToUpdate.
  induction members as [|member members IH]; [reflexivity|].
  cbn [omap list_omap map List.filter].
  destruct (entriesMap !! m_userId member) as [e|] eqn:He; cbn [rankingOf hasEntry].
  - rewrite bool_decide_eq_true_2 by eauto.
    specialize (Hopen _ _ He).
    destruct (e_status e); [|contradiction]. cbn. f_equal. exact IH.
  - rewrite bool_decide_eq_false_2 by (intros [? ?]; discriminate). exact IH.
Qed.

(** X16.  A department report counts consistently: the number of
    entries it locks is the number of members it shows with an entry,
    the department total is the size of the roster it read, and the
    number of roles is the number of role reports. *)
Theorem report_counts (db : Db) (department templateId generatedBy : string)
    (now : Z) (report : DepartmentReport) (db' : Db) :
  generateReportByDepartment db department templateId generatedBy now
  = inr (report, db') ->
  dr_entriesUpdated report
  = ds_membersWithEntries (dr_departmentStatistics report)
  /\ ds_totalMembers (dr_departmentStatistics report)
     = length (rosterOf db department)
  /\ ds_totalRoles (dr_departmentStatistics report)
     = length (dr_roleReports report)
  /\ (ds_membersWithEntries (dr_departmentStatistics report)
      <= ds_totalMembers (dr_departmentStatistics report))%nat.
Proof.
  intros H.
  destruct (generateReportByDepartment_counts _ _ _ _ _ _ _ H)
    as (Hupd & Htot & Hwith & Hroles & _).
  pose proof (report_covers_roster db department templateId generatedBy now) as Hcov.
  rewrite H in Hcov. cbn [reportOf] in Hcov.
  apply Permutation_length in Hcov. rewrite !length_map in Hcov.
  apply generateReportByDepartment_inv in H as [Hrr _].
  rewrite Hupd, Htot, Hwith, Hroles, Hcov.
  split; [|split; [reflexivity|split; [reflexivity|]]].
  - unfold lockedIds, allRankingsOf. rewrite Hrr.
    set (em := entriesByMember (reportEntries db department templateId)).
    assert (Hopen : forall uid e, em !! uid = Some e -> e_status e <> generated).
    { intros uid e He. apply entriesByMember_Some in He as [He _].
      apply filter_In in He as [_ Hq]. unfold reportQuery in Hq.
      apply andb_true_iff in Hq as [_ Hs]. intros Hg. by rewrite Hg in Hs. }
    clear Hrr.
    induction (groupByRole (rosterOf db department)) as [|group groups IH];
      [reflexivity|].
    cbn [map concat]. rewrite List.filter_app, !length_app, IH.
    f_equal. unfold roleReportOf. cbn [rr_rankings].
    rewrite rankAll_withEntries. by apply idsToUpdate_length.
  - rewrite <- Hcov. apply filter_length_le.
Qed.

Lemma report_counts_witness :
  exists report db',
    firstReport twoOpenDays = inr (report, db')
    /\ dr_entriesUpdated report = 1%nat
    /\ ds_membersWithEntries (dr_departmentStatistics report) = 1%nat.
Proof.
  destruct (firstReport twoOpenDays) as [err|[report db']] eqn:E;
    [vm_compute in E; discriminate|].
  exists report, db'. split; [reflexivity|].
  destruct (report_counts twoOpenDays "sales" "T1" "admin" monday_morning
              report db' E) as (Heq & _).
  rewrite <- Heq. vm_compute in E. injection E as <- _. split; reflexivity.
Defined.

(** ** The department of a report *)

Lemma rankAll_origin rankings r :
  In r (rankAll rankings) -> exists r0 k, In r0 rankings /\ r = setRanking r0 k.
Proof.
  unfold rankAll, assignRankings. intros Hr.
  apply assignFrom_In in Hr as (r0 & k & H0 & ->).
  exists r0, k. split; [|reflexivity].
  eapply Permutation_in; [apply sort_perm | exact H0].
Qed.

Lemma report_ranking_origin db department templateId generatedBy now report db' r :
  generateReportByDepartment db department templateId generatedBy now
  = inr (report, db') ->
  In r (allRankingsOf report) ->
  exists member k,
    In member (rosterOf db department)
    /\ r = setRanking
             (rankingOf member
                (entriesByMember (reportEntries db department templateId)
                 !! m_userId member)) k.
Proof.
  intros Hgen Hr. apply generateReportByDepartment_inv in Hgen as [Hroles _].
  unfold allRankingsOf in Hr. rewrite Hroles in Hr.
  apply in_concat in Hr as (rankings & Hrs & Hr).
  apply in_map_iff in Hrs as (rr & <- & Hrr).
  apply in_map_iff in Hrr as (group & <- & Hgroup).
  unfold roleReportOf in Hr. cbn [rr_rankings] in Hr.
  apply rankAll_origin in Hr as (r0 & k & H0 & ->).
  apply in_map_iff in H0 as (member & <- & Hmember).
  exists member, k. split; [|reflexivity].
  eapply Permutation_in; [apply groupByRole_perm|].
  apply in_concat. exists group.2. split; [|exact Hmember].
  apply in_map_iff. exists group. by split.
Qed.

Lemma In_take {A} (n : nat) (l : list A) (x : A) : In x (take n l) -> In x l.
Proof.
  revert l. induction n as [|n IH]; intros [|a l]; cbn; try tauto.
  intros [->|H]; [by left | right; by apply IH].
Qed.

Lemma filter_all {A} (f : A -> bool) (l : list A) :
  (forall x, f x = true) -> List.filter f l = l.
Proof.
  intros Hf. induction l as [|a l IH]; [reflexivity|].
  cbn [List.filter]. by rewrite Hf, IH.
Qed.

(** X17. A report requested through the handler for a department whose
    name is not blank ranks only members of that department (the name
    as [String.prototype.trim] returns it, without the white space
    around it).  A department name made of white space only passes the
    handler's check of the required fields and selects no department:
    the report then ranks the first 1000 members of the whole
    collection, whatever their department. *)
Theorem report_department_filter (db : Db) (department templateId generatedBy : string)
    (now : Z) (report : DepartmentReport) (db' : Db) :
  Handler.generateReportByDepartment db (Some department) (Some templateId)
    generatedBy now = inr (report, db') ->
  (trim department <> "" ->
   forall r, In r (allRankingsOf report) -> memberDepartment r = trim department)
  /\ (trim department = "" ->
      map memberId (allRankingsOf report)
      ≡ₚ map m_userId (take 1000 (memberDocs db))).
Proof.
  unfold Handler.generateReportByDepartment, falsy.
  destruct (String.eqb department "" || String.eqb templateId ""); [discriminate|].
  cbv [default from_option id]. unfold KpiEntryService_generateReportByDepartment.
  intros Hgen.
  split.
  - intros Hname r Hr.
    destruct (report_ranking_origin _ _ _ _ _ _ _ _ Hgen Hr)
      as (member & k & Hmember & ->).
    cbn [setRanking rankingOf memberDepartment].
    unfold rosterOf in Hmember. apply In_take, filter_In in Hmember as [_ Hq].
    unfold memberQuery, matchesFilter in Hq. rewrite andb_true_r in Hq.
    destruct (String.eqb_spec (trim department) ""); [contradiction|].
    by apply String.eqb_eq.
  - intros Hblank.
    pose proof (report_covers_roster db department templateId generatedBy now) as H.
    rewrite Hgen in H. cbn [reportOf] in H. rewrite H.
    unfold rosterOf. rewrite filter_all; [reflexivity|].
    intros m. unfold memberQuery, matchesFilter. by rewrite Hblank.
Qed.

Lemma report_department_filter_witness :
  exists report db',
    Handler.generateReportByDepartment threeDepartments (Some blankName) (Some "T1")
      "hr" monday_morning = inr (report, db')
    /\ map memberId (allRankingsOf report) ≡ₚ ["u1"; "u2"; "u3"].
Proof.
  destruct (Handler.generateReportByDepartment threeDepartments (Some blankName)
              (Some "T1") "hr" monday_morning) as [err|[report db']] eqn:E;
    [vm_compute in E; discriminate|].
  exists report, db'. split; [reflexivity|].
  apply (report_department_filter threeDepartments blankName "T1" "hr"
           monday_morning report db' E).
  reflexivity.
Defined.

(** White space that is not ASCII is trimmed as well: a no-break space
    after the name does not change the department that is selected. *)
Example trim_noBreakSpace :
  trim ("sales" ++ noBreakSpace) = "sales"
  /\ trim (noBreakSpace ++ " sales team ") = "sales team"
  /\ trim blankName = "".
Proof. repeat split. Qed.

(** ** The statistics of a role *)

Lemma getKpiEntriesStatisticsByDepartmentAndRole_inv db page limit templateId
    department role stats :
  getKpiEntriesStatisticsByDepartmentAndRole db page limit templateId department role
  = inr stats ->
  exists members,
    getMembers db (Some department) (Some role) (numberOr page 1) (numberOr limit 10)
    = inr members
    /\ rs_rankings stats
       = rankAll
           (map (fun member =>
                   rankingOf member
                     (entriesByMember
                        (List.filter
                           (fun e => String.eqb (e_kpiTemplateId e) templateId
                                     && includes (map m_userId members)
                                          (e_createdFor e))
                           (tbl_kpi_entries db))
                      !! m_userId member))
              members).
Proof.
  unfold getKpiEntriesStatisticsByDepartmentAndRole. cbv zeta.
  destruct (getMembers db (Some department) (Some role) (numberOr page 1)
              (numberOr limit 10)) as [err|members]; [discriminate|].
  cbn [bind ok]. intros [= <-]. exists members. split; reflexivity.
Qed.

(** X18. In the statistics of a role, a listed member is shown with an
    entry exactly when the collection holds an entry of the template
    created for that member, whatever its status: entries that a report
    has locked are counted as well, and the status and the score shown
    are those of such an entry. *)
Theorem statistics_ignore_status (db : Db) (page limit : option Z)
    (templateId department role : string) (stats : RoleStatistics) (r : Ranking) :
  getKpiEntriesStatisticsByDepartmentAndRole db page limit templateId department role
  = inr stats ->
  In r (rs_rankings stats) ->
  (hasEntry r = true <->
   exists e, In e (tbl_kpi_entries db)
             /\ e_kpiTemplateId e = templateId /\ e_createdFor e = memberId r)
  /\ (forall st, status r = Some st ->
      exists e, In e (tbl_kpi_entries db)
                /\ e_kpiTemplateId e = templateId /\ e_createdFor e = memberId r
                /\ e_status e = st /\ totalScore r = e_totalScore e).
Proof.
  intros Hstats Hr.
  apply getKpiEntriesStatisticsByDepartmentAndRole_inv in Hstats
    as (members & _ & Hrankings).
  rewrite Hrankings in Hr. apply rankAll_origin in Hr as (r0 & k & H0 & ->).
  apply in_map_iff in H0 as (member & <- & Hmember).
  cbn [setRanking rankingOf hasEntry memberId status totalScore].
  set (kpiEntries := List.filter _ (tbl_kpi_entries db)).
  assert (Hfound : forall e, entriesByMember kpiEntries !! m_userId member = Some e ->
            In e (tbl_kpi_entries db) /\ e_kpiTemplateId e = templateId
            /\ e_createdFor e = m_userId member).
  { intros e He. apply entriesByMember_Some in He as [Hin Hfor].
    apply filter_In in Hin as [Hin Hq]. apply andb_true_iff in Hq as [Ht _].
    apply String.eqb_eq in Ht. by repeat split. }
  split; [split|].
  - intros Hhas. apply bool_decide_eq_true in Hhas as [e He].
    exists e. by apply Hfound.
  - intros (e & Hin & Ht & Hfor). apply bool_decide_eq_true.
    destruct (entriesByMember kpiEntries !! m_userId member) as [e'|] eqn:E;
      [by eexists|].
    exfalso. apply (entriesByMember_None _ _ E e); [|exact Hfor].
    apply filter_In. split; [exact Hin|].
    apply andb_true_iff. split; [by apply String.eqb_eq|].
    apply includes_In. rewrite Hfor. by apply in_map.
  - intros st Hst.
    destruct (entriesByMember kpiEntries !! m_userId member) as [e|] eqn:E;
      [|discriminate].
    cbn in Hst. injection Hst as <-. exists e.
    destruct (Hfound e eq_refl) as (Hin & Ht & Hfor). by repeat split.
Qed.

Lemma statistics_ignore_status_witness :
  exists stats r,
    getKpiEntriesStatisticsByDepartmentAndRole lockedToday None None "T1" "sales"
      "agent" = inr stats
    /\ rs_rankings stats = [r]
    /\ status r = Some generated
    /\ hasEntry r = true.
Proof.
  destruct (getKpiEntriesStatisticsByDepartmentAndRole lockedToday None None "T1"
              "sales" "agent") as [err|stats] eqn:E;
    [vm_compute in E; discriminate|].
  destruct (rs_rankings stats) as [|r [|]] eqn:Hrs;
    [vm_compute in E; injection E as <-; discriminate Hrs | |
     vm_compute in E; injection E as <-; discriminate Hrs].
  exists stats, r. split; [reflexivity|]. split; [exact Hrs|].
  assert (Hr : In r (rs_rankings stats)) by (rewrite Hrs; by left).
  destruct (statistics_ignore_status lockedToday None None "T1" "sales" "agent"
              stats r E Hr) as [Hhas _].
  split.
  - vm_compute in E. injection E as <-. vm_compute in Hrs. injection Hrs as <-.
    reflexivity.
  - apply Hhas. exists (entryOf 1 "T1" (at_ 2024 1 15 9 0) generated).
    split; [by left|]. split; [reflexivity|].
    vm_compute in E. injection E as <-. vm_compute in Hrs. injection Hrs as <-.
    reflexivity.
Defined.

(** ** Pages of entries *)

Lemma Qceiling_quotient (a : Z) (b : positive) :
  Qceiling (inject_Z a / inject_Z (Z.pos b)) = - ((- a) / Z.pos b).
Proof.
  unfold Qceiling, Qfloor, Qdiv, Qinv, Qmult, Qopp, inject_Z. cbn.
  rewrite Z.mul_1_r. reflexivity.
Qed.

Lemma ceiling_least (a b : Z) :
  0 < b ->
  exists n, Qceiling (inject_Z a / inject_Z b) = n /\ (n - 1) * b < a <= n * b.
Proof.
  intros Hb. destruct b as [|b|b]; try lia.
  rewrite Qceiling_quotient. eexists. split; [reflexivity|].
  pose proof (Z.div_mod (- a) (Z.pos b) ltac:(lia)) as Hdiv.
  pose proof (Z.mod_pos_bound (- a) (Z.pos b) ltac:(lia)) as Hmod.
  nia.
Qed.

Lemma divide_positive (a b : Z) :
  0 < b -> divide (inject_Z a) (inject_Z b) = Finite (inject_Z a / inject_Z b).
Proof.
  intros Hb. unfold divide.
  destruct (Qeq_bool (inject_Z b) 0) eqn:E; [|reflexivity].
  apply Qeq_bool_iff in E. unfold Qeq, inject_Z in E. cbn in E. lia.
Qed.

Lemma take_add {A} (a b : nat) (l : list A) :
  take (a + b) l = take a l ++ take b (drop a l).
Proof.
  revert l. induction a as [|a IH]; intros [|x l]; cbn; try reflexivity.
  - by destruct b.
  - by rewrite IH.
Qed.

Lemma getKpiEntriesByFilter_docs db page limit filter :
  1 <= page -> 1 <= limit ->
  exists p,
    getKpiEntriesByFilter db (Some page) (Some limit) filter = inr p
    /\ pd_docs p
       = take (Z.to_nat limit)
           (drop (Z.to_nat ((page - 1) * limit))
              (List.filter filter (tbl_kpi_entries db)))
    /\ pd_totalPages p
       = Finite (inject_Z (Qceiling
           (inject_Z (Z.of_nat (length (List.filter filter (tbl_kpi_entries db))))
            / inject_Z limit)))
    /\ pd_hasNextPage p = lessThan page (pd_totalPages p)
    /\ pd_hasPreviousPage p = (1 <? page).
Proof.
  intros Hpage Hlimit. unfold getKpiEntriesByFilter, skipLimit.
  cbv [default from_option id].
  destruct ((page - 1) * limit <? 0) eqn:Hskip; [apply Z.ltb_lt in Hskip; nia|].
  destruct (limit =? 0) eqn:Hzero; [apply Z.eqb_eq in Hzero; lia|].
  cbn [bind ok]. eexists. split; [reflexivity|]. cbn.
  rewrite divide_positive by lia. cbn [MathCeil].
  rewrite Z.abs_eq by lia. repeat split; reflexivity.
Qed.

(** X19. For a page number and a page size of at least 1, the query
    succeeds and returns the entries that match the filter from position
    (page - 1) * limit on, at most [limit] of them; the announced number
    of pages is the least number of pages of that size that hold all the
    matching entries; and [hasNextPage] is set exactly when matching
    entries remain after this page. *)
Theorem getKpiEntriesByFilter_page (db : Db) (page limit : Z)
    (filter : KpiEntry -> bool) :
  1 <= page -> 1 <= limit ->
  exists p n,
    getKpiEntriesByFilter db (Some page) (Some limit) filter = inr p
    /\ pd_docs p
       = take (Z.to_nat limit)
           (drop (Z.to_nat ((page - 1) * limit))
              (List.filter filter (tbl_kpi_entries db)))
    /\ (length (pd_docs p) <= Z.to_nat limit)%nat
    /\ pd_totalPages p = Finite (inject_Z n)
    /\ (n - 1) * limit < Z.of_nat (pd_total p) <= n * limit
    /\ (pd_hasNextPage p = true <-> page * limit < Z.of_nat (pd_total p))
    /\ (pd_hasNextPage p = true
        <-> drop (Z.to_nat (page * limit))
              (List.filter filter (tbl_kpi_entries db)) <> []).
Proof.
  intros Hpage Hlimit.
  destruct (getKpiEntriesByFilter_docs db page limit filter Hpage Hlimit)
    as (p & Hp & Hdocs & Hpages & Hnext & _).
  assert (Htotal : pd_total p = length (List.filter filter (tbl_kpi_entries db))).
  { unfold getKpiEntriesByFilter in Hp.
    destruct (skipLimit _ _ _) as [err|docs]; [discriminate|].
    cbn [bind ok] in Hp. by injection Hp as <-. }
  destruct (ceiling_least
              (Z.of_nat (length (List.filter filter (tbl_kpi_entries db)))) limit
              ltac:(lia)) as (n & Hn & Hleast).
  rewrite Hn in Hpages.
  assert (Hiff : pd_hasNextPage p = true <-> page * limit < Z.of_nat (pd_total p)).
  { rewrite Hnext, Hpages, Htotal. cbn [lessThan]. rewrite negb_true_iff.
    split.
    - intros Hle. destruct (Z_lt_le_dec page n) as [Hlt|Hge]; [nia|].
      rewrite Zle_Qle in Hge. apply Qle_bool_iff in Hge. congruence.
    - intros Hlt. destruct (Qle_bool (inject_Z n) (inject_Z page)) eqn:E;
        [|reflexivity].
      apply Qle_bool_iff in E. rewrite <- Zle_Qle in E. nia. }
  exists p, n. split; [exact Hp|]. split; [exact Hdocs|].
  split; [rewrite Hdocs, length_take; lia|].
  split; [exact Hpages|]. split; [by rewrite Htotal|]. split; [exact Hiff|].
  rewrite Hiff, Htotal. split.
  - intros Hlt Hnil. apply (f_equal length) in Hnil.
    rewrite length_drop in Hnil. cbn in Hnil. nia.
  - intros Hne. destruct (Z_lt_le_dec
      (page * limit) (Z.of_nat (length (List.filter filter (tbl_kpi_entries db)))))
      as [Hlt|Hge]; [exact Hlt|].
    destruct Hne. apply drop_ge. nia.
Qed.

Lemma getKpiEntriesByFilter_page_witness :
  exists p,
    getKpiEntriesByFilter twoOpenDays (Some 1) (Some 1) (fun _ => true) = inr p
    /\ length (pd_docs p) = 1%nat
    /\ pd_hasNextPage p = true.
Proof.
  destruct (getKpiEntriesByFilter_page twoOpenDays 1 1 (fun _ => true)
              ltac:(lia) ltac:(lia))
    as (p & n & Hp & Hdocs & _ & _ & _ & Hnext & _).
  exists p. split; [exact Hp|]. split.
  - rewrite Hdocs. reflexivity.
  - apply Hnext. vm_compute in Hp. injection Hp as <-. reflexivity.
Defined.

Lemma docsOfPage_slice db limit filter (page : nat) :
  1 <= limit -> (1 <= page)%nat ->
  docsOfPage db limit filter page
  = take (Z.to_nat limit)
      (drop ((page - 1) * Z.to_nat limit)
         (List.filter filter (tbl_kpi_entries db))).
Proof.
  intros Hlimit Hpage. unfold docsOfPage.
  destruct (getKpiEntriesByFilter_docs db (Z.of_nat page) limit filter
              ltac:(lia) Hlimit) as (p & -> & -> & _).
  do 2 f_equal. nia.
Qed.

Lemma pages_concat db limit filter (n : nat) :
  1 <= limit ->
  concat (map (docsOfPage db limit filter) (seq 1 n))
  = take (n * Z.to_nat limit) (List.filter filter (tbl_kpi_entries db)).
Proof.
  intros Hlimit. induction n as [|n IH]; [reflexivity|].
  rewrite seq_S, map_app, concat_app, IH. cbn [map concat Nat.add].
  rewrite app_nil_r, docsOfPage_slice by lia.
  replace (S n - 1)%nat with n by lia.
  replace (S n * Z.to_nat limit)%nat with (n * Z.to_nat limit + Z.to_nat limit)%nat
    by lia.
  by rewrite take_add.
Qed.

(** X20. For a page size of at least 1, the pages 1 to [totalPages] of a
    filter, one after the other, are exactly the entries that match the
    filter, in the order of the collection: no entry is skipped and none
    is on two pages. *)
Theorem pages_cover_matches (db : Db) (limit : Z) (filter : KpiEntry -> bool)
    (p : Paged) :
  1 <= limit ->
  getKpiEntriesByFilter db (Some 1) (Some limit) filter = inr p ->
  concat (map (docsOfPage db limit filter) (seq 1 (pageCount p)))
  = List.filter filter (tbl_kpi_entries db).
Proof.
  intros Hlimit Hp.
  destruct (getKpiEntriesByFilter_docs db 1 limit filter ltac:(lia) Hlimit)
    as (p' & Hp' & _ & Hpages & _).
  rewrite Hp in Hp'. injection Hp' as <-.
  rewrite pages_concat by exact Hlimit.
  apply take_ge. unfold pageCount. rewrite Hpages.
  rewrite Qceiling_Z.
  destruct (ceiling_least
              (Z.of_nat (length (List.filter filter (tbl_kpi_entries db)))) limit
              ltac:(lia)) as (n & -> & Hleast).
  nia.
Qed.

Lemma pages_cover_matches_witness :
  exists p,
    getKpiEntriesByFilter twoOpenDays (Some 1) (Some 1) (fun _ => true) = inr p
    /\ pageCount p = 2%nat
    /\ docsOfPage twoOpenDays 1 (fun _ => true) 1
       ++ docsOfPage twoOpenDays 1 (fun _ => true) 2
       = tbl_kpi_entries twoOpenDays.
Proof.
  destruct (getKpiEntriesByFilter twoOpenDays (Some 1) (Some 1) (fun _ => true))
    as [err|p] eqn:E; [vm_compute in E; discriminate|].
  exists p. split; [reflexivity|].
  assert (Hcount : pageCount p = 2%nat)
    by (vm_compute in E; injection E as <-; reflexivity).
  split; [exact Hcount|].
  pose proof (pages_cover_matches twoOpenDays 1 (fun _ => true) p ltac:(lia) E) as H.
  rewrite Hcount in H. cbn [seq map concat] in H. rewrite app_nil_r in H.
  exact H.
Defined.

(** ** System-generated entries *)

Lemma KpiEntryModel_create_requires db kpiTemplateId values total st createdBy
    createdFor now :
  required createdFor = false ->
  KpiEntryModel_create db kpiTemplateId values total st createdBy createdFor now
  = throw ValidationError.
Proof.
  intros H. unfold KpiEntryModel_create. by rewrite H, andb_false_r.
Qed.

Lemma createSystemGeneratedEntry_fails db kpiTemplateId userId systemValues now :
  exists error,
    Prototype.createSystemGeneratedEntry db kpiTemplateId userId systemValues now
    = inl error.
Proof.
  unfold Prototype.createSystemGeneratedEntry.
  destruct (getKpiTemplate db kpiTemplateId) as [template|]; [|by eexists].
  destruct (validateAndCalculateScores _ _) as [err|validated]; [by eexists|].
  cbn [bind]. rewrite KpiEntryModel_create_requires by reflexivity. by eexists.
Qed.

(** X21. The two methods for system-generated entries never create an
    entry: [createSystemGeneratedEntry] fails for every template, user
    and list of system values, also for an empty list of values, which
    passes the validation of the values, because the document it saves
    has no [createdFor]; and [bulkCreateSystemEntries] leaves the
    collection as it was and returns (an empty list) only for an empty
    list of entries. *)
Theorem system_entries_never_created (db : Db) (entries : list SystemEntry) (now : Z) :
  (forall kpiTemplateId userId systemValues, exists error,
     Prototype.createSystemGeneratedEntry db kpiTemplateId userId systemValues now
     = inl error)
  /\ (bulkCreateSystemEntries db entries now).2 = db
  /\ (forall createdEntries,
        (bulkCreateSystemEntries db entries now).1 = inr createdEntries <->
        entries = [] /\ createdEntries = []).
Proof.
  split; [intros; apply createSystemGeneratedEntry_fails|].
  destruct entries as [|entry rest]; cbn [bulkCreateSystemEntries].
  - split; [reflexivity|]. intros created. cbn. split.
    + intros [= <-]. by split.
    + intros [_ ->]. reflexivity.
  - destruct (createSystemGeneratedEntry_fails db (se_kpiTemplateId entry)
                (se_userId entry) (se_systemValues entry) now) as [error ->].
    split; [reflexivity|]. intros created. cbn. split; [discriminate|].
    intros [Hnil _]. discriminate.
Qed.

(** ** The statistics of the entries *)

Lemma sumScores_from (acc : Q) (values : list EntryValue) :
  (foldl (fun sum value => sum + ev_score value) acc values
   == acc + sumScores values)%Q.
Proof.
  unfold sumScores. revert acc.
  induction values as [|v values IH]; intros acc; cbn [foldl].
  - lra.
  - rewrite IH, (IH (0 + ev_score v)%Q). lra.
Qed.

Lemma sumScores_app (a b : list EntryValue) :
  (sumScores (a ++ b) == sumScores a + sumScores b)%Q.
Proof.
  unfold sumScores at 1. rewrite foldl_app, sumScores_from.
  fold (sumScores a). reflexivity.
Qed.

Lemma sumScores_concat (entries : list KpiEntry) :
  Forall (fun e => e_totalScore e = sumScores (e_values e)) entries ->
  (sumScores (concat (map e_values entries)) == sumTotals entries)%Q.
Proof.
  induction 1 as [|e entries He _ IH]; [reflexivity|].
  cbn [map concat sumTotals foldr]. rewrite sumScores_app, IH, He. reflexivity.
Qed.

Lemma Forall_filter_keep {A} (P : A -> Prop) (f : A -> bool) (l : list A) :
  Forall P l -> Forall P (List.filter f l).
Proof.
  intros H. apply List.Forall_forall. intros x Hx.
  apply filter_In in Hx as [Hx _]. rewrite List.Forall_forall in H. by apply H.
Qed.

(** X22. When the total of every stored entry is the sum of the scores of
    its values (which the service preserves), the [totalScores] of the
    entry statistics, computed from the values, is the sum of the stored
    totals of the entries that match the filter, and [totalEntries] is
    their number; this holds also when no value is unwound and the
    aggregation returns no group. *)
Theorem getKpiEntryStatistics_totals (db : Db) (filter : KpiEntry -> bool) :
  consistentTotals db ->
  (getKpiEntryStatistics db filter).1
  = length (List.filter filter (tbl_kpi_entries db))
  /\ ((getKpiEntryStatistics db filter).2
      == sumTotals (List.filter filter (tbl_kpi_entries db)))%Q.
Proof.
  intros Hdb. split; [reflexivity|].
  unfold getKpiEntryStatistics. cbv zeta. cbn [snd].
  pose proof (sumScores_concat _ (Forall_filter_keep _ filter _ Hdb)) as Hsum.
  destruct (concat (map e_values (List.filter filter (tbl_kpi_entries db))))
    as [|v values] eqn:E.
  - rewrite <- Hsum. reflexivity.
  - rewrite <- Hsum. unfold orZero.
    destruct (Qeq_bool (sumScores (v :: values)) 0) eqn:Hz; [|reflexivity].
    apply Qeq_bool_iff in Hz. by rewrite Hz.
Qed.

Lemma getKpiEntryStatistics_totals_witness :
  (getKpiEntryStatistics twoOpenDays (fun _ => true)).1 = 2%nat
  /\ ((getKpiEntryStatistics twoOpenDays (fun _ => true)).2 == 6)%Q.
Proof.
  assert (H : consistentTotals twoOpenDays)
    by (repeat constructor).
  destruct (getKpiEntryStatistics_totals twoOpenDays (fun _ => true) H) as [Hn Hs].
  split; [rewrite Hn; reflexivity | rewrite Hs; reflexivity].
Defined.

(** ** Maximum marks *)

Lemma findItem_withMaxMarks marks templateItems name :
  findItem (map (withMaxMarks marks) templateItems) name
  = withMaxMarks marks <$> findItem templateItems name.
Proof.
  unfold findItem. induction templateItems as [|item rest IH]; [reflexivity|].
  cbn [map List.find withMaxMarks ti_name].
  destruct (String.eqb (ti_name item) name); [reflexivity | exact IH].
Qed.

Lemma validateValue_withMaxMarks marks templateItems value :
  validateValue (map (withMaxMarks marks) templateItems) value
  = validateValue templateItems value.
Proof.
  unfold validateValue. rewrite findItem_withMaxMarks.
  destruct (findItem templateItems (vi_name value)) as [item|]; reflexivity.
Qed.

Lemma validateRequiredValues_withMaxMarks marks values templateItems :
  validateRequiredValues values (map (withMaxMarks marks) templateItems)
  = validateRequiredValues values templateItems.
Proof.
  unfold validateRequiredValues. cbv zeta.
  assert (H : forall q : TemplateItem -> bool,
            (forall item, q (withMaxMarks marks item) = q item) ->
            map ti_name (List.filter q (map (withMaxMarks marks) templateItems))
            = map ti_name (List.filter q templateItems)).
  { intros q Hq. induction templateItems as [|item rest IH]; [reflexivity|].
    cbn [map List.filter]. rewrite Hq. destruct (q item); [|exact IH].
    cbn [map]. by rewrite IH. }
  rewrite H; reflexivity.
Qed.

(** X23. The maximum marks of a template item are never looked at when
    values are validated and scored: with any other maximum marks the
    validation gives the same result, scores and errors.  So nothing
    keeps a score at or below the maximum marks of its item; a directly
    scored value, for one, is taken as the score as it is. *)
Theorem maxMarks_not_enforced (marks : TemplateItem -> Q) (values : list ValueInput)
    (templateItems : list TemplateItem) :
  validateAndCalculateScores values (map (withMaxMarks marks) templateItems)
  = validateAndCalculateScores values templateItems
  /\ (forall item value n,
        ti_kpiType item = score ->
        ti_name item = vi_name value ->
        vi_value value = VNum n ->
        default false (vi_isByPassed value) = false ->
        validateAndCalculateScores [value] [item] = ok [withScore value n]).
Proof.
  split.
  - unfold validateAndCalculateScores.
    rewrite validateRequiredValues_withMaxMarks.
    destruct (validateRequiredValues values templateItems) as [err|[]];
      [reflexivity|].
    cbn [bind]. induction values as [|value rest IH]; [reflexivity|].
    cbn [validateLoop]. by rewrite validateValue_withMaxMarks, IH.
  - intros item value n Htype Hname Hvalue Hbypass.
    unfold validateAndCalculateScores, validateRequiredValues, includes.
    cbn [map List.filter existsb]. rewrite Hname, String.eqb_refl.
    cbn [orb negb andb map length Nat.ltb Nat.leb bind ok validateLoop].
    unfold validateValue, findItem. cbn [List.find].
    rewrite Hname, String.eqb_refl, Hbypass.
    unfold checkValueType, calculateScore. rewrite Htype, Hvalue.
    rewrite andb_false_r. reflexivity.
Qed.

Lemma maxMarks_not_enforced_witness :
  validateAndCalculateScores [bonusInput 1000] [directScore]
  = ok [withScore (bonusInput 1000) 1000].
Proof.
  apply (maxMarks_not_enforced ti_maxMarks [] []); reflexivity.
Defined.
